(** * LEEA: hazard aggregation, portfolio exposure and the fallback briefing cycle

    A shallow embedding of the Python sources under [app/]:

    - [app/tools/earthquake_tool.py]  ([_feed_for], [_buffer_km_for_mag],
      [_filter_bbox], [fetch_recent_earthquakes]),
    - [app/tools/alerts_tool.py]      ([_build_params], [_union_features],
      [fetch_active_alerts]),
    - [app/tools/portfolio_tool.py]   ([_compute_bounds],
      [compute_portfolio_exposure]),
    - [app/tools/news_tool.py]        ([_summarize_article_via_newspaper],
      [fetch_live_news]),
    - [app/tools/weather_tool.py]     ([_parse_gis_feed_for_cone_links],
      [_load_cone_geojson], [_load_cone_shapefile_zip], [fetch_current_cone]),
    - [app/utils/http.py]             ([HttpClient._mask_params], [get_json],
      [get_text], [get_feed]),
    - [app/agent.py]                  ([run_cycle]).

    Conventions of the embedding.

    - A Python [float] is a [pyfloat]: a rational, one of the two
      infinities, or NaN.  Comparisons are the IEEE ones (every comparison with
      NaN is false).  An addition ([fadd]) and the exposure ratio ([fdiv64])
      are rounded to binary64, to nearest with ties to even, and overflow to
      an infinity ([round64]); the sum of a pandas column is an operation of
      the class [Pandas], since the order and grouping in which numpy adds
      its entries are its own.  The one quotient left exact is the buffer
      radius in degrees, [km / 111.0].  The sign of a zero is not modelled.
    - A value decoded from JSON is a [pyval]; a dict is an association list in
      key order, looked up from the front.
    - A call that may raise returns a [result]; [except Exception] is
      [try_except].
    - The external libraries (the Python runtime's string/number conversions,
      shapely, pandas' sort) are the operations of the classes [Python],
      [Shapely] and [Pandas]; what is assumed of them is stated as an explicit
      hypothesis of each theorem that needs it.
    - The outside world of one cycle (agent, clock, file system) is a [World]
      of oracles; what a tool sees while a given state runs (HTTP endpoints,
      portfolio file) is the [Env] that [env_at] gives for that state.
    - A string is a string of bytes: [upper] and [lower] map the ASCII letters
      and leave every other byte as it is, and [strip] removes the ASCII
      blanks.  They are Python's on text written in ASCII ([ascii_text]).
    - The HTTP client is a record whose [session_get] is the retrying
      transport; what it logs is the list of [LogRecord]s (level, template,
      keyword arguments) returned beside the result, the formatting of the
      sink being left out.
    - What the cone loader does with the file system (writing, unpacking and
      reading the archive), [feedparser] and shapely's [Polygon] are the
      operations of the class [Nhc]. *)

From Stdlib Require Import List String Ascii Bool Arith ZArith QArith Lia Lqa.
From Stdlib Require Import Permutation Sorted DecimalString.
Import ListNotations.
Open Scope string_scope.

Set Implicit Arguments.
Set Warnings "-register-all".

(** ** Exceptions and results *)

Inductive exn_class : Type :=
| ValueError | TypeError | KeyError | IndexError | AttributeError
| RuntimeError | ZeroDivisionError | OverflowError
| ExternalError (name : string).

Record exn : Type := Exn { exn_type : exn_class; exn_msg : string }.

Inductive result (A : Type) : Type :=
| Ok (a : A)
| Raise (e : exn).
Arguments Ok {A} a.
Arguments Raise {A} e.

Definition bind {A B : Type} (m : result A) (k : A -> result B) : result B :=
  match m with
  | Ok a => k a
  | Raise e => Raise e
  end.

Definition try_except {A : Type} (m : result A) (handler : exn -> result A) : result A :=
  match m with
  | Ok a => Ok a
  | Raise e => handler e
  end.

Declare Scope py_scope.
Delimit Scope py_scope with py.
Notation "x <- m ;; k" := (bind m (fun x => k))
  (at level 100, m at next level, right associativity) : py_scope.
Notation "' p <- m ;; k" := (bind m (fun p => k))
  (at level 100, p pattern, m at next level, right associativity) : py_scope.
Open Scope py_scope.

Definition raise {A : Type} (c : exn_class) (msg : string) : result A :=
  Raise (Exn c msg).

Definition is_ok {A : Type} (r : result A) : bool :=
  match r with Ok _ => true | Raise _ => false end.

Fixpoint mapM {A B : Type} (f : A -> result B) (l : list A) : result (list B) :=
  match l with
  | [] => Ok []
  | a :: l' => b <- f a ;; bs <- mapM f l' ;; Ok (b :: bs)
  end.

(** ** Python floats *)

Inductive pyfloat : Type :=
| FNum (q : Q)
| FInf
| FNegInf
| FNaN.

Definition fle (a b : pyfloat) : bool :=
  match a, b with
  | FNaN, _ | _, FNaN => false
  | FNegInf, _ => true
  | _, FInf => true
  | FNum x, FNum y => Qle_bool x y
  | _, _ => false
  end.

Definition flt (a b : pyfloat) : bool :=
  match a, b with
  | FNaN, _ | _, FNaN => false
  | FNum x, FNum y => negb (Qle_bool y x)
  | FNegInf, FNegInf => false
  | FNegInf, _ => true
  | FInf, _ => false
  | FNum _, FInf => true
  | FNum _, FNegInf => false
  end.

Definition fge (a b : pyfloat) : bool := fle b a.
Definition fgt (a b : pyfloat) : bool := flt b a.

Definition is_nan (a : pyfloat) : bool :=
  match a with FNaN => true | _ => false end.

Definition fneg (a : pyfloat) : pyfloat :=
  match a with
  | FNum x => FNum (- x)
  | FInf => FNegInf
  | FNegInf => FInf
  | FNaN => FNaN
  end.

(** *** Rounding to binary64 *)

(** The integer nearest to [n / d], the even one of two that are equally
    near, for [n >= 0]. *)
Definition round_half_even (n : Z) (d : positive) : Z :=
  let f := (n / Zpos d)%Z in
  match (2 * (n mod Zpos d) ?= Zpos d)%Z with
  | Lt => f
  | Gt => (f + 1)%Z
  | Eq => if Z.even f then f else (f + 1)%Z
  end.

(** The exponent [e] with [2^e <= n / d < 2^(e+1)]. *)
Definition binade (n d : positive) : Z :=
  let e := (Z.log2 (Zpos n) - Z.log2 (Zpos d))%Z in
  if (if 0 <=? e then 2 ^ e * Zpos d <=? Zpos n else Zpos d <=? 2 ^ (- e) * Zpos n)%Z
  then e else (e - 1)%Z.

(** The binary64 value nearest to [n / d]: 53 significant bits, the last
    place never below [2^-1074], ties to even, infinity from [2^1024] on. *)
Definition round64_pos (n d : positive) : pyfloat :=
  let ulp := (Z.max (binade n d) (-1022) - 52)%Z in
  if (0 <=? ulp)%Z then
    let m := round_half_even (Zpos n) (d * Z.to_pos (2 ^ ulp)) in
    if (2 ^ 1024 <=? m * 2 ^ ulp)%Z then FInf else FNum (inject_Z (m * 2 ^ ulp))
  else
    let m := round_half_even (Zpos n * 2 ^ (- ulp)) d in
    FNum (Qred (m # Z.to_pos (2 ^ (- ulp)))).

(** The float a real number rounds to (round to nearest, ties to even). *)
Definition round64 (q : Q) : pyfloat :=
  match Qnum q with
  | Z0 => FNum 0
  | Zpos n => round64_pos n (Qden q)
  | Zneg n => fneg (round64_pos n (Qden q))
  end.

(** [a + b] on floats: the sum, rounded. *)
Definition fadd (a b : pyfloat) : pyfloat :=
  match a, b with
  | FNaN, _ | _, FNaN => FNaN
  | FNum x, FNum y => round64 (x + y)
  | FInf, FNegInf | FNegInf, FInf => FNaN
  | FInf, _ | _, FInf => FInf
  | FNegInf, _ | _, FNegInf => FNegInf
  end.

(** The exact quotient [a / b] of two floats: a zero divisor raises, whatever
    the dividend. *)
Definition fdiv (a b : pyfloat) : result pyfloat :=
  match b with
  | FNum y =>
      if Qeq_bool y 0 then raise ZeroDivisionError "float division by zero"
      else match a with
           | FNum x => Ok (FNum (x / y))
           | FInf => Ok (if Qle_bool 0 y then FInf else FNegInf)
           | FNegInf => Ok (if Qle_bool 0 y then FNegInf else FInf)
           | FNaN => Ok FNaN
           end
  | FInf | FNegInf =>
      match a with
      | FNum _ => Ok (FNum 0)
      | _ => Ok FNaN
      end
  | FNaN => Ok FNaN
  end.

(** [a / b] on floats: the quotient, rounded. *)
Definition fdiv64 (a b : pyfloat) : result pyfloat :=
  q <- fdiv a b ;;
  Ok (match q with
      | FNum x => round64 x
      | other => other
      end).

Definition fmin (a b : pyfloat) : pyfloat := if flt b a then b else a.
Definition fmax (a b : pyfloat) : pyfloat := if fgt b a then b else a.

(** Python's [min(l)] and [max(l)] on a non-empty list: the first extremal
    element, scanned left to right. *)
Definition py_min (x : pyfloat) (l : list pyfloat) : pyfloat := fold_left fmin l x.
Definition py_max (x : pyfloat) (l : list pyfloat) : pyfloat := fold_left fmax l x.

(** ** Python values *)

Inductive pyval : Type :=
| PNone
| PBool (b : bool)
| PInt (z : Z)
| PFloat (f : pyfloat)
| PStr (s : string)
| PList (l : list pyval)
| PDict (d : list (string * pyval)).

Definition pydict : Type := list (string * pyval).

Fixpoint lookup (k : string) (d : pydict) : option pyval :=
  match d with
  | [] => None
  | (k', v) :: d' => if String.eqb k k' then Some v else lookup k d'
  end.

(** [bool(v)]: NaN is truthy, zero of either numeric type is not. *)
Definition truthy (v : pyval) : bool :=
  match v with
  | PNone => false
  | PBool b => b
  | PInt z => negb (Z.eqb z 0)
  | PFloat (FNum q) => negb (Qeq_bool q 0)
  | PFloat _ => true
  | PStr s => negb (String.eqb s "")
  | PList l => match l with [] => false | _ => true end
  | PDict d => match d with [] => false | _ => true end
  end.

(** [x or y] *)
Definition py_or (x y : pyval) : pyval := if truthy x then x else y.

(** [v.get(k, dflt)]: only a dict has the method. *)
Definition py_get_default (v : pyval) (k : string) (dflt : pyval) : result pyval :=
  match v with
  | PDict d => Ok (match lookup k d with Some x => x | None => dflt end)
  | _ => raise AttributeError "object has no attribute 'get'"
  end.

(** [v.get(k)] *)
Definition py_get (v : pyval) (k : string) : result pyval := py_get_default v k PNone.

(** [v[k]] for a string key. *)
Definition py_getitem (v : pyval) (k : string) : result pyval :=
  match v with
  | PDict d => match lookup k d with
               | Some x => Ok x
               | None => raise KeyError k
               end
  | PNone => raise TypeError "'NoneType' object is not subscriptable"
  | PBool _ | PInt _ | PFloat _ => raise TypeError "object is not subscriptable"
  | PStr _ => raise TypeError "string indices must be integers"
  | PList _ => raise TypeError "list indices must be integers or slices"
  end.

(** [len(v)] *)
Definition py_len (v : pyval) : result nat :=
  match v with
  | PStr s => Ok (String.length s)
  | PList l => Ok (List.length l)
  | PDict d => Ok (List.length d)
  | _ => raise TypeError "object has no len()"
  end.

(** [v[i]] for a non-negative integer index; the keys of a JSON dict are
    strings, so an integer key is never found. *)
Definition py_index (v : pyval) (i : nat) : result pyval :=
  match v with
  | PList l => match nth_error l i with
               | Some x => Ok x
               | None => raise IndexError "list index out of range"
               end
  | PStr s => match String.get i s with
              | Some c => Ok (PStr (String c EmptyString))
              | None => raise IndexError "string index out of range"
              end
  | PDict _ => raise KeyError "integer key"
  | _ => raise TypeError "object is not subscriptable"
  end.

(** [v == s] for a string literal [s]. *)
Definition py_eq_str (v : pyval) (s : string) : bool :=
  match v with
  | PStr s' => String.eqb s' s
  | _ => false
  end.

Definition is_dict (v : pyval) : bool :=
  match v with PDict _ => true | _ => false end.

(** Hashable values are the ones a [set] accepts. *)
Definition hashable (v : pyval) : bool :=
  match v with
  | PList _ | PDict _ => false
  | _ => true
  end.

(** The number a hashable numeric value stands for ([True == 1 == 1.0]). *)
Definition numeric_value (v : pyval) : option pyfloat :=
  match v with
  | PBool b => Some (FNum (if b then 1 else 0))
  | PInt z => Some (FNum (inject_Z z))
  | PFloat f => Some f
  | _ => None
  end.

Definition feq (a b : pyfloat) : bool :=
  match a, b with
  | FNum x, FNum y => Qeq_bool x y
  | FInf, FInf | FNegInf, FNegInf => true
  | _, _ => false
  end.

(** [a == b] on hashable values, as a set compares its members. *)
Definition py_eqb (a b : pyval) : bool :=
  match a, b with
  | PNone, PNone => true
  | PStr s, PStr t => String.eqb s t
  | _, _ =>
      match numeric_value a, numeric_value b with
      | Some x, Some y => feq x y
      | _, _ => false
      end
  end.

(** First occurrences, in order: the members of [set(l)] before the set picks
    its own iteration order. *)
Fixpoint py_dedup (l : list pyval) : list pyval :=
  match l with
  | [] => []
  | x :: l' => x :: filter (fun y => negb (py_eqb x y)) (py_dedup l')
  end.

(** ** Strings *)

Definition is_space (c : ascii) : bool :=
  let n := nat_of_ascii c in
  (Nat.eqb n 32 || (Nat.leb 9 n && Nat.leb n 13) || (Nat.leb 28 n && Nat.leb n 31))%bool.

Fixpoint lstrip (s : string) : string :=
  match s with
  | EmptyString => EmptyString
  | String c s' => if is_space c then lstrip s' else s
  end.

Fixpoint rev_string (acc s : string) : string :=
  match s with
  | EmptyString => acc
  | String c s' => rev_string (String c acc) s'
  end.

(** [s.strip()] *)
Definition strip (s : string) : string :=
  rev_string "" (lstrip (rev_string "" (lstrip s))).

(** Text written in ASCII.  On such text [String.length], [strip], [upper]
    and [lower] are Python's [len], [str.strip], [str.upper] and
    [str.lower]; on other text Python counts code points, strips Unicode
    blanks and maps letters outside ASCII, which the byte strings of this
    file do not follow. *)
Definition ascii_text (s : string) : bool :=
  forallb (fun c => Nat.ltb (nat_of_ascii c) 128) (list_ascii_of_string s).

Definition upper_ascii (c : ascii) : ascii :=
  let n := nat_of_ascii c in
  if (Nat.leb 97 n && Nat.leb n 122)%bool then ascii_of_nat (n - 32) else c.

(** [s.upper()], on the ASCII letters. *)
Fixpoint upper (s : string) : string :=
  match s with
  | EmptyString => EmptyString
  | String c s' => String (upper_ascii c) (upper s')
  end.

(** [sep.join(l)] *)
Definition join (sep : string) (l : list string) : string := String.concat sep l.

(** [s[:n]] *)
Definition str_take (n : nat) (s : string) : string := String.substring 0 n s.

(** ** The external libraries

    The operations below are the ones the sources call in the Python runtime,
    shapely and pandas.  No equation is built into the classes: a theorem that
    needs one assumes it by name ([union_covers], [sort_contract], ...). *)

Class Python : Type := {
  (** [float(s)] for a [str]; [None] when it raises [ValueError]. *)
  float_of_str : string -> option pyfloat;
  (** [str(v)] for a value that is not itself a [str]. *)
  py_repr : pyval -> string;
  (** [format(x, spec)] for a float, as in [f"{x:,.0f}"]. *)
  format_float : string -> pyfloat -> string;
  (** The order in which a set with the given members iterates. *)
  set_order : list pyval -> list pyval;
  (** [json.loads(s)] *)
  json_loads : string -> result pyval
}.

Class Shapely : Type := {
  geom : Type;
  (** [shapely.geometry.shape(obj)] *)
  shape : pyval -> result geom;
  (** [shapely.geometry.mapping(g)] *)
  mapping : geom -> pyval;
  (** [Point(x, y).buffer(d)] *)
  point_buffer : pyfloat -> pyfloat -> pyfloat -> geom;
  (** [shapely.ops.unary_union(gs)] *)
  unary_union : list geom -> geom;
  (** [prep(g).intersects(Point(x, y))] *)
  intersects_point : geom -> pyfloat -> pyfloat -> bool
}.

Class Pandas : Type := {
  (** [pd.to_numeric] on one text cell; [None] when the cell does not coerce. *)
  to_numeric_str : string -> option pyfloat;
  (** The row order [sort_values(col, ascending=False)] produces, the column
      being given as a key function; the sort kind is pandas' default. *)
  sort_values_desc : forall A : Type, (A -> pyfloat) -> list A -> list A;
  (** [float(col.sum())] of a numeric column without NaN: the binary64 sum in
      whatever order and grouping numpy adds the entries, or the int64 sum
      when the column holds integers only. *)
  series_sum : list pyfloat -> pyfloat
}.

(** [str(v)], as an f-string interpolates it. *)
Definition py_str `{Python} (v : pyval) : string :=
  match v with
  | PStr s => s
  | _ => py_repr v
  end.

(** The largest magnitude an [int] may have for [float(int)] not to overflow. *)
Definition float_int_limit : Z := 2 ^ 1024 - 2 ^ 970.

(** [float(v)] *)
Definition py_float `{Python} (v : pyval) : result pyfloat :=
  match v with
  | PFloat f => Ok f
  | PInt z =>
      if (Z.abs z <? float_int_limit)%Z then Ok (FNum (inject_Z z))
      else raise OverflowError "int too large to convert to float"
  | PBool b => Ok (FNum (if b then 1 else 0))
  | PStr s =>
      match float_of_str s with
      | Some f => Ok f
      | None => raise ValueError "could not convert string to float"
      end
  | PNone | PList _ | PDict _ =>
      raise TypeError "float() argument must be a string or a real number"
  end.

(** [for x in v]: the items the loop visits. *)
Definition py_iter (v : pyval) : result (list pyval) :=
  match v with
  | PList l => Ok l
  | PStr s => Ok (map (fun c => PStr (String c EmptyString)) (list_ascii_of_string s))
  | PDict d => Ok (map (fun kv => PStr (fst kv)) d)
  | _ => raise TypeError "object is not iterable"
  end.

(** [v[:n]] *)
Definition py_take (n : nat) (v : pyval) : result pyval :=
  match v with
  | PList l => Ok (PList (firstn n l))
  | PStr s => Ok (PStr (str_take n s))
  | PDict _ => raise TypeError "unhashable type: 'slice'"
  | _ => raise TypeError "object is not subscriptable"
  end.

(** [list(set(l))] once the members are known to be hashable. *)
Definition list_of_set `{Python} (l : list pyval) : list pyval := set_order (py_dedup l).

(** ** The portfolio table *)

(** A cell of the frame [pd.read_csv] returns: a number (an empty cell is NaN)
    or text. *)
Inductive cell : Type :=
| CellNum (x : pyfloat)
| CellText (s : string).

(** One CSV row, by the four columns the exposure computation reads; the other
    columns are not represented.  A field is read only after the check that its
    column exists. *)
Record row : Type := {
  PropertyID : cell;
  Latitude : cell;
  Longitude : cell;
  TotalInsuredValue : cell
}.

Record DataFrame : Type := {
  columns : list string;
  rows : list row
}.

(** ** The world of one cycle *)

Inductive state : Type :=
| PRIMARY | FALLBACK_SEISMIC | FALLBACK_ALERTS | FALLBACK_NEWS | DONE.

(** [app/utils/config.py]: the fields of [settings] the cycle reads. *)
Record Settings : Type := {
  monitor_region : string;
  portfolio_csv : string;
  output_dir : string;
  newsapi_key : option string
}.

(** What [newspaper.Article] holds after [download()] and [parse()]. *)
Inductive publish_date : Type :=
| DateTime (iso : string)
| DateStr (s : string)
| DateOther.

Record ParsedArticle : Type := {
  art_title : pyval;
  art_authors : pyval;
  art_text : option string;
  art_top_image : pyval;
  art_publish_date : publish_date
}.

(** The collaborators a tool reaches while one state runs.  The clock is read
    once per state: the timestamps a state takes all show the same instant. *)
Record Env : Type := {
  (** [http_client.get_json(url, params=...)] *)
  http_get_json : string -> pydict -> result pyval;
  (** [pd.read_csv(path)] *)
  read_csv : string -> result DataFrame;
  (** [Article(url).download(); .parse()] *)
  newspaper_parse : pyval -> result ParsedArticle;
  (** [datetime.now(timezone.utc).isoformat()] *)
  utcnow_iso : string;
  (** [datetime.utcnow().isoformat()] *)
  utcnow_naive_iso : string
}.

Record World : Type := {
  settings : Settings;
  (** [build_agent()] *)
  build_agent : result unit;
  (** [executor.invoke(input_vars)] *)
  executor_invoke : pydict -> result pyval;
  (** The collaborators as they answer during each state. *)
  env_at : state -> Env;
  (** [datetime.now(timezone.utc).strftime("%Y%m%dT%H%M%SZ")] when persisting. *)
  utcnow_stamp : string;
  (** [os.makedirs(dir, exist_ok=True)] *)
  makedirs : string -> result unit;
  (** [open(path, "w").write(text)] *)
  write_text : string -> string -> result unit
}.

(** ** [app/tools/earthquake_tool.py] *)

Section Tools.
Context {PY : Python} {SH : Shapely} {PD : Pandas}.

Definition USGS_BASE : string :=
  "https://earthquake.usgs.gov/earthquakes/feed/v1.0/summary".

Definition _feed_for (min_magnitude : pyfloat) (window : string) : string * string :=
  let win :=
    if existsb (String.eqb window) ["hour"; "day"; "week"; "month"] then window else "day" in
  let '(name, label) :=
    if fge min_magnitude (FNum 7.0) then
      ("significant_" ++ win ++ ".geojson", "USGS Significant Earthquakes (" ++ win ++ ")")
    else if fge min_magnitude (FNum 4.5) then
      ("4.5_" ++ win ++ ".geojson", "USGS M4.5+ Earthquakes (" ++ win ++ ")")
    else if fge min_magnitude (FNum 2.5) then
      ("2.5_" ++ win ++ ".geojson", "USGS M2.5+ Earthquakes (" ++ win ++ ")")
    else
      ("all_" ++ win ++ ".geojson", "USGS All Earthquakes (" ++ win ++ ")") in
  (USGS_BASE ++ "/" ++ name, label).

Definition _buffer_km_for_mag (m : pyfloat) : pyfloat :=
  if fge m (FNum 7.0) then FNum 200.0
  else if fge m (FNum 6.0) then FNum 125.0
  else if fge m (FNum 5.0) then FNum 75.0
  else if fge m (FNum 4.0) then FNum 50.0
  else FNum 25.0.

(** The body of the loop of [_filter_bbox]: whether the feature is kept. *)
Definition in_bbox (minx miny maxx maxy : pyfloat) (f : pyval) : result bool :=
  geom <- py_get f "geometry" ;;
  if negb (truthy geom) then Ok false else
  ty <- py_get geom "type" ;;
  if negb (py_eq_str ty "Point") then Ok false else
  c <- py_get geom "coordinates" ;;
  let coords := py_or c (PList []) in
  n <- py_len coords ;;
  if Nat.ltb n 2 then Ok false else
  c0 <- py_index coords 0 ;;
  lon <- py_float c0 ;;
  c1 <- py_index coords 1 ;;
  lat <- py_float c1 ;;
  Ok (fle minx lon && fle lon maxx && fle miny lat && fle lat maxy)%bool.

Fixpoint filterM {A : Type} (p : A -> result bool) (l : list A) : result (list A) :=
  match l with
  | [] => Ok []
  | a :: l' =>
      keep <- p a ;;
      rest <- filterM p l' ;;
      Ok (if keep then a :: rest else rest)
  end.

(** [_filter_bbox(features, bbox)], [bbox] unpacking to four bounds. *)
Definition _filter_bbox (features : pyval) (bbox : list pyfloat) : result pyval :=
  match bbox with
  | [minx; miny; maxx; maxy] =>
      fs <- py_iter features ;;
      out <- filterM (in_bbox minx miny maxx maxy) fs ;;
      Ok (PList out)
  | _ => raise ValueError "not enough values to unpack (expected 4)"
  end.

(** The magnitude a feature is buffered with: a missing or falsy magnitude, and
    any magnitude whose coercion raises, counts as 0.0. *)
Definition feature_mag (f : pyval) : pyfloat :=
  match try_except
          (props <- py_get f "properties" ;;
           m <- py_get (py_or props (PDict [])) "mag" ;;
           py_float (py_or m (PFloat (FNum 0.0))))
          (fun _ => Ok (FNum 0.0))
  with
  | Ok mag => mag
  | Raise _ => FNum 0.0
  end.

(** The head of the buffering loop: [None] when the feature is skipped by a
    [continue], the epicentre [(lon, lat)] it reads otherwise. *)
Definition epicentre_of_feature (f : pyval) : result (option (pyfloat * pyfloat)) :=
  g <- py_get f "geometry" ;;
  let geom := py_or g (PDict []) in
  ty <- py_get geom "type" ;;
  if negb (py_eq_str ty "Point") then Ok None else
  c <- py_get geom "coordinates" ;;
  let coords := py_or c (PList []) in
  n <- py_len coords ;;
  if Nat.ltb n 2 then Ok None else
  c0 <- py_index coords 0 ;;
  lon <- py_float c0 ;;
  c1 <- py_index coords 1 ;;
  lat <- py_float c1 ;;
  Ok (Some (lon, lat)).

(** One pass of the buffering loop: [None] when the feature is skipped, the
    disc it appends to [buffers] otherwise.  The radius in degrees is kept
    as the exact quotient [km / 111]; Python's is the binary64 number
    nearest to it. *)
Definition buffer_of_feature (f : pyval) : result (option geom) :=
  e <- epicentre_of_feature f ;;
  match e with
  | None => Ok None
  | Some (lon, lat) =>
      let mag := feature_mag f in
      let km := _buffer_km_for_mag mag in
      deg <- fdiv km (FNum 111.0) ;;
      Ok (Some (point_buffer lon lat deg))
  end.

Fixpoint somes {A : Type} (l : list (option A)) : list A :=
  match l with
  | [] => []
  | Some a :: l' => a :: somes l'
  | None :: l' => somes l'
  end.

Definition bbox_value (region_bbox : option (list pyfloat)) : pyval :=
  match region_bbox with
  | Some b => PList (map PFloat b)
  | None => PNone
  end.

(** The [union_feature] built from the discs collected by the loop. *)
Definition eq_union_feature (min_magnitude : pyfloat) (window : string)
    (region_bbox : option (list pyfloat)) (buffers : list geom) : pyval :=
  match buffers with
  | [] => PNone
  | _ :: _ =>
      let merged := unary_union buffers in
      PDict [("type", PStr "Feature");
             ("geometry", mapping merged);
             ("properties",
               PDict [("source", PStr "USGS");
                      ("min_magnitude", PFloat min_magnitude);
                      ("window", PStr window);
                      ("region_bbox", bbox_value region_bbox);
                      ("count", PInt (Z.of_nat (List.length buffers)))])]
  end.

(** The dict [fetch_recent_earthquakes] returns. *)
Record EqResult : Type := {
  eq_fetched_at : string;
  eq_source_title : string;
  eq_source_url : string;
  eq_query : pydict;
  eq_count : nat;
  eq_feature_union : pyval;
  eq_features : pyval
}.

Definition fetch_recent_earthquakes (E : Env) (min_magnitude : pyfloat) (window : string)
    (region_bbox : option (list pyfloat)) : result EqResult :=
  let '(url, label) := _feed_for min_magnitude window in
  data <- http_get_json E url [] ;;
  feats <- py_get_default data "features" (PList []) ;;
  feats <- match region_bbox with
           | Some bbox =>
               if (negb (Nat.eqb (List.length bbox) 0) && Nat.eqb (List.length bbox) 4)%bool
               then _filter_bbox feats bbox
               else Ok feats
           | None => Ok feats
           end ;;
  fs <- py_iter feats ;;
  bs <- mapM buffer_of_feature fs ;;
  let buffers := somes bs in
  let union_feature := eq_union_feature min_magnitude window region_bbox buffers in
  count <- py_len feats ;;
  capped <- py_take 200 feats ;;
  Ok {| eq_fetched_at := utcnow_iso E;
        eq_source_title := label;
        eq_source_url := url;
        eq_query := [("min_magnitude", PFloat min_magnitude);
                     ("window", PStr window);
                     ("region_bbox", bbox_value region_bbox)];
        eq_count := count;
        eq_feature_union := union_feature;
        eq_features := capped |}.

(** ** [app/tools/alerts_tool.py] *)

Definition NWS_ALERTS_URL : string := "https://api.weather.gov/alerts/active".

Definition _build_params (event area : option string) : pydict :=
  ([("status", PStr "actual"); ("limit", PInt 200)]
   ++ match event with
      | Some e => if negb (String.eqb e "") then [("event", PStr e)] else []
      | None => []
      end
   ++ match area with
      | Some a =>
          if (negb (String.eqb a "") && Nat.eqb (String.length a) 2)%bool
          then [("area", PStr (upper a))] else []
      | None => []
      end)%list.

(** One pass of the first loop of [_union_features]: [None] when the feature
    is skipped (no geometry, or [shape] raised), the geometry and properties
    appended to [geoms] and [props_list] otherwise. *)
Definition parse_feature (f : pyval) : result (option (geom * pyval)) :=
  g <- py_get f "geometry" ;;
  if negb (truthy g) then Ok None else
  try_except
    (sh <- shape g ;;
     p <- py_get_default f "properties" (PDict []) ;;
     Ok (Some (sh, p)))
    (fun _ => Ok None).

(** [{p.get(k) for p in props_list if p.get(k)}], member by member. *)
Fixpoint collect_field (k : string) (props_list : list pyval) : result (list pyval) :=
  match props_list with
  | [] => Ok []
  | p :: ps =>
      v <- py_get p k ;;
      if truthy v then
        if hashable v then (rest <- collect_field k ps ;; Ok (v :: rest))
        else raise TypeError "unhashable type"
      else collect_field k ps
  end.

Definition _union_features (features : pyval) : result pyval :=
  fs <- py_iter features ;;
  parsed <- mapM parse_feature fs ;;
  let kept := somes parsed in
  let geoms := map fst kept in
  let props_list := map snd kept in
  match geoms with
  | [] => Ok PNone
  | _ :: _ =>
      let merged := unary_union geoms in
      events <- collect_field "event" props_list ;;
      severities <- collect_field "severity" props_list ;;
      Ok (PDict [("type", PStr "Feature");
                 ("geometry", mapping merged);
                 ("properties",
                   PDict [("source", PStr "NWS Alerts");
                          ("merged_count", PInt (Z.of_nat (List.length geoms)));
                          ("events", PList (list_of_set events));
                          ("severities", PList (list_of_set severities))])])
  end.

(** The dict [fetch_active_alerts] returns. *)
Record AlertsResult : Type := {
  al_fetched_at : string;
  al_source_title : string;
  al_source_url : string;
  al_query : pydict;
  al_count : nat;
  al_feature_union : pyval;
  al_features : pyval
}.

Definition fetch_active_alerts (E : Env) (event area : option string) : result AlertsResult :=
  let params := _build_params event area in
  data <- http_get_json E NWS_ALERTS_URL params ;;
  f <- py_get data "features" ;;
  let features := py_or f (PList []) in
  union_feature <- (if truthy features then _union_features features else Ok PNone) ;;
  count <- py_len features ;;
  capped <- py_take 50 features ;;
  Ok {| al_fetched_at := utcnow_iso E;
        al_source_title := "NWS Active Alerts";
        al_source_url := NWS_ALERTS_URL;
        al_query :=
          filter (fun kv => existsb (String.eqb (fst kv)) ["event"; "area"; "status"; "limit"])
                 params;
        al_count := count;
        al_feature_union := union_feature;
        al_features := capped |}.

(** ** [app/tools/portfolio_tool.py] *)

(** A row of the frame after the numeric coercion of its three numeric
    columns. *)
Record asset : Type := {
  asset_id : cell;
  asset_lat : pyfloat;
  asset_lon : pyfloat;
  asset_tiv : pyfloat
}.

(** The dataclass [ExposureSummary]; [top_exposed] holds the records with keys
    [PropertyID], [Latitude], [Longitude], [TotalInsuredValue]. *)
Record ExposureSummary : Type := {
  portfolio_path : string;
  asset_count_total : nat;
  asset_count_exposed : nat;
  total_insured_value_total : pyfloat;
  total_insured_value_exposed : pyfloat;
  exposure_ratio : pyfloat;
  bounds : option (pyfloat * pyfloat * pyfloat * pyfloat);
  top_exposed : list asset
}.

(** The dict [compute_portfolio_exposure] returns. *)
Record ExposureOut : Type := {
  computed_at : string;
  exposure : ExposureSummary
}.

Definition _compute_bounds (latitudes longitudes : list pyfloat)
  : option (pyfloat * pyfloat * pyfloat * pyfloat) :=
  match latitudes, longitudes with
  | lat0 :: lats, lon0 :: lons =>
      Some (py_min lon0 lons, py_min lat0 lats, py_max lon0 lons, py_max lat0 lats)
  | _, _ => None
  end.

Definition required : list string :=
  ["PropertyID"; "Latitude"; "Longitude"; "TotalInsuredValue"].

(** [required - set(df.columns)] *)
Definition missing_columns (df : DataFrame) : list string :=
  filter (fun c => negb (existsb (String.eqb c) (columns df))) required.

Definition quote : string := String (ascii_of_nat 39) EmptyString.

(** [str] of a non-empty set of column names. *)
Definition set_repr (names : list string) : string :=
  "{" ++ join ", " (map (fun v => quote ++ py_str v ++ quote) (set_order (map PStr names))) ++ "}".

(** [pd.to_numeric(col, errors="coerce")], cell by cell. *)
Definition to_numeric_coerce (c : cell) : pyfloat :=
  match c with
  | CellNum x => x
  | CellText s =>
      match to_numeric_str s with
      | Some x => x
      | None => FNaN
      end
  end.

(** [.fillna(d)] *)
Definition fillna (d x : pyfloat) : pyfloat := if is_nan x then d else x.

Definition coerce_row (r : row) : asset :=
  {| asset_id := PropertyID r;
     asset_lat := to_numeric_coerce (Latitude r);
     asset_lon := to_numeric_coerce (Longitude r);
     asset_tiv := fillna (FNum 0.0) (to_numeric_coerce (TotalInsuredValue r)) |}.

(** [df.dropna(subset=["Latitude", "Longitude"])] *)
Definition dropna_coords (l : list asset) : list asset :=
  filter (fun a => (negb (is_nan (asset_lat a)) && negb (is_nan (asset_lon a)))%bool) l.

(** The rows the point-in-polygon loop iterates over. *)
Definition scored_assets (df : DataFrame) : list asset :=
  dropna_coords (map coerce_row (rows df)).

(** Lines 63-67: the footprint argument down to its shapely geometry. *)
Definition cone_geometry (cone_feature_json : pyval) : result geom :=
  cone_feature <- match cone_feature_json with
                  | PStr s => json_loads s
                  | v => Ok v
                  end ;;
  g <- py_getitem cone_feature "geometry" ;;
  shape g.

Definition exposed (poly : geom) (a : asset) : bool :=
  intersects_point poly (asset_lon a) (asset_lat a).

(** Lines 46-118.  The two sums are pandas' ([series_sum]); the ratio is the
    binary64 quotient.  With no row left to score, [df["Exposed"] = []] is
    an empty column that is not boolean: [df[df["Exposed"]]] then selects
    the columns the list names, that is none, and line 79 finds no
    [TotalInsuredValue] in the result. *)
Definition compute_portfolio_exposure (E : Env) (portfolio_csv : string)
    (cone_feature_json : pyval) : result ExposureOut :=
  df <- read_csv E portfolio_csv ;;
  match missing_columns df with
  | _ :: _ =>
      raise ValueError ("Portfolio CSV missing columns: " ++ set_repr (missing_columns df))
  | [] =>
      let df' := scored_assets df in
      poly <- cone_geometry cone_feature_json ;;
      let tiv_total := series_sum (map asset_tiv df') in
      match df' with
      | [] => raise KeyError "TotalInsuredValue"
      | _ :: _ =>
          let exposed_df := filter (exposed poly) df' in
          let tiv_exposed := series_sum (map asset_tiv exposed_df) in
          let top := firstn 10 (sort_values_desc asset_tiv exposed_df) in
          let bounds :=
            match exposed_df with
            | [] => None
            | _ :: _ => _compute_bounds (map asset_lat exposed_df) (map asset_lon exposed_df)
            end in
          ratio <- (if fgt tiv_total (FNum 0) then fdiv64 tiv_exposed tiv_total
                    else Ok (FNum 0.0)) ;;
          Ok {| computed_at := utcnow_naive_iso E ++ "Z";
                exposure :=
                  {| portfolio_path := portfolio_csv;
                     asset_count_total := List.length df';
                     asset_count_exposed := List.length exposed_df;
                     total_insured_value_total := tiv_total;
                     total_insured_value_exposed := tiv_exposed;
                     exposure_ratio := ratio;
                     bounds := bounds;
                     top_exposed := top |} |}
      end
  end.

(** ** [app/tools/news_tool.py] *)

Definition NEWSAPI_ENDPOINT : string := "https://newsapi.org/v2/everything".

Definition _publish_date_to_iso (d : publish_date) : pyval :=
  match d with
  | DateTime iso => PStr iso
  | DateStr s => PStr s
  | DateOther => PNone
  end.

Definition _summarize_article_via_newspaper (E : Env) (url : pyval) : pydict :=
  match newspaper_parse E url with
  | Ok art =>
      let text := strip (match art_text art with Some t => t | None => "" end) in
      let text := if Nat.ltb 1500 (String.length text) then str_take 1500 text ++ "..." else text in
      [("title", art_title art);
       ("authors", art_authors art);
       ("text", py_or (PStr text) PNone);
       ("top_image", art_top_image art);
       ("publish_date", _publish_date_to_iso (art_publish_date art))]
  | Raise _ =>
      [("title", PNone); ("authors", PList []); ("text", PNone);
       ("top_image", PNone); ("publish_date", PNone)]
  end.

(** One entry of the [articles] list [fetch_live_news] returns. *)
Record Article : Type := {
  a_source : pyval;
  a_author : pyval;
  a_title : pyval;
  a_description : pyval;
  a_url : pyval;
  a_publishedAt : pyval;
  a_content : pyval;
  a_parsed : pydict
}.

Record NewsResult : Type := {
  news_queried_at : string;
  news_query : string;
  news_count : nat;
  news_articles : list Article
}.

(** The body of the loop over [data.get("articles", [])]. *)
Definition article_of (E : Env) (a : pyval) : result Article :=
  url <- py_get a "url" ;;
  let parsed := if truthy url then _summarize_article_via_newspaper E url else [] in
  src <- py_get a "source" ;;
  name <- py_get (py_or src (PDict [])) "name" ;;
  author <- py_get a "author" ;;
  title <- py_get a "title" ;;
  description <- py_get a "description" ;;
  publishedAt <- py_get a "publishedAt" ;;
  content <- py_get a "content" ;;
  Ok {| a_source := name; a_author := author; a_title := title;
        a_description := description; a_url := url;
        a_publishedAt := publishedAt; a_content := content; a_parsed := parsed |}.

Definition fetch_live_news (S : Settings) (E : Env) (query_terms : list string)
    (region_hint : option string) (page_size : Z) : result NewsResult :=
  match newsapi_key S with
  | None => raise RuntimeError "NEWSAPI_KEY not configured in environment"
  | Some key =>
      if String.eqb key "" then raise RuntimeError "NEWSAPI_KEY not configured in environment"
      else
        let q := join " " query_terms in
        let q := match region_hint with
                 | Some r => if String.eqb r "" then q else q ++ " " ++ r
                 | None => q
                 end in
        data <- http_get_json E NEWSAPI_ENDPOINT
                  [("q", PStr q); ("language", PStr "en"); ("sortBy", PStr "publishedAt");
                   ("pageSize", PInt page_size); ("apiKey", PStr key)] ;;
        st <- py_get data "status" ;;
        if negb (py_eq_str st "ok") then raise RuntimeError "NewsAPI error" else
        arts <- py_get_default data "articles" (PList []) ;;
        items <- py_iter arts ;;
        articles <- mapM (article_of E) items ;;
        Ok {| news_queried_at := utcnow_iso E;
              news_query := q;
              news_count := List.length articles;
              news_articles := articles |}
  end.

End Tools.

(** ** [app/agent.py]: the cycle *)

(** The collaborator calls of a cycle, in the order they are made. *)
Inductive call : Type :=
| CallBuildAgent
| CallInvoke
| CallFetchEarthquakes
| CallComputeExposure (s : state) (footprint : pyval)
| CallFetchAlerts
| CallFetchNews
| CallMakedirs (dir : string)
| CallWrite (path text : string).

(** A computation of the cycle: it extends the log of calls and returns or
    raises. *)
Definition Cycle (A : Type) : Type := list call -> list call * result A.

Definition cret {A : Type} (a : A) : Cycle A := fun log => (log, Ok a).

Definition cbind {A B : Type} (m : Cycle A) (k : A -> Cycle B) : Cycle B :=
  fun log =>
    match m log with
    | (log', Ok a) => k a log'
    | (log', Raise e) => (log', Raise e)
    end.

(** [try: m / except Exception: handler] *)
Definition ctry {A : Type} (m : Cycle A) (handler : exn -> Cycle A) : Cycle A :=
  fun log =>
    match m log with
    | (log', Ok a) => (log', Ok a)
    | (log', Raise e) => handler e log'
    end.

(** A call to a collaborator: logged, then answered. *)
Definition perform {A : Type} (c : call) (r : result A) : Cycle A :=
  fun log => ((log ++ [c])%list, r).

(** A computation local to the orchestrator. *)
Definition lift {A : Type} (r : result A) : Cycle A := fun log => (log, r).

Notation "x <~ m ;; k" := (cbind m (fun x => k))
  (at level 100, m at next level, right associativity) : py_scope.
Notation "' p <~ m ;; k" := (cbind m (fun p => k))
  (at level 100, p pattern, m at next level, right associativity) : py_scope.

(** The state a call belongs to, for the calls that open a state. *)
Definition state_of_call (c : call) : option state :=
  match c with
  | CallInvoke => Some PRIMARY
  | CallFetchEarthquakes => Some FALLBACK_SEISMIC
  | CallFetchAlerts => Some FALLBACK_ALERTS
  | CallFetchNews => Some FALLBACK_NEWS
  | _ => None
  end.

(** The states a log shows to have been attempted, in order. *)
Definition attempted_states (log : list call) : list state :=
  somes (map state_of_call log).

(** The briefings written by a log. *)
Definition written (log : list call) : list (string * string) :=
  somes (map (fun c => match c with CallWrite p t => Some (p, t) | _ => None end) log).

(** The dict [run_cycle] returns. *)
Record CycleOutcome : Type := {
  output_path : string;
  text : string;
  status : string
}.

Definition nl : string := String (ascii_of_nat 10) EmptyString.

(** The em dash of the bullets, as its three UTF-8 bytes. *)
Definition em_dash : string :=
  String (ascii_of_nat 226) (String (ascii_of_nat 128) (String (ascii_of_nat 148) EmptyString)).

(** [os.path.join(a, b)] for a relative [b]. *)
Definition path_join (a b : string) : string :=
  if String.eqb a "" then b
  else if String.eqb (String.substring (String.length a - 1) 1 a) "/" then a ++ b
  else a ++ "/" ++ b.

Section Agent.
Context {PY : Python} {SH : Shapely} {PD : Pandas}.

Definition str_of_nat (n : nat) : string := py_str (PInt (Z.of_nat n)).

Definition cell_value (c : cell) : pyval :=
  match c with
  | CellNum x => PFloat x
  | CellText s => PStr s
  end.

(** The line under [## Exposure], common to both exposure briefings. *)
Definition exposure_line (exp : ExposureSummary) : string :=
  "Exposed assets: " ++ str_of_nat (asset_count_exposed exp) ++ "/"
  ++ str_of_nat (asset_count_total exp) ++ " | "
  ++ "Exposed TIV: $" ++ format_float ",.0f" (total_insured_value_exposed exp)
  ++ " of $" ++ format_float ",.0f" (total_insured_value_total exp) ++ " "
  ++ "(ratio " ++ format_float ".2%" (exposure_ratio exp) ++ ")".

Definition top_line (r : asset) : string :=
  "- " ++ py_str (cell_value (asset_id r))
  ++ " ($" ++ format_float ",.0f" (asset_tiv r) ++ ") @ ("
  ++ format_float ".3f" (asset_lat r) ++ ", " ++ format_float ".3f" (asset_lon r) ++ ")".

(** The body of the loop over [feats[:5]]. *)
Definition eq_bullet (f : pyval) : result string :=
  p <- py_get_default f "properties" (PDict []) ;;
  pl <- py_get p "place" ;;
  let place := py_or pl (PStr "Unknown") in
  mag <- py_get p "mag" ;;
  time_ms <- py_get p "time" ;;
  u <- py_get p "url" ;;
  let url := py_or u (PStr "") in
  let mag_s := match mag with PNone => "M?" | _ => "M" ++ py_str mag end in
  Ok (if truthy url
      then "- [" ++ mag_s ++ " " ++ em_dash ++ " " ++ py_str place ++ "](" ++ py_str url ++ ")"
      else "- " ++ mag_s ++ " " ++ em_dash ++ " " ++ py_str place).

(** Lines 156-192: the earthquake briefing. *)
Definition render_eq (eq : EqResult) (exp : ExposureSummary) (now : string) : result string :=
  let top := top_exposed exp in
  let top_block :=
    match top with
    | [] => []
    | _ :: _ => "" :: "Top exposed (by TIV):" :: map top_line (firstn 5 top)
    end in
  head5 <- py_take 5 (py_or (eq_features eq) (PList [])) ;;
  feats <- py_iter head5 ;;
  bullets <- mapM eq_bullet feats ;;
  Ok (join nl
        (List.concat
           [["# LEEA Briefing (Earthquakes)";
             "";
             "Generated at: " ++ now;
             "";
             "## Event Status";
             eq_source_title eq ++ " | Events: " ++ str_of_nat (eq_count eq);
             "";
             "## Exposure";
             exposure_line exp];
            top_block;
            [""; "## Intelligence"];
            bullets;
            ["";
             "## Next Actions";
             "- Monitor USGS for aftershocks and updates; re-run exposure if hazard changes.";
             "- If exposure is material, prepare notifications to stakeholders."]])).

(** [sep.join(v)]: every item must be a [str]. *)
Definition py_join (sep : string) (v : pyval) : result string :=
  items <- py_iter v ;;
  strs <- mapM (fun x => match x with
                         | PStr s => Ok s
                         | _ => raise TypeError "sequence item: expected str instance"
                         end) items ;;
  Ok (join sep strs).

(** Lines 207-226: the alerts briefing. *)
Definition render_alerts (alerts : AlertsResult) (exp : ExposureSummary)
    (area : option string) (now : string) : result string :=
  props <- py_get_default (al_feature_union alerts) "properties" (PDict []) ;;
  ev <- py_get_default props "events" (PList []) ;;
  events <- py_join ", " (py_or ev (PList [])) ;;
  Ok (join nl
        (List.concat
           [["# LEEA Briefing (NWS Alerts)";
             "";
             "Generated at: " ++ now;
             "";
             "## Event Status";
             "Active NWS alerts: " ++ str_of_nat (al_count alerts) ++ " | Events: " ++ events];
            match area with
            | Some a => ["Area filter: " ++ a]
            | None => []
            end;
            [""; "## Exposure"; exposure_line exp;
             "";
             "## Next Actions";
             "- Monitor NWS alerts for changes; re-run exposure if polygons update."]])).

(** The body of the loop over [news["articles"][:10]]. *)
Definition news_bullet (a : Article) : string :=
  let parsed_get k := match lookup k (a_parsed a) with Some v => v | None => PNone end in
  let title := py_or (py_or (a_title a) (parsed_get "title")) (PStr "Untitled") in
  let url := py_or (a_url a) (PStr "") in
  let source := py_or (a_source a) (PStr "?") in
  let pub := py_or (py_or (a_publishedAt a) (parsed_get "publish_date")) (PStr "") in
  if truthy url
  then "- [" ++ py_str title ++ "](" ++ py_str url ++ ") " ++ em_dash ++ " "
       ++ py_str source ++ " " ++ py_str pub
  else "- " ++ py_str title ++ " " ++ em_dash ++ " " ++ py_str source ++ " " ++ py_str pub.

(** Lines 236-258: the news-only briefing. *)
Definition render_news (articles : list Article) (now : string) : string :=
  join nl
    (List.concat
       [["# LEEA Briefing (news-only)";
         "";
         "Generated at: " ++ now;
         "";
         "## Event Status";
         "Autonomous agent failed; showing recent coverage relevant to earthquakes.";
         "";
         "## Intelligence (recent coverage)"];
        match articles with
        | [] => ["- No articles returned from NewsAPI."]
        | _ :: _ => map news_bullet (firstn 10 articles)
        end;
        [""; "## Next Actions"; "- Verify API keys and try again."]]).

(** The optional two-letter area code of the alerts fallback. *)
Definition alerts_area (S : Settings) : option string :=
  if (negb (String.eqb (monitor_region S) "")
      && Nat.eqb (String.length (strip (monitor_region S))) 2)%bool
  then Some (upper (strip (monitor_region S)))
  else None.

(** 1) Earthquake deterministic (lines 150-195). *)
Definition seismic_strategy (W : World) : Cycle (string * string) :=
  let E := env_at W FALLBACK_SEISMIC in
  eq <~ perform CallFetchEarthquakes (fetch_recent_earthquakes E (FNum 4.5) "day" None) ;;
  let union := eq_feature_union eq in
  if truthy union then
    exposure_dict <~ perform (CallComputeExposure FALLBACK_SEISMIC union)
                  (compute_portfolio_exposure E (portfolio_csv (settings W)) union) ;;
    output_text <~ lift (render_eq eq (exposure exposure_dict) (utcnow_iso E)) ;;
    cret (output_text, "ok_eq")
  else lift (raise RuntimeError "eq_no_union").

(** 2) NWS Alerts fallback (lines 198-229). *)
Definition alerts_strategy (W : World) : Cycle (string * string) :=
  let E := env_at W FALLBACK_ALERTS in
  let area := alerts_area (settings W) in
  alerts <~ perform CallFetchAlerts (fetch_active_alerts E None area) ;;
  let union := al_feature_union alerts in
  if truthy union then
    exposure_dict <~ perform (CallComputeExposure FALLBACK_ALERTS union)
                  (compute_portfolio_exposure E (portfolio_csv (settings W)) union) ;;
    output_text <~ lift (render_alerts alerts (exposure exposure_dict) area (utcnow_iso E)) ;;
    cret (output_text, "ok_alerts")
  else lift (raise RuntimeError "alerts_no_geometry").

(** 3) News-only fallback (lines 232-259). *)
Definition news_strategy (W : World) : Cycle (string * string) :=
  let E := env_at W FALLBACK_NEWS in
  let region_hint :=
    if String.eqb (monitor_region (settings W)) "" then None
    else Some (monitor_region (settings W)) in
  articles <~ ctry
                (news <~ perform CallFetchNews
                           (fetch_live_news (settings W) E
                              ["earthquake"; "aftershock"; "damage"; "power outage"]
                              region_hint 10) ;;
                 cret (news_articles news))
                (fun _ => cret []) ;;
  cret (render_news articles (utcnow_iso E), "ok_news").

(** The handler of the outermost [except Exception] (lines 146-259). *)
Definition fallback_chain (W : World) : Cycle (string * string) :=
  ctry (seismic_strategy W)
       (fun _ => ctry (alerts_strategy W)
                      (fun _ => news_strategy W)).

(** Lines 142-145: the agent's answer. *)
Definition primary_strategy (W : World) : Cycle (pyval * string) :=
  let input_vars :=
    [("region", PStr (monitor_region (settings W)));
     ("portfolio_csv", PStr (portfolio_csv (settings W)))] in
  result <~ perform CallInvoke (executor_invoke W input_vars) ;;
  o <~ lift (py_get result "output") ;;
  cret (py_or o (PStr ""), "ok").

(** Lines 262-271: the briefing file.  [f.write] accepts a [str] only: any
    other answer of the agent leaves the opened file empty and raises. *)
Definition persist (W : World) (output_text : pyval) (status : string) : Cycle CycleOutcome :=
  let ts := utcnow_stamp W in
  let out_dir := path_join (output_dir (settings W)) "briefings" in
  _ <~ perform (CallMakedirs out_dir) (makedirs W out_dir) ;;
  let out_name := "briefing_" ++ status ++ "_" ++ ts ++ ".md" in
  let out_path := path_join out_dir out_name in
  match output_text with
  | PStr s =>
      _ <~ perform (CallWrite out_path s) (write_text W out_path s) ;;
      cret {| output_path := out_path; text := s; status := status |}
  | _ =>
      _ <~ perform (CallWrite out_path "") (write_text W out_path "") ;;
      lift (raise TypeError "write() argument must be str")
  end.

Definition run_cycle (W : World) : Cycle CycleOutcome :=
  _ <~ perform CallBuildAgent (build_agent W) ;;
  ' (output_text, status) <~
      ctry (primary_strategy W)
           (fun _ => ' (t, s) <~ fallback_chain W ;; cret (PStr t, s)) ;;
  persist W output_text status.

End Agent.

(** ** The buffer radius as the specification words it *)

Definition buffer_radius_spec (m : pyfloat) : pyfloat :=
  if fge m (FNum 7.0) then FNum 200.0
  else if (fge m (FNum 6.0) && flt m (FNum 7.0))%bool then FNum 125.0
  else if (fge m (FNum 5.0) && flt m (FNum 6.0))%bool then FNum 75.0
  else if (fge m (FNum 4.0) && flt m (FNum 5.0))%bool then FNum 50.0
  else FNum 25.0.

(** ** What the theorems assume of the libraries *)

(** [unary_union] covers exactly the points its inputs cover. *)
Definition union_covers (SH : Shapely) : Prop :=
  forall (gs : list geom) (x y : pyfloat),
    intersects_point (unary_union gs) x y = existsb (fun g => intersects_point g x y) gs.

(** A buffer of positive radius around a point with finite coordinates
    contains that point. *)
Definition buffer_contains_centre (SH : Shapely) : Prop :=
  forall (x y d : Q), 0 < d ->
    intersects_point (point_buffer (FNum x) (FNum y) (FNum d)) (FNum x) (FNum y) = true.

(** What [sort_values(..., ascending=False)] promises with the default sort
    kind, on a key column without NaN: the same rows, in non-increasing key
    order.  Nothing is promised about rows with equal keys. *)
Definition sort_contract (PD : Pandas) : Prop :=
  forall (A : Type) (key : A -> pyfloat) (l : list A),
    (forall a, In a l -> is_nan (key a) = false) ->
    Permutation (sort_values_desc key l) l /\
    StronglySorted (fun a b => fle (key b) (key a) = true) (sort_values_desc key l).

(** ** Reference instances of the libraries

    Small executable instances, used to run the model on concrete inputs.
    Numbers print as fractions and a geometry is a finite union of discs and
    axis-parallel rectangles. *)

Module Ref.

Fixpoint digits_value (acc : Z) (s : string) : option Z :=
  match s with
  | EmptyString => Some acc
  | String c s' =>
      let n := nat_of_ascii c in
      if (Nat.leb 48 n && Nat.leb n 57)%bool
      then digits_value (10 * acc + Z.of_nat (n - 48))%Z s'
      else None
  end.

(** Decimal integers, with an optional sign, and the three special names. *)
Definition parse_number (s : string) : option pyfloat :=
  if String.eqb s "nan" then Some FNaN
  else if String.eqb s "inf" then Some FInf
  else if String.eqb s "-inf" then Some FNegInf
  else match s with
       | EmptyString => None
       | String c s' =>
           if Ascii.eqb c "-"%char then
             match s' with
             | EmptyString => None
             | _ => option_map (fun z => FNum (inject_Z (- z))) (digits_value 0 s')
             end
           else option_map (fun z => FNum (inject_Z z)) (digits_value 0 s)
       end.

Definition string_of_Z (z : Z) : string := NilZero.string_of_int (Z.to_int z).

Definition float_repr (x : pyfloat) : string :=
  match x with
  | FNum q => string_of_Z (Qnum q) ++ "/" ++ string_of_Z (Zpos (Qden q))
  | FInf => "inf"
  | FNegInf => "-inf"
  | FNaN => "nan"
  end.

Fixpoint repr (v : pyval) : string :=
  match v with
  | PNone => "None"
  | PBool b => if b then "True" else "False"
  | PInt z => string_of_Z z
  | PFloat x => float_repr x
  | PStr s => quote ++ s ++ quote
  | PList l => "[" ++ join ", " (map repr l) ++ "]"
  | PDict d =>
      "{" ++ join ", " (map (fun kv : string * pyval => let (k, x) := kv in quote ++ k ++ quote ++ ": " ++ repr x) d)
      ++ "}"
  end.

#[global] Instance python : Python := {|
  float_of_str := parse_number;
  py_repr := repr;
  format_float := fun spec x => "{" ++ float_repr x ++ ":" ++ spec ++ "}";
  set_order := fun l => l;
  json_loads := fun _ => raise (ExternalError "JSONDecodeError") "Expecting value"
|}.

Inductive atom : Type :=
| Disc (cx cy r : Q)
| Box (minx miny maxx maxy : Q).

Definition atom_contains (a : atom) (x y : Q) : bool :=
  match a with
  | Disc cx cy r => Qle_bool ((x - cx) * (x - cx) + (y - cy) * (y - cy)) (r * r)
  | Box x0 y0 x1 y1 => (Qle_bool x0 x && Qle_bool x x1 && Qle_bool y0 y && Qle_bool y y1)%bool
  end.

Definition num (q : Q) : pyval := PFloat (FNum q).

Definition as_Q (v : pyval) : option Q :=
  match v with
  | PInt z => Some (inject_Z z)
  | PFloat (FNum q) => Some q
  | _ => None
  end.

Definition position (x y : Q) : pyval := PList [num x; num y].

Definition atom_json (a : atom) : pyval :=
  match a with
  | Disc cx cy r =>
      PDict [("type", PStr "Disc"); ("center", position cx cy); ("radius", num r)]
  | Box x0 y0 x1 y1 =>
      PDict [("type", PStr "Polygon");
             ("coordinates",
               PList [PList [position x0 y0; position x1 y0; position x1 y1;
                             position x0 y1; position x0 y0]])]
  end.

Definition as_position (v : pyval) : option (Q * Q) :=
  match v with
  | PList [a; b] =>
      match as_Q a, as_Q b with
      | Some x, Some y => Some (x, y)
      | _, _ => None
      end
  | _ => None
  end.

(** The rectangle a closed ring of five positions describes, when it is one
    drawn from its lower-left corner counter-clockwise. *)
Definition ring_box (ring : list pyval) : option atom :=
  match map as_position ring with
  | [Some (ax, ay); Some (bx, by_); Some (cx, cy); Some (dx, dy); Some (ex, ey)] =>
      if (Qeq_bool ay by_ && Qeq_bool bx cx && Qeq_bool cy dy && Qeq_bool dx ax
          && Qeq_bool ex ax && Qeq_bool ey ay && Qle_bool ax bx && Qle_bool ay cy)%bool
      then Some (Box ax ay bx cy)
      else None
  | _ => None
  end.

Definition shape_error {A : Type} : result A :=
  raise (ExternalError "GeometryTypeError") "Unknown geometry".

(** One disc, one rectangle, or a polygon without coordinates (the empty
    geometry). *)
Definition shape_atoms (v : pyval) : result (list atom) :=
  match v with
  | PDict d =>
      match lookup "type" d with
      | Some (PStr ty) =>
          if String.eqb ty "Polygon" then
            match lookup "coordinates" d with
            | Some (PList []) => Ok []
            | Some (PList [PList ring]) =>
                match ring_box ring with
                | Some b => Ok [b]
                | None => shape_error
                end
            | _ => shape_error
            end
          else if String.eqb ty "Disc" then
            match lookup "center" d, lookup "radius" d with
            | Some c, Some r =>
                match as_position c, as_Q r with
                | Some (x, y), Some q => Ok [Disc x y q]
                | _, _ => shape_error
                end
            | _, _ => shape_error
            end
          else shape_error
      | _ => shape_error
      end
  | _ => shape_error
  end.

Definition ref_shape (v : pyval) : result (list atom) :=
  match v with
  | PDict d =>
      if (match lookup "type" d with
          | Some ty => py_eq_str ty "GeometryCollection"
          | None => false
          end)
      then match lookup "geometries" d with
           | Some (PList gs) => parts <- mapM shape_atoms gs ;; Ok (List.concat parts)
           | _ => shape_error
           end
      else shape_atoms v
  | _ => shape_error
  end.

Definition ref_intersects (g : list atom) (x y : pyfloat) : bool :=
  match x, y with
  | FNum qx, FNum qy => existsb (fun a => atom_contains a qx qy) g
  | _, _ => false
  end.

#[global] Instance shapely : Shapely := {|
  geom := list atom;
  shape := ref_shape;
  mapping := fun g =>
    PDict [("type", PStr "GeometryCollection"); ("geometries", PList (map atom_json g))];
  point_buffer := fun x y d =>
    match x, y, d with
    | FNum qx, FNum qy, FNum qd => if Qle_bool qd 0 then [] else [Disc qx qy qd]
    | _, _, _ => []
    end;
  unary_union := fun gs => List.concat gs;
  intersects_point := ref_intersects
|}.

(** Insertion before the first row whose key is not larger: rows with equal
    keys keep their input order. *)
Fixpoint insert_desc {A : Type} (key : A -> pyfloat) (a : A) (l : list A) : list A :=
  match l with
  | [] => [a]
  | b :: l' => if fle (key b) (key a) then a :: b :: l' else b :: insert_desc key a l'
  end.

Definition stable_sort_desc {A : Type} (key : A -> pyfloat) (l : list A) : list A :=
  fold_right (insert_desc key) [] l.

(** The binary64 sum of a column added entry by entry from [0.0], as numpy
    adds a column of fewer than eight entries. *)
Definition sum_in_order (l : list pyfloat) : pyfloat := fold_left fadd l (FNum 0).

(** A sort that keeps ties in input order. *)
#[global] Instance pandas : Pandas := {|
  to_numeric_str := parse_number;
  sort_values_desc := fun A key l => stable_sort_desc key l;
  series_sum := sum_in_order
|}.

(** A sort that leaves ties in reverse input order: as good a non-stable sort
    as any other. *)
Definition pandas_unstable : Pandas := {|
  to_numeric_str := parse_number;
  sort_values_desc := fun A key l => stable_sort_desc key (rev l);
  series_sum := sum_in_order
|}.

(** *** pandas' default sort, on numpy's generic quicksort

    [sort_values(col, ascending=False)] on one column is [nargsort] with
    [kind="quicksort"]: numpy's [argsort] of the reversed column, mapped back
    and reversed.  [aquicksort] is numpy's generic introsort on an array of
    indices: median-of-three partitioning above 16 elements, insertion sort
    below.  (The fall-back to heapsort at excessive depth and the vectorised
    variants some builds dispatch to are not modelled.) *)

(** The order of [npy::double_tag::less]: NaN sorts last. *)
Definition less (a b : pyfloat) : bool :=
  (flt a b || (is_nan b && negb (is_nan a)))%bool.

Definition geti (l : list nat) (i : nat) : nat := nth i l 0%nat.

Fixpoint seti (i x : nat) (l : list nat) : list nat :=
  match l, i with
  | [], _ => []
  | _ :: l', O => x :: l'
  | y :: l', S i' => y :: seti i' x l'
  end.

(** [INTP_SWAP(tosort[i], tosort[j])] *)
Definition swapi (i j : nat) (l : list nat) : list nat :=
  seti i (geti l j) (seti j (geti l i) l).

Definition val (v : list pyfloat) (k : nat) : pyfloat := nth k v FNaN.

(** [do ++pi; while (less(v[*pi], vp))] *)
Fixpoint scan_up (fuel : nat) (v : list pyfloat) (vp : pyfloat) (l : list nat) (i : nat) : nat :=
  match fuel with
  | O => i
  | S f =>
      let i' := S i in
      if less (val v (geti l i')) vp then scan_up f v vp l i' else i'
  end.

(** [do --pj; while (less(vp, v[*pj]))] *)
Fixpoint scan_down (fuel : nat) (v : list pyfloat) (vp : pyfloat) (l : list nat) (j : nat) : nat :=
  match fuel with
  | O => j
  | S f =>
      let j' := Nat.pred j in
      if less vp (val v (geti l j')) then scan_down f v vp l j' else j'
  end.

Fixpoint partition_loop (fuel : nat) (v : list pyfloat) (vp : pyfloat) (l : list nat)
    (i j : nat) : nat * list nat :=
  match fuel with
  | O => (i, l)
  | S f =>
      let i' := scan_up (List.length l) v vp l i in
      let j' := scan_down (List.length l) v vp l j in
      if Nat.leb j' i' then (i', l) else partition_loop f v vp (swapi i' j' l) i' j'
  end.

(** One partition of [tosort[pl..pr]]; returns the pivot's final position. *)
Definition partition (v : list pyfloat) (l : list nat) (pl pr : nat) : nat * list nat :=
  let pm := (pl + Nat.div2 (pr - pl))%nat in
  let l := if less (val v (geti l pm)) (val v (geti l pl)) then swapi pm pl l else l in
  let l := if less (val v (geti l pr)) (val v (geti l pm)) then swapi pr pm l else l in
  let l := if less (val v (geti l pm)) (val v (geti l pl)) then swapi pm pl l else l in
  let vp := val v (geti l pm) in
  let l := swapi pm (pr - 1) l in
  let '(i, l) := partition_loop (List.length l) v vp l pl (pr - 1) in
  (i, swapi i (pr - 1) l).

(** The inner loop of the insertion sort: shift larger entries up, then drop
    [vi] into the hole. *)
Fixpoint shift_up (fuel : nat) (v : list pyfloat) (vp : pyfloat) (vi : nat) (l : list nat)
    (pl j : nat) : list nat :=
  match fuel with
  | O => seti j vi l
  | S f =>
      if (Nat.ltb pl j && less vp (val v (geti l (j - 1))))%bool
      then shift_up f v vp vi (seti j (geti l (j - 1)) l) pl (j - 1)
      else seti j vi l
  end.

Fixpoint insertion (count : nat) (v : list pyfloat) (l : list nat) (pl i : nat) : list nat :=
  match count with
  | O => l
  | S c =>
      let vi := geti l i in
      insertion c v (shift_up (List.length l) v (val v vi) vi l pl i) pl (S i)
  end.

Fixpoint aquicksort (fuel : nat) (v : list pyfloat) (l : list nat) (pl pr : nat) : list nat :=
  match fuel with
  | O => l
  | S f =>
      if Nat.ltb 16 (pr - pl) then
        let '(i, l') := partition v l pl pr in
        aquicksort f v (aquicksort f v l' pl (i - 1)) (i + 1) pr
      else insertion (pr - pl) v l pl (S pl)
  end.

(** [np.argsort(v, kind="quicksort")] *)
Definition argsort (v : list pyfloat) : list nat :=
  aquicksort (List.length v) v (seq 0 (List.length v)) 0 (List.length v - 1).

(** [nargsort(items, kind="quicksort", ascending=False)] on items without NaN. *)
Definition nargsort_desc (items : list pyfloat) : list nat :=
  let non_nan_idx := rev (seq 0 (List.length items)) in
  rev (map (fun k => nth k non_nan_idx 0%nat) (argsort (rev items))).

Definition quicksort_values_desc {A : Type} (key : A -> pyfloat) (l : list A) : list A :=
  match l with
  | [] => []
  | d :: _ => map (fun i => nth i l d) (nargsort_desc (map key l))
  end.

Definition pandas_quicksort : Pandas := {|
  to_numeric_str := parse_number;
  sort_values_desc := fun A key l => quicksort_values_desc key l;
  series_sum := sum_in_order
|}.

End Ref.

(** ** Notions the statements use *)

Section Notions.
Context {PY : Python} {SH : Shapely} {PD : Pandas}.

(** Both coordinates of the row coerce to a number. *)
Definition coords_numeric (r : row) : bool :=
  (negb (is_nan (to_numeric_coerce (Latitude r)))
   && negb (is_nan (to_numeric_coerce (Longitude r))))%bool.

(** The insured value is a finite, non-negative amount. *)
Definition nonneg_value (a : asset) : Prop :=
  exists q : Q, asset_tiv a = FNum q /\ 0 <= q.

(** The exact total of the finite entries of a column. *)
Definition exact_total (l : list pyfloat) : Q :=
  fold_right (fun x acc => match x with FNum q => q + acc | _ => acc end) 0 l.

(** The insured values of the rows sum without rounding error, as whole
    amounts that total at most [2^53] do in any order. *)
Definition summed_exactly (l : list asset) : Prop :=
  exists q : Q,
    series_sum (map asset_tiv l) = FNum q /\ q == exact_total (map asset_tiv l).

(** Non-increasing insured value, the order of the ranking. *)
Definition by_value_desc (a b : asset) : Prop := fle (asset_tiv b) (asset_tiv a) = true.

(** [d.get(k)] on a dict. *)
Definition field (k : string) (d : pydict) : pyval :=
  match lookup k d with
  | Some v => v
  | None => PNone
  end.

(** A footprint as the aggregators build it: a complete [Feature] whose
    geometry is the union of a non-empty list of geometries and whose
    properties record how many were merged, under the key [count_key]. *)
Definition built_footprint (count_key : string) (u : pyval) : Prop :=
  exists (g : geom) (gs : list geom) (props : pydict),
    u = PDict [("type", PStr "Feature");
               ("geometry", mapping (unary_union (g :: gs)));
               ("properties", PDict props)] /\
    lookup count_key props = Some (PInt (Z.of_nat (List.length (g :: gs)))).

(** A JSON object without geometry: the key is absent, null, or otherwise
    falsy. *)
Definition geometry_missing (f : pyval) : Prop :=
  exists d, f = PDict d /\ truthy (field "geometry" d) = false.

(** A JSON object the seismic buffering loop passes over: its geometry is
    missing, or is an object of another type than [Point], or is a Point
    with fewer than two coordinates. *)
Definition no_epicentre (f : pyval) : Prop :=
  exists d, f = PDict d /\
    (truthy (field "geometry" d) = false \/
     exists gd, field "geometry" d = PDict gd /\
       (py_eq_str (field "type" gd) "Point" = false \/
        truthy (field "coordinates" gd) = false \/
        exists l, field "coordinates" gd = PList l /\ (List.length l < 2)%nat)).

(** A JSON object whose geometry is missing or is one [shape] rejects. *)
Definition geometry_missing_or_unparseable (f : pyval) : Prop :=
  exists d, f = PDict d /\
    (truthy (field "geometry" d) = false \/ exists e, shape (field "geometry" d) = Raise e).

(** An alert as the feed types it: an object whose properties, when present,
    are an object with hashable event and severity. *)
Definition well_formed_alert (f : pyval) : Prop :=
  exists d, f = PDict d /\
    (lookup "properties" d = None \/
     exists pd, lookup "properties" d = Some (PDict pd) /\
       hashable (field "event" pd) = true /\ hashable (field "severity" pd) = true).

(** The epicentre the buffering loop reads from the feature, if any, has
    finite coordinates. *)
Definition finite_epicentre (f : pyval) : Prop :=
  forall lon lat, epicentre_of_feature f = Ok (Some (lon, lat)) ->
    exists x y : Q, lon = FNum x /\ lat = FNum y.

(** The footprint feature [u] carries a geometry that covers some point. *)
Definition covers_a_point (u : pyval) : Prop :=
  exists (merged : geom) (x y : pyfloat),
    py_get u "geometry" = Ok (mapping merged) /\ intersects_point merged x y = true.

(** A seismic feature with a Point geometry at [(lon, lat)]. *)
Definition point_feature (d : pydict) (lon lat : pyfloat) : Prop :=
  exists gd c0 c1 rest,
    lookup "geometry" d = Some (PDict gd) /\
    lookup "type" gd = Some (PStr "Point") /\
    lookup "coordinates" gd = Some (PList (c0 :: c1 :: rest)) /\
    py_float c0 = Ok lon /\ py_float c1 = Ok lat.

(** The ["mag"] entry of the feature's properties, when the properties are an
    object that has one. *)
Definition magnitude_entry (d : pydict) : option pyval :=
  match lookup "properties" d with
  | Some (PDict pd) => lookup "mag" pd
  | _ => None
  end.

Definition magnitude_missing_or_uncoercible (d : pydict) : Prop :=
  magnitude_entry d = None \/
  exists v e, magnitude_entry d = Some v /\ py_float v = Raise e.

End Notions.

(** ** Notions the statements about the cycle use *)

(** What a computation of the cycle returns or raises, and the calls it makes,
    started on the empty log. *)
Definition answer {A : Type} (m : Cycle A) : result A := snd (m []).
Definition calls {A : Type} (m : Cycle A) : list call := fst (m []).

(** The directory can be made and the briefing written. *)
Definition persistence_ok (W : World) : Prop :=
  (forall d, makedirs W d = Ok tt) /\ (forall p t, write_text W p t = Ok tt).

(** The status tag each state gives the outcome it produces. *)
Definition status_label (s : state) : string :=
  match s with
  | PRIMARY => "ok"
  | FALLBACK_SEISMIC => "ok_eq"
  | FALLBACK_ALERTS => "ok_alerts"
  | FALLBACK_NEWS => "ok_news"
  | DONE => ""
  end.

(** The structured input of a briefing: the event summary, the exposure
    result and the intelligence items the rendering block of a state reads. *)
Inductive briefing_input : Type :=
| EqBriefing (eq : EqResult) (exp : ExposureSummary)
| AlertsBriefing (alerts : AlertsResult) (exp : ExposureSummary) (area : option string)
| NewsBriefing (articles : list Article).

Section CycleNotions.
Context {PY : Python} {SH : Shapely} {PD : Pandas}.

(** The rendering block of the state the input belongs to. *)
Definition render_briefing (i : briefing_input) (now : string) : result string :=
  match i with
  | EqBriefing eq exp => render_eq eq exp now
  | AlertsBriefing alerts exp area => render_alerts alerts exp area now
  | NewsBriefing articles => Ok (render_news articles now)
  end.

Definition news_region_hint (S : Settings) : option string :=
  if String.eqb (monitor_region S) "" then None else Some (monitor_region S).

(** The articles the news-only briefing lists: none when the fetch raised. *)
Definition news_items (W : World) : list Article :=
  match fetch_live_news (settings W) (env_at W FALLBACK_NEWS)
          ["earthquake"; "aftershock"; "damage"; "power outage"]
          (news_region_hint (settings W)) 10 with
  | Ok news => news_articles news
  | Raise _ => []
  end.

(** The structured input a fallback state hands to its rendering block in the
    world [W]; [None] when the state does not get as far as rendering. *)
Definition briefing_input_at (W : World) (s : state) : option briefing_input :=
  match s with
  | FALLBACK_SEISMIC =>
      match fetch_recent_earthquakes (env_at W s) (FNum 4.5) "day" None with
      | Ok eq =>
          if truthy (eq_feature_union eq) then
            match compute_portfolio_exposure (env_at W s) (portfolio_csv (settings W))
                    (eq_feature_union eq) with
            | Ok out => Some (EqBriefing eq (exposure out))
            | Raise _ => None
            end
          else None
      | Raise _ => None
      end
  | FALLBACK_ALERTS =>
      match fetch_active_alerts (env_at W s) None (alerts_area (settings W)) with
      | Ok alerts =>
          if truthy (al_feature_union alerts) then
            match compute_portfolio_exposure (env_at W s) (portfolio_csv (settings W))
                    (al_feature_union alerts) with
            | Ok out => Some (AlertsBriefing alerts (exposure out) (alerts_area (settings W)))
            | Raise _ => None
            end
          else None
      | Raise _ => None
      end
  | FALLBACK_NEWS => Some (NewsBriefing (news_items W))
  | PRIMARY | DONE => None
  end.

End CycleNotions.

(** ** Notions the statements about the tools use *)

(** [l1] is [l2] with some elements left out, the others in their order. *)
Inductive subseq {A : Type} : list A -> list A -> Prop :=
| subseq_nil : subseq [] []
| subseq_skip : forall a l1 l2, subseq l1 l2 -> subseq l1 (a :: l2)
| subseq_keep : forall a l1 l2, subseq l1 l2 -> subseq (a :: l1) (a :: l2).

(** The point [(lon, lat)] lies in the closed box. *)
Definition in_box (minx miny maxx maxy lon lat : pyfloat) : Prop :=
  fle minx lon = true /\ fle lon maxx = true /\ fle miny lat = true /\ fle lat maxy = true.

(** A [region_bbox] the seismic fetch does not filter by: none, or a list
    that does not hold exactly four numbers. *)
Definition bbox_ignored (region_bbox : option (list pyfloat)) : Prop :=
  match region_bbox with
  | None => True
  | Some b => List.length b <> 4%nat
  end.

(** No two members of the list are equal as Python compares them. *)
Definition distinct_members (l : list pyval) : Prop :=
  ForallOrdPairs (fun a b => py_eqb a b = false) l.

(** A set iterates over its members, each once, in an order of its own. *)
Definition set_order_permutes (PY : Python) : Prop :=
  forall l : list pyval, Permutation (set_order l) l.

Section ToolNotions.
Context {PY : Python} {SH : Shapely} {PD : Pandas}.

(** A Point feature one of whose first two coordinates [float] rejects. *)
Definition bad_coordinate (f : pyval) : Prop :=
  exists d gd c0 c1 rest,
    f = PDict d /\
    lookup "geometry" d = Some (PDict gd) /\
    lookup "type" gd = Some (PStr "Point") /\
    lookup "coordinates" gd = Some (PList (c0 :: c1 :: rest)) /\
    ((exists e, py_float c0 = Raise e) \/ (exists e, py_float c1 = Raise e)).

(** The members listed under [key] in the properties of a footprint. *)
Definition footprint_members (key : string) (u : pyval) (members : list pyval) : Prop :=
  exists fd props,
    u = PDict fd /\
    lookup "properties" fd = Some (PDict props) /\
    lookup key props = Some (PList members).

(** Every point [poly1] covers is covered by [poly2]. *)
Definition covered_by (poly1 poly2 : geom) : Prop :=
  forall x y, intersects_point poly1 x y = true -> intersects_point poly2 x y = true.

End ToolNotions.

(** ** Concrete inputs *)

Module Examples.
Import Ref.

(** A feature whose geometry is the rectangle [[x0, x1] x [y0, y1]]. *)
Definition rect_feature (x0 y0 x1 y1 : Q) : pyval :=
  PDict [("type", PStr "Feature");
         ("geometry", atom_json (Box x0 y0 x1 y1));
         ("properties", PDict [])].

Definition unreachable {A : Type} : result A :=
  raise (ExternalError "ConnectionError") "network is unreachable".

(** An environment without network whose portfolio file reads as [csv]. *)
Definition env_with (csv : result DataFrame) : Env :=
  {| http_get_json := fun _ _ => unreachable;
     read_csv := fun _ => csv;
     newspaper_parse := fun _ => unreachable;
     utcnow_iso := "2024-05-01T12:00:00+00:00";
     utcnow_naive_iso := "2024-05-01T12:00:00" |}.

Definition mkrow (id : string) (lat lon tiv : Q) : row :=
  {| PropertyID := CellText id;
     Latitude := CellNum (FNum lat);
     Longitude := CellNum (FNum lon);
     TotalInsuredValue := CellNum (FNum tiv) |}.

Definition portfolio (l : list row) : DataFrame :=
  {| columns := required; rows := l |}.

(** Three assets, the first one inside [[-81, -80] x [25, 26]]. *)
Definition portfolio_scenario : DataFrame :=
  portfolio [mkrow "P1" 25.5 (-80.5) 1000; mkrow "P2" 30 (-90) 2000; mkrow "P3" 40 (-75) 3000].

(** A negative insured value on the asset outside the footprint. *)
Definition portfolio_negative : DataFrame :=
  portfolio [mkrow "A" 0 0 100; mkrow "B" 50 50 (-50)].

(** Two assets at the origin, insured for [2^1023] (about 9e307) each. *)
Definition portfolio_huge : DataFrame :=
  portfolio [mkrow "H1" 0 0 (inject_Z (2 ^ 1023)); mkrow "H2" 0 0 (inject_Z (2 ^ 1023))].

(** No row has a latitude that coerces to a number. *)
Definition portfolio_no_coordinates : DataFrame :=
  portfolio [{| PropertyID := CellText "X";
                Latitude := CellText "n/a";
                Longitude := CellNum (FNum 0);
                TotalInsuredValue := CellNum (FNum 500) |}].

(** A latitude outside [[-90, 90]]. *)
Definition portfolio_out_of_range : DataFrame :=
  portfolio [mkrow "P" 95 0 10].

(** Two exposed assets with the same insured value, [A] before [B]. *)
Definition portfolio_ties : DataFrame :=
  portfolio [mkrow "A" 0 0 100; mkrow "B" 0 0 100].

(** Eighteen exposed assets with the same insured value, in this order. *)
Definition ids18 : list string :=
  ["P00"; "P01"; "P02"; "P03"; "P04"; "P05"; "P06"; "P07"; "P08";
   "P09"; "P10"; "P11"; "P12"; "P13"; "P14"; "P15"; "P16"; "P17"].

Definition portfolio_18_equal : DataFrame :=
  portfolio (map (fun id => mkrow id 0 0 100) ids18).

(** A file without the [Latitude] column. *)
Definition portfolio_no_latitude : DataFrame :=
  {| columns := ["PropertyID"; "Longitude"; "TotalInsuredValue"]; rows := [] |}.

(** A row whose latitude is text that does not coerce. *)
Definition portfolio_bad_latitude : DataFrame :=
  portfolio [{| PropertyID := CellText "X";
                Latitude := CellText "n/a";
                Longitude := CellNum (FNum 0);
                TotalInsuredValue := CellNum (FNum 500) |};
             mkrow "Y" 0 0 70].

Definition example_settings (key : option string) : Settings :=
  {| monitor_region := "Florida";
     portfolio_csv := "data/portfolio_alpha.csv";
     output_dir := "output";
     newsapi_key := key |}.

(** A world whose agent is built, whose agent call answers [invoke], and whose
    file system accepts the briefing. *)
Definition world (invoke : result pyval) (envs : state -> Env) : World :=
  {| settings := example_settings (Some "k");
     build_agent := Ok tt;
     executor_invoke := fun _ => invoke;
     env_at := envs;
     utcnow_stamp := "20240501T120000Z";
     makedirs := fun _ => Ok tt;
     write_text := fun _ _ => Ok tt |}.

(** No network at all. *)
Definition env_down : Env := env_with unreachable.

(** The agent raises and nothing can be fetched. *)
Definition world_all_down : World := world unreachable (fun _ => env_down).

(** The seismic and alerts feeds answer: no earthquake, one alert polygon
    around the first asset of [portfolio_scenario]. *)
Definition env_quiet : Env :=
  {| http_get_json := fun url _ =>
       if String.eqb url NWS_ALERTS_URL then
         Ok (PDict [("features",
                     PList [PDict [("geometry", atom_json (Box (-81) 25 (-80) 26));
                                   ("properties",
                                     PDict [("event", PStr "Flood Warning");
                                            ("severity", PStr "Severe")])]])])
       else if String.prefix USGS_BASE url then Ok (PDict [("features", PList [])])
       else unreachable;
     read_csv := fun _ => Ok portfolio_scenario;
     newspaper_parse := fun _ => unreachable;
     utcnow_iso := "2024-05-01T12:00:00+00:00";
     utcnow_naive_iso := "2024-05-01T12:00:00" |}.

(** The seismic feed reports one M4.5 event at [(-122, 38)]. *)
Definition quake : pyval :=
  PDict [("type", PStr "Feature");
         ("geometry",
           PDict [("type", PStr "Point");
                  ("coordinates", PList [PFloat (FNum (-122)); PFloat (FNum 38); PFloat (FNum 7.1)])]);
         ("properties",
           PDict [("mag", PFloat (FNum 4.5)); ("place", PStr "10 km N of Vallejo, CA")])].

Definition env_one_quake : Env :=
  {| http_get_json := fun url _ =>
       if String.prefix USGS_BASE url then Ok (PDict [("features", PList [quake])])
       else unreachable;
     read_csv := fun _ => Ok portfolio_scenario;
     newspaper_parse := fun _ => unreachable;
     utcnow_iso := "2024-05-01T12:00:00+00:00";
     utcnow_naive_iso := "2024-05-01T12:00:00" |}.

(** The agent raises; the feeds answer as in [env_quiet]. *)
Definition world_quiet : World := world unreachable (fun _ => env_quiet).

(** The agent cannot even be built. *)
Definition world_no_agent : World :=
  {| settings := example_settings None;
     build_agent := raise (ExternalError "OpenAIError") "The api_key client option must be set";
     executor_invoke := fun _ => unreachable;
     env_at := fun _ => env_down;
     utcnow_stamp := "20240501T120000Z";
     makedirs := fun _ => Ok tt;
     write_text := fun _ _ => Ok tt |}.

End Examples.

(** ** Further concrete inputs *)

Module Scenarios.
Import Ref.

(** A seismic Point feature at [(lon, lat)] with the given magnitude entry. *)
Definition point_quake (lon lat : pyval) (mag : pyval) : pyval :=
  PDict [("type", PStr "Feature");
         ("geometry", PDict [("type", PStr "Point"); ("coordinates", PList [lon; lat])]);
         ("properties", PDict [("mag", mag)])].

(** An alert whose geometry is a polygon without coordinates. *)
Definition hollow_alert : pyval :=
  PDict [("type", PStr "Feature");
         ("geometry", PDict [("type", PStr "Polygon"); ("coordinates", PList [])]);
         ("properties", PDict [("event", PStr "Flood Warning")])].

(** An event that arrives without a geometry. *)
Definition unlocated : pyval :=
  PDict [("type", PStr "Feature"); ("geometry", PNone);
         ("properties", PDict [("mag", PFloat (FNum 5.2))])].

(** A Point whose longitude is text that is not a number. *)
Definition garbled : pyval := point_quake (PStr "west") (num 38) (num 5).

(** Three events: near Vallejo, off the Gulf of Guinea, and one unlocated. *)
Definition feed_three : list pyval :=
  [Examples.quake; point_quake (num 10) (num 10) (num 6.1); unlocated].

(** An environment whose seismic feeds all answer with the features [fs]. *)
Definition env_feed (fs : pyval) : Env :=
  {| http_get_json := fun url _ =>
       if String.prefix USGS_BASE url then Ok (PDict [("features", fs)])
       else Examples.unreachable;
     read_csv := fun _ => Ok Examples.portfolio_scenario;
     newspaper_parse := fun _ => Examples.unreachable;
     utcnow_iso := "2024-05-01T12:00:00+00:00";
     utcnow_naive_iso := "2024-05-01T12:00:00" |}.

End Scenarios.

(** ** Notions the statements about the alerts use *)

Section AlertNotions.
Context {PY : Python} {SH : Shapely}.

(** [members] lists, each once, the truthy values found under [k] in the
    properties of the features of [fs] that [_union_features] keeps: no two
    members are equal, every member is such a value, and every non-empty
    string found there is a member. *)
Definition lists_each_once (k : string) (fs : list pyval) (members : list pyval) : Prop :=
  distinct_members members /\
  (forall v, In v members ->
     truthy v = true /\
     exists f g p, In f fs /\ parse_feature f = Ok (Some (g, p)) /\ py_get p k = Ok v) /\
  (forall f g p s, In f fs -> parse_feature f = Ok (Some (g, p)) ->
     py_get p k = Ok (PStr s) -> s <> "" -> In (PStr s) members).

End AlertNotions.


(** Further inputs for the alerts. *)
Module AlertScenarios.
Import Ref.

Definition alert (event severity : string) (x0 y0 x1 y1 : Q) : pyval :=
  PDict [("geometry", atom_json (Box x0 y0 x1 y1));
         ("properties", PDict [("event", PStr event); ("severity", PStr severity)])].

(** Two flood warnings and a tornado warning. *)
Definition three_alerts : list pyval :=
  [alert "Flood Warning" "Severe" (-81) 25 (-80) 26;
   alert "Tornado Warning" "Extreme" (-90) 30 (-89) 31;
   alert "Flood Warning" "Moderate" (-82) 26 (-81) 27].

(** The region is a state code written in lower case between blanks. *)
Definition settings_fl : Settings :=
  {| monitor_region := " fl ";
     portfolio_csv := "data/portfolio_alpha.csv";
     output_dir := "output";
     newsapi_key := None |}.

End AlertScenarios.

(** ** Notions the statements about the news use *)

(** The search string [fetch_live_news] sends: the terms joined by blanks,
    followed by the region hint when there is one. *)
Definition query_string (query_terms : list string) (region_hint : option string) : string :=
  match region_hint with
  | Some r => if String.eqb r "" then join " " query_terms else join " " query_terms ++ " " ++ r
  | None => join " " query_terms
  end.

(** The parameters of its request to NewsAPI. *)
Definition news_params (q : string) (page_size : Z) (key : string) : pydict :=
  [("q", PStr q); ("language", PStr "en"); ("sortBy", PStr "publishedAt");
   ("pageSize", PInt page_size); ("apiKey", PStr key)].

(** An article entry whose [source], when it has one, is a JSON object. *)
Definition article_source_ok (d : pydict) : Prop :=
  truthy (field "source" d) = false \/ is_dict (field "source" d) = true.

(** What [_summarize_article_via_newspaper] returns when the page cannot be
    downloaded or parsed. *)
Definition empty_summary : pydict :=
  [("title", PNone); ("authors", PList []); ("text", PNone);
   ("top_image", PNone); ("publish_date", PNone)].

Module NewsScenarios.

(** Two entries: one with a link, one without. *)
Definition two_articles : list pydict :=
  [[("source", PDict [("id", PNone); ("name", PStr "Reuters")]);
    ("title", PStr "Quake rattles coast");
    ("url", PStr "https://example.com/a");
    ("publishedAt", PStr "2024-05-01T10:00:00Z")];
   [("source", PNone); ("title", PStr "Aftershocks continue"); ("url", PNone)]].

(** NewsAPI answers with [two_articles]; no article page can be downloaded. *)
Definition env_news : Env :=
  {| http_get_json := fun url _ =>
       if String.eqb url "https://newsapi.org/v2/everything" then
         Ok (PDict [("status", PStr "ok"); ("totalResults", PInt 2);
                    ("articles", PList (map PDict two_articles))])
       else Examples.unreachable;
     read_csv := fun _ => Examples.unreachable;
     newspaper_parse := fun _ => Examples.unreachable;
     utcnow_iso := "2024-05-01T12:00:00+00:00";
     utcnow_naive_iso := "2024-05-01T12:00:00" |}.

(** NewsAPI rejects the key. *)
Definition env_news_rejected : Env :=
  {| http_get_json := fun _ _ =>
       Ok (PDict [("status", PStr "error"); ("code", PStr "apiKeyInvalid")]);
     read_csv := fun _ => Examples.unreachable;
     newspaper_parse := fun _ => Examples.unreachable;
     utcnow_iso := "2024-05-01T12:00:00+00:00";
     utcnow_naive_iso := "2024-05-01T12:00:00" |}.



End NewsScenarios.

(** ** Further notions about the cycle *)

(** The states attempted when [s] is the last one, in the fixed order. *)
Definition states_up_to (s : state) : list state :=
  match s with
  | PRIMARY => [PRIMARY]
  | FALLBACK_SEISMIC => [PRIMARY; FALLBACK_SEISMIC]
  | FALLBACK_ALERTS => [PRIMARY; FALLBACK_SEISMIC; FALLBACK_ALERTS]
  | FALLBACK_NEWS => [PRIMARY; FALLBACK_SEISMIC; FALLBACK_ALERTS; FALLBACK_NEWS]
  | DONE => []
  end.

(** The variables the agent is invoked with. *)
Definition agent_input (W : World) : pydict :=
  [("region", PStr (monitor_region (settings W)));
   ("portfolio_csv", PStr (portfolio_csv (settings W)))].

(** Where the briefings go, and the file of the briefing tagged [status]. *)
Definition briefings_dir (W : World) : string :=
  path_join (output_dir (settings W)) "briefings".

Definition briefing_path (W : World) (status : string) : string :=
  path_join (briefings_dir W) ("briefing_" ++ status ++ "_" ++ utcnow_stamp W ++ ".md").

Section CallNotions.
Context {PY : Python} {SH : Shapely} {PD : Pandas}.

(** The footprint the fallback state [s] fetched, when it fetched one that is
    present. *)
Definition present_footprint (W : World) (s : state) (u : pyval) : Prop :=
  truthy u = true /\
  match s with
  | FALLBACK_SEISMIC =>
      exists eq,
        fetch_recent_earthquakes (env_at W s) (FNum 4.5) "day" None = Ok eq /\
        u = eq_feature_union eq
  | FALLBACK_ALERTS =>
      exists al,
        fetch_active_alerts (env_at W s) None (alerts_area (settings W)) = Ok al /\
        u = al_feature_union al
  | _ => False
  end.

(** The calls a fallback chain may make: the three fetches, and an exposure
    computation in a state that fetched a present footprint. *)
Definition fallback_call (W : World) (c : call) : Prop :=
  c = CallFetchEarthquakes \/ c = CallFetchAlerts \/ c = CallFetchNews \/
  exists s u, c = CallComputeExposure s u /\ present_footprint W s u.

End CallNotions.

Module CycleScenarios.

(** The agent answers with an object that carries no output. *)
Definition world_mute_agent : World :=
  Examples.world (Ok (PDict [("log", PStr "done")])) (fun _ => Examples.env_down).

(** The agent answers with bare text instead of an object. *)
Definition world_text_agent : World :=
  Examples.world (Ok (PStr "# Briefing")) (fun _ => Examples.env_down).

(** The agent answers with an output that is a list of messages. *)
Definition world_list_agent : World :=
  Examples.world (Ok (PDict [("output", PList [PStr "# Briefing"])]))
                 (fun _ => Examples.env_down).

(** The agent raises, one earthquake is reported, and the output directory
    cannot be created. *)
Definition world_read_only : World :=
  {| settings := Examples.example_settings (Some "k");
     build_agent := Ok tt;
     executor_invoke := fun _ => Examples.unreachable;
     env_at := fun _ => Examples.env_one_quake;
     utcnow_stamp := "20240501T120000Z";
     makedirs := fun _ => raise (ExternalError "PermissionError") "Permission denied";
     write_text := fun _ _ => Ok tt |}.

(** The agent raises and one earthquake is reported. *)
Definition world_one_quake : World :=
  Examples.world Examples.unreachable (fun _ => Examples.env_one_quake).

End CycleScenarios.

(** ** [app/utils/http.py] *)

Definition lower_ascii (c : ascii) : ascii :=
  let n := nat_of_ascii c in
  if (Nat.leb 65 n && Nat.leb n 90)%bool then ascii_of_nat (n + 32) else c.

(** [s.lower()], on the ASCII letters. *)
Fixpoint lower (s : string) : string :=
  match s with
  | EmptyString => EmptyString
  | String c s' => String (lower_ascii c) (lower s')
  end.

(** What [session.get] hands back when the server answered. *)
Record Response : Type := {
  status_code : Z;
  (** [resp.text] *)
  resp_text : string;
  (** [resp.json()] *)
  resp_json : result pyval
}.

(** [resp.raise_for_status()]: the client and server error codes raise.  The
    message [requests] composes from the status, the reason and the URL is
    not modelled. *)
Definition raise_for_status (resp : Response) : result unit :=
  if ((400 <=? status_code resp)%Z && (status_code resp <? 600)%Z)%bool
  then raise (ExternalError "HTTPError") "Client or Server Error"
  else Ok tt.

(** [bool(resp)], that is [resp.ok]: whether [raise_for_status] would pass. *)
Definition response_ok (resp : Response) : bool := is_ok (raise_for_status resp).

(** [r] raises [requests.HTTPError], whatever its message. *)
Definition raises_http_error {A : Type} (r : result A) : Prop :=
  exists msg, r = Raise (Exn (ExternalError "HTTPError") msg).

(** The client: its timeout and its session (the retrying transport behind
    [session.get(url, params=..., headers=..., timeout=...)]). *)
Record HttpClient : Type := {
  client_timeout : Z;
  session_get : string -> option pydict -> option pydict -> Z -> result Response
}.

(** A record handed to the logger: the level, the message template and the
    keyword arguments it is formatted with. *)
Record LogRecord : Type := {
  log_level : string;
  log_template : string;
  log_fields : pydict
}.

(** A computation that logs: the records it emits and what it returns or
    raises. *)
Definition Logged (A : Type) : Type := list LogRecord * result A.

Definition sensitive_names : list string := ["apikey"; "api_key"; "key"; "token"].

(** [k.lower() in ("apikey", "api_key", "key", "token")] *)
Definition sensitive (k : string) : bool := existsb (String.eqb (lower k)) sensitive_names.

Definition _mask_params (params : option pydict) : pydict :=
  match params with
  | None => []
  | Some d =>
      if negb (truthy (PDict d)) then []
      else map (fun kv : string * pyval =>
                  if sensitive (fst kv) then (fst kv, PStr "***") else kv) d
  end.

(** [resp.text[:2000] if resp and resp.text else ""] *)
Definition preview_of (resp : Response) : string :=
  if (response_ok resp && negb (String.eqb (resp_text resp) ""))%bool
  then str_take 2000 (resp_text resp)
  else "".

(** The record [get_json] and [get_text] log once the server has answered. *)
Definition request_record (template url : string) (resp : Response) (safe_params : pydict)
  : LogRecord :=
  {| log_level := "INFO";
     log_template := template;
     log_fields := [("url", PStr url);
                    ("status", PInt (status_code resp));
                    ("params", PDict safe_params);
                    ("preview", PStr (preview_of resp))] |}.

Definition get_json (c : HttpClient) (url : string) (params headers : option pydict)
  : Logged pyval :=
  let safe_params := _mask_params params in
  match session_get c url params headers (client_timeout c) with
  | Raise e => ([], Raise e)
  | Ok resp =>
      ([request_record
          "HTTP JSON GET {url} status={status} params={params} preview={preview}"
          url resp safe_params],
       _ <- raise_for_status resp ;; resp_json resp)
  end.

Definition get_text (c : HttpClient) (url : string) (params headers : option pydict)
  : Logged string :=
  let safe_params := _mask_params params in
  match session_get c url params headers (client_timeout c) with
  | Raise e => ([], Raise e)
  | Ok resp =>
      ([request_record
          "HTTP TEXT GET {url} status={status} params={params} preview={preview}"
          url resp safe_params],
       _ <- raise_for_status resp ;; Ok (resp_text resp))
  end.

(** [get_feed]: [feedparser.parse] is handed the text and gives the entries
    of the feed. *)
Definition get_feed (feedparser_parse : string -> list pyval) (c : HttpClient) (url : string)
  : Logged (list pyval) :=
  let started :=
    {| log_level := "INFO"; log_template := "HTTP FEED GET {url}";
       log_fields := [("url", PStr url)] |} in
  match get_text c url None None with
  | (records, Raise e) => (started :: records, Raise e)
  | (records, Ok text) =>
      let entries := feedparser_parse text in
      (((started :: records) ++
        [{| log_level := "INFO"; log_template := "Parsed feed {url} entries={n}";
            log_fields := [("url", PStr url);
                           ("n", PInt (Z.of_nat (List.length entries)))] |}])%list,
       Ok entries)
  end.



Module HttpScenarios.

(** A server that answers every request with status 503 and an HTML page. *)
Definition client_503 : HttpClient :=
  {| client_timeout := 20;
     session_get := fun _ _ _ _ =>
       Ok {| status_code := 503;
             resp_text := "<html>Service Unavailable</html>";
             resp_json := raise (ExternalError "JSONDecodeError") "Expecting value" |} |}.

(** A server that answers every request with status 200 and a JSON object. *)
Definition client_200 : HttpClient :=
  {| client_timeout := 20;
     session_get := fun _ _ _ _ =>
       Ok {| status_code := 200;
             resp_text := "{}";
             resp_json := Ok (PDict []) |} |}.

(** No route to the server. *)
Definition client_down : HttpClient :=
  {| client_timeout := 20;
     session_get := fun _ _ _ _ => Examples.unreachable |}.

End HttpScenarios.

(** ** [app/tools/weather_tool.py] *)

(** [sub in s] *)
Fixpoint contains (sub s : string) : bool :=
  (String.prefix sub s
   || match s with
      | EmptyString => false
      | String _ s' => contains sub s'
      end)%bool.

(** [s.endswith(suffix)] *)
Definition endswith (suffix s : string) : bool :=
  (Nat.leb (String.length suffix) (String.length s)
   && String.eqb (String.substring (String.length s - String.length suffix)
                                   (String.length suffix) s) suffix)%bool.

Fixpoint until_space (s : string) : string :=
  match s with
  | EmptyString => EmptyString
  | String c s' => if is_space c then EmptyString else String c (until_space s')
  end.

(** [s.split()[0]]: the first word, when there is one. *)
Definition first_word (s : string) : result string :=
  match lstrip s with
  | EmptyString => raise IndexError "list index out of range"
  | t => Ok (until_space t)
  end.

Definition NHC_GIS_FEEDS : list string :=
  ["https://www.nhc.noaa.gov/gis-at.xml"; "https://www.nhc.noaa.gov/gis-ep.xml"].

(** A candidate cone product: the dict with keys [title], [url] and [type]. *)
Record ConeItem : Type := {
  item_title : string;
  item_url : string;
  item_type : string
}.

(** A shape as [pyshp] reads it. *)
Record ShpShape : Type := {
  shapeType : Z;
  parts : list nat;
  points : list (pyfloat * pyfloat)
}.

(** What the tool calls besides the HTTP client and the shapely operations
    of [Shapely]. *)
Class Nhc {SH : Shapely} : Type := {
  (** [feedparser.parse(text).entries] *)
  feedparser_parse : string -> list pyval;
  (** The names [os.listdir] finds in the temporary directory once the
      archive of the response has been written and extracted there. *)
  extracted_names : Response -> result (list string);
  (** [shapefile.Reader(path).shapes()] for the extracted file of that name. *)
  reader_shapes : Response -> string -> result (list ShpShape);
  (** [shapely.geometry.Polygon(exterior, interiors)] *)
  polygon : list (pyfloat * pyfloat) -> list (list (pyfloat * pyfloat)) -> result geom;
  (** [poly.is_empty] *)
  is_empty : geom -> bool;
  (** [datetime.utcnow().isoformat()] *)
  nhc_utcnow_iso : string
}.

(** The dict [fetch_current_cone] returns. *)
Record ConeResult : Type := {
  cone_fetched_at : string;
  cone_source_title : string;
  cone_source_url : string;
  cone_feature : pyval
}.

Section Weather.
Context {PY : Python} {SH : Shapely} {NH : Nhc}.

(** The body of the loop over the links of an entry: the item appended, if
    any. *)
Definition link_item (title : string) (l : pyval) : option ConeItem :=
  let href := match l with PDict d => field "href" d | _ => PNone end in
  if negb (truthy href) then None else
  let href_s := py_str href in
  let low := lower href_s in
  if (endswith ".geojson" low || contains "geojson" low)%bool then
    Some {| item_title := title; item_url := href_s; item_type := "geojson" |}
  else if (endswith ".zip" low && (contains "cone" low || contains "5day" low))%bool then
    Some {| item_title := title; item_url := href_s; item_type := "shpzip" |}
  else None.

(** The body of the loop over the entries of a feed. *)
Definition entry_items (entry : pyval) : result (list ConeItem) :=
  t <- py_get_default entry "title" (PStr "") ;;
  let title := py_str t in
  if negb (contains "cone" (lower title)) then Ok [] else
  ls <- py_get entry "links" ;;
  links <- py_iter (py_or ls (PList [])) ;;
  Ok (somes (map (link_item title) links)).

(** The body of the loop over the feeds: a feed that cannot be fetched is
    skipped. *)
Definition feed_items (c : HttpClient) (feed_url : string) : result (list ConeItem) :=
  match snd (get_feed feedparser_parse c feed_url) with
  | Raise _ => Ok []
  | Ok entries =>
      per_entry <- mapM entry_items entries ;;
      Ok (List.concat per_entry)
  end.

Definition _parse_gis_feed_for_cone_links (c : HttpClient) (target_name : option string)
  : result (list ConeItem) :=
  per_feed <- mapM (feed_items c) NHC_GIS_FEEDS ;;
  Ok (List.concat per_feed).

(** One pass of the comprehension of [_load_cone_geojson]: the geometry of a
    feature that has one. *)
Definition cone_geom (f : pyval) : result (option geom) :=
  g <- py_get f "geometry" ;;
  if truthy g then (sh <- shape g ;; Ok (Some sh)) else Ok None.

Definition _load_cone_geojson (c : HttpClient) (url : string) : result pyval :=
  data <- snd (get_json c url None None) ;;
  features <- py_get_default data "features" (PList []) ;;
  fs <- py_iter features ;;
  gs <- mapM cone_geom fs ;;
  match somes gs with
  | [] => raise ValueError "No geometries found in cone GeoJSON"
  | geoms => Ok (mapping (unary_union geoms))
  end.

(** [l[a:b]] for indices that are not negative. *)
Definition slice {A : Type} (a b : nat) (l : list A) : list A := firstn (b - a) (skipn a l).

(** The slices of [pts] between consecutive entries of [offsets]. *)
Fixpoint slices_between {A : Type} (pts : list A) (offsets : list nat) : list (list A) :=
  match offsets with
  | a :: (b :: _) as rest => slice a b pts :: slices_between pts rest
  | _ => []
  end.

(** The rings the loader keeps of a shape: the parts with three points or
    more. *)
Definition shape_rings (s : ShpShape) : list (list (pyfloat * pyfloat)) :=
  filter (fun ring => Nat.leb 3 (List.length ring))
         (slices_between (points s) (parts s ++ [List.length (points s)])%list).

(** [shapefile.POLYGON], [POLYGONZ] and [POLYGONM]. *)
Definition is_polygon_type (t : Z) : bool := ((t =? 5) || (t =? 15) || (t =? 25))%Z.

(** The body of the loop over the shapes: the polygon appended, if any. *)
Definition shape_polygon (s : ShpShape) : result (option geom) :=
  if negb (is_polygon_type (shapeType s)) then Ok None else
  match shape_rings s with
  | [] => Ok None
  | exterior :: interiors =>
      poly <- polygon exterior interiors ;;
      Ok (if is_empty poly then None else Some poly)
  end.

Definition _load_cone_shapefile_zip (c : HttpClient) (url : string) : result pyval :=
  resp <- session_get c url None None 60 ;;
  _ <- raise_for_status resp ;;
  names <- extracted_names resp ;;
  match filter (fun p => endswith ".shp" (lower p)) names with
  | [] => raise ValueError "No .shp file found in ZIP"
  | shp :: _ =>
      shapes <- reader_shapes resp shp ;;
      polys <- mapM shape_polygon shapes ;;
      match somes polys with
      | [] => raise ValueError "No polygon geometries in shapefile"
      | geoms => Ok (mapping (unary_union geoms))
      end
  end.

(** Lines 113-122: the product chosen among the candidates (there is one). *)
Definition choose_cone (target_name : option string) (first : ConeItem) (others : list ConeItem)
  : result ConeItem :=
  let items := first :: others in
  named <- match target_name with
           | Some t =>
               if String.eqb t "" then Ok None
               else (w <- first_word (lower t) ;;
                     Ok (find (fun it => contains w (lower (item_title it))) items))
           | None => Ok None
           end ;;
  match named with
  | Some it => Ok it
  | None =>
      match filter (fun it => String.eqb (item_type it) "geojson") items with
      | g :: _ => Ok g
      | [] => Ok first
      end
  end.

Definition fetch_current_cone (c : HttpClient) (target_name : option string)
  : result ConeResult :=
  items <- _parse_gis_feed_for_cone_links c target_name ;;
  match items with
  | [] => raise RuntimeError "No cone products found in NHC GIS feeds"
  | first :: others =>
      chosen <- choose_cone target_name first others ;;
      geom <- (if String.eqb (item_type chosen) "geojson"
               then _load_cone_geojson c (item_url chosen)
               else _load_cone_shapefile_zip c (item_url chosen)) ;;
      Ok {| cone_fetched_at := nhc_utcnow_iso ++ "Z";
            cone_source_title := item_title chosen;
            cone_source_url := item_url chosen;
            cone_feature :=
              PDict [("type", PStr "Feature");
                     ("properties", PDict [("source", PStr (item_url chosen));
                                           ("title", PStr (item_title chosen))]);
                     ("geometry", geom)] |}
  end.

End Weather.

(** ** Notions the statements about the cone products use *)

(** A candidate as [_parse_gis_feed_for_cone_links] lists them: its title
    mentions a cone, and its link either mentions geojson (type [geojson]) or
    does not and is a zip archive that mentions a cone or 5day (type
    [shpzip]).  Letter case is ignored throughout. *)
Definition cone_product (it : ConeItem) : Prop :=
  contains "cone" (lower (item_title it)) = true /\
  ((item_type it = "geojson" /\ contains "geojson" (lower (item_url it)) = true) \/
   (item_type it = "shpzip" /\
    contains "geojson" (lower (item_url it)) = false /\
    endswith ".zip" (lower (item_url it)) = true /\
    (contains "cone" (lower (item_url it)) || contains "5day" (lower (item_url it)))%bool
      = true)).

(** [it] is the first element of [items] that satisfies [p]. *)
Definition first_such {A : Type} (p : A -> bool) (items : list A) (it : A) : Prop :=
  exists l1 l2, items = (l1 ++ it :: l2)%list /\ p it = true /\ forall x, In x l1 -> p x = false.

(** The entries of [offsets] do not decrease and do not exceed [n]. *)
Fixpoint bounds_within (n : nat) (offsets : list nat) : Prop :=
  match offsets with
  | [] => True
  | a :: rest =>
      (a <= n)%nat /\
      match rest with
      | [] => True
      | b :: _ => (a <= b)%nat
      end /\ bounds_within n rest
  end.

Module ConeScenarios.
Import Ref.

Definition geo_link : pyval :=
  PDict [("href", PStr "https://www.nhc.noaa.gov/gis/forecast/AL01_CONE.GeoJSON")].

Definition zip_link : pyval :=
  PDict [("href", PStr "https://www.nhc.noaa.gov/gis/forecast/al012024_5day_latest.zip")].

Definition kmz_link : pyval :=
  PDict [("href", PStr "https://www.nhc.noaa.gov/gis/forecast/al012024_CONE.kmz")].

(** The Atlantic feed: a cone entry for Alex with three links, and an entry
    that is not about a cone. *)
Definition atlantic_entries : list pyval :=
  [PDict [("title", PStr "Advisory #12 Forecast Cone [shp] - Hurricane ALEX");
          ("links", PList [zip_link; kmz_link; geo_link])];
   PDict [("title", PStr "Advisory #12 Wind Speed Probabilities");
          ("links", PList [zip_link])]].

(** The cone of the response named [cone.geojson]: one rectangle. *)
Definition cone_payload : pyval :=
  PDict [("type", PStr "FeatureCollection");
         ("features",
           PList [PDict [("type", PStr "Feature"); ("geometry", PNone)];
                  Examples.rect_feature (-81) 25 (-80) 26])].

Definition page (body : string) (json : result pyval) : result Response :=
  Ok {| status_code := 200; resp_text := body; resp_json := json |}.

(** A server with the Atlantic feed and the GeoJSON cone; the Pacific feed
    answers 404. *)
Definition nhc_client : HttpClient :=
  {| client_timeout := 20;
     session_get := fun url _ _ _ =>
       if String.eqb url "https://www.nhc.noaa.gov/gis-at.xml" then
         page "atlantic" (raise (ExternalError "JSONDecodeError") "Expecting value")
       else if String.eqb url "https://www.nhc.noaa.gov/gis/forecast/AL01_CONE.GeoJSON" then
         page "cone.geojson" (Ok cone_payload)
       else
         Ok {| status_code := 404; resp_text := "Not Found";
               resp_json := raise (ExternalError "JSONDecodeError") "Expecting value" |} |}.

(** A server that answers every request with status 200 and some bytes. *)
Definition archive_client : HttpClient :=
  {| client_timeout := 20;
     session_get := fun _ _ _ _ =>
       page "PK" (raise (ExternalError "JSONDecodeError") "Expecting value") |}.

(** The two candidates the Atlantic feed gives. *)
Definition zip_item : ConeItem :=
  {| item_title := "Advisory #12 Forecast Cone [shp] - Hurricane ALEX";
     item_url := "https://www.nhc.noaa.gov/gis/forecast/al012024_5day_latest.zip";
     item_type := "shpzip" |}.

Definition geo_item : ConeItem :=
  {| item_title := "Advisory #12 Forecast Cone [shp] - Hurricane ALEX";
     item_url := "https://www.nhc.noaa.gov/gis/forecast/AL01_CONE.GeoJSON";
     item_type := "geojson" |}.

(** A triangle, a degenerate part of two points, and a square hole. *)
Definition two_ring_shape : ShpShape :=
  {| shapeType := 5;
     parts := [0; 4; 6]%nat;
     points := [(FNum 0, FNum 0); (FNum 4, FNum 0); (FNum 0, FNum 4); (FNum 0, FNum 0);
                (FNum 9, FNum 9); (FNum 9, FNum 9);
                (FNum 1, FNum 1); (FNum 2, FNum 1); (FNum 2, FNum 2); (FNum 1, FNum 2);
                (FNum 1, FNum 1)] |}.

(** Feeds are recognised by their text; a polygon is read as the bounding
    rectangle of its exterior when that is a closed ring of five corners. *)
#[global] Instance nhc : @Nhc Ref.shapely := {|
  feedparser_parse := fun text => if String.eqb text "atlantic" then atlantic_entries else [];
  extracted_names := fun _ => Ok ["cone.zip"; "readme.txt"; "AL01_5day_pgn.SHP"; "b.shp"];
  reader_shapes := fun _ name =>
    if String.eqb name "AL01_5day_pgn.SHP" then Ok [two_ring_shape]
    else raise (ExternalError "ShapefileException") "Unable to open";
  polygon := fun exterior _ =>
    match exterior with
    | (FNum x0, FNum y0) :: _ => Ok [Box x0 y0 (x0 + 4) (y0 + 4)]
    | _ => Ok []
    end;
  is_empty := fun g => match g with [] => true | _ => false end;
  nhc_utcnow_iso := "2024-05-01T12:00:00"
|}.

End ConeScenarios.

(** ** Notions the statement about the determinism of the briefing uses *)

(** The runtime [PY] with its sets iterating in the order [ord]: another
    process of the same interpreter, in which the hashes of strings are
    seeded differently. *)
Definition with_set_order (PY : Python) (ord : list pyval -> list pyval) : Python :=
  {| float_of_str := @float_of_str PY;
     py_repr := @py_repr PY;
     format_float := @format_float PY;
     set_order := ord;
     json_loads := @json_loads PY |}.

(** Two computations return the same value, or both raise. *)
Definition same_ok {A : Type} (r r' : result A) : Prop :=
  match r, r' with
  | Ok a, Ok a' => a = a'
  | Raise _, Raise _ => True
  | _, _ => False
  end.

(** Two merged alert footprints that differ at most in the order in which
    their events and their severities are listed. *)
Inductive same_but_set_order : pyval -> pyval -> Prop :=
| sbo_none : same_but_set_order PNone PNone
| sbo_feature : forall g n ev ev' sv sv',
    Permutation ev ev' -> Permutation sv sv' ->
    same_but_set_order
      (PDict [("type", PStr "Feature"); ("geometry", g);
              ("properties",
                PDict [("source", PStr "NWS Alerts"); ("merged_count", n);
                       ("events", PList ev); ("severities", PList sv)])])
      (PDict [("type", PStr "Feature"); ("geometry", g);
              ("properties",
                PDict [("source", PStr "NWS Alerts"); ("merged_count", n);
                       ("events", PList ev'); ("severities", PList sv')])]).

Section BriefingNotions.
Context {PY : Python} {SH : Shapely} {PD : Pandas}.

(** The briefing a fallback state renders in the world [W]; [None] when the
    state raises. *)
Definition state_text (W : World) (s : state) : option string :=
  match briefing_input_at W s with
  | Some i =>
      match render_briefing i (utcnow_iso (env_at W s)) with
      | Ok t => Some t
      | Raise _ => None
      end
  | None => None
  end.

(** The briefing and the status of the first fallback state, in the order
    earthquakes, alerts, news, that renders one. *)
Definition chain_result (W : World) : string * string :=
  match state_text W FALLBACK_SEISMIC with
  | Some t => (t, "ok_eq")
  | None =>
      match state_text W FALLBACK_ALERTS with
      | Some t => (t, "ok_alerts")
      | None =>
          (render_news (news_items W) (utcnow_iso (env_at W FALLBACK_NEWS)), "ok_news")
      end
  end.

(** The alerts briefing (lines 207-226) whose line of events lists the names
    [events] in that order. *)
Definition alerts_text (count : nat) (events : list string) (exp : ExposureSummary)
    (area : option string) (now : string) : string :=
  join nl
    (List.concat
       [["# LEEA Briefing (NWS Alerts)";
         "";
         "Generated at: " ++ now;
         "";
         "## Event Status";
         "Active NWS alerts: " ++ str_of_nat count ++ " | Events: " ++ join ", " events];
        match area with
        | Some a => ["Area filter: " ++ a]
        | None => []
        end;
        [""; "## Exposure"; exposure_line exp;
         "";
         "## Next Actions";
         "- Monitor NWS alerts for changes; re-run exposure if polygons update."]]).

End BriefingNotions.

Module DeterminismScenarios.
Import Ref.

(** The alerts feed lists the three alerts of [AlertScenarios.three_alerts],
    of two distinct events; no earthquake is reported. *)
Definition env_two_events : Env :=
  {| http_get_json := fun url _ =>
       if String.eqb url NWS_ALERTS_URL then
         Ok (PDict [("features", PList AlertScenarios.three_alerts)])
       else if String.prefix USGS_BASE url then Ok (PDict [("features", PList [])])
       else Examples.unreachable;
     read_csv := fun _ => Ok Examples.portfolio_scenario;
     newspaper_parse := fun _ => Examples.unreachable;
     utcnow_iso := "2024-05-01T12:00:00+00:00";
     utcnow_naive_iso := "2024-05-01T12:00:00" |}.

(** The agent raises; the feeds answer as in [env_two_events]. *)
Definition world_two_events : World :=
  Examples.world Examples.unreachable (fun _ => env_two_events).

End DeterminismScenarios.

(** ** Proof automation for rational comparisons *)

Ltac q_tests :=
  repeat match goal with
         | |- context [Qle_bool ?a ?b] =>
             let T := fresh "T" in destruct (Qle_bool a b) eqn:T
         end.

(** * Properties *)

Unset Implicit Arguments.
Open Scope list_scope.

(** ** Float comparisons *)

Lemma Qle_bool_false : forall a b : Q, Qle_bool a b = false -> b < a.
Proof.
  intros a b H. apply Qnot_le_lt. intro Hle.
  apply Qle_bool_iff in Hle. congruence.
Qed.

Lemma fle_refl : forall a, is_nan a = false -> fle a a = true.
Proof.
  intros [q| | |] H; simpl in *; try reflexivity; try discriminate.
  apply Qle_bool_iff. apply Qle_refl.
Qed.

Lemma fle_trans : forall a b c, fle a b = true -> fle b c = true -> fle a c = true.
Proof.
  intros [x| | |] [y| | |] [z| | |]; simpl; intros H1 H2;
    try reflexivity; try discriminate.
  apply Qle_bool_iff in H1. apply Qle_bool_iff in H2.
  apply Qle_bool_iff. eapply Qle_trans; eassumption.
Qed.

Lemma fle_total : forall a b,
  is_nan a = false -> is_nan b = false -> fle a b = false -> fle b a = true.
Proof.
  intros [x| | |] [y| | |]; simpl; intros Ha Hb H;
    try reflexivity; try discriminate.
  apply Qle_bool_false in H. apply Qle_bool_iff. apply Qlt_le_weak. exact H.
Qed.

(** ** Rounding to binary64 *)

Lemma round_half_even_bounds : forall (n K : Z) (d : positive),
  (0 <= n)%Z -> (n <= K * Zpos d)%Z ->
  (0 <= round_half_even n d <= K)%Z.
Proof.
  intros n K d Hn HK. unfold round_half_even.
  assert (Hd : (0 < Zpos d)%Z) by reflexivity.
  pose proof (Z.div_mod n (Zpos d) ltac:(lia)) as Hdm.
  pose proof (Z.mod_pos_bound n (Zpos d) Hd) as Hr.
  assert (Hf : (0 <= n / Zpos d)%Z) by (apply Z.div_pos; lia).
  assert (HfK : (n / Zpos d <= K)%Z) by (apply Z.div_le_upper_bound; lia).
  assert (Hlt : (0 < n mod Zpos d -> n / Zpos d < K)%Z) by nia.
  destruct (2 * (n mod Zpos d) ?= Zpos d)%Z eqn:C.
  - apply Z.compare_eq in C. destruct (Z.even (n / Zpos d)); lia.
  - lia.
  - apply Z.compare_gt_iff in C. lia.
Qed.

Lemma binade_le_0 : forall n d : positive, (Zpos n <= Zpos d)%Z -> (binade n d <= 0)%Z.
Proof.
  intros n d H. unfold binade.
  pose proof (Z.log2_le_mono _ _ H) as L.
  match goal with |- context [if ?c then _ else _] => destruct c end; lia.
Qed.

Lemma round64_pos_unit : forall n d : positive,
  (Zpos n <= Zpos d)%Z ->
  exists r : Q, round64_pos n d = FNum r /\ 0 <= r /\ r <= 1.
Proof.
  intros n d H. unfold round64_pos.
  pose proof (binade_le_0 n d H) as B.
  set (ulp := (Z.max (binade n d) (-1022) - 52)%Z).
  assert (U : (ulp < 0)%Z) by (unfold ulp; lia).
  destruct (0 <=? ulp)%Z eqn:T; [apply Z.leb_le in T; lia|].
  assert (K : (0 < 2 ^ (- ulp))%Z) by (apply Z.pow_pos_nonneg; lia).
  destruct (round_half_even_bounds (Zpos n * 2 ^ (- ulp)) (2 ^ (- ulp)) d) as [M0 M1];
    [nia | nia |].
  eexists. split; [reflexivity|].
  rewrite !Qred_correct. unfold Qle. cbn [Qnum Qden].
  rewrite Z2Pos.id by exact K. lia.
Qed.

(** Rounding keeps a number of the unit interval inside it. *)
Lemma round64_unit : forall q : Q, 0 <= q -> q <= 1 ->
  exists r : Q, round64 q = FNum r /\ 0 <= r /\ r <= 1.
Proof.
  intros [n d] H0 H1. unfold round64. cbn [Qnum Qden].
  unfold Qle in H0, H1. cbn [Qnum Qden] in H0, H1.
  destruct n as [|n|n].
  - exists 0. split; [reflexivity|]. split; [apply Qle_refl | discriminate].
  - apply round64_pos_unit. lia.
  - lia.
Qed.

(** ** C8: the buffer radius *)

(** C8.  For every magnitude [m] (NaN and the infinities included) the radius
    [_buffer_km_for_mag m] is the step function of the specification: 200 km
    from 7.0 up, 125 km on [6.0, 7.0), 75 km on [5.0, 6.0), 50 km on
    [4.0, 5.0) and 25 km otherwise; and the radius never decreases when the
    magnitude grows. *)
Theorem buffer_km_for_mag_step : forall m : pyfloat,
  _buffer_km_for_mag m = buffer_radius_spec m /\
  (forall m' : pyfloat,
     fle m m' = true -> fle (_buffer_km_for_mag m) (_buffer_km_for_mag m') = true).
Proof.
  intro m. split.
  - unfold _buffer_km_for_mag, buffer_radius_spec, fge, flt, fle.
    destruct m as [q| | |]; try reflexivity.
    q_tests; reflexivity.
  - intros m' Hle. unfold _buffer_km_for_mag, fge.
    destruct (fle (FNum 7.0) m) eqn:A7, (fle (FNum 6.0) m) eqn:A6,
             (fle (FNum 5.0) m) eqn:A5, (fle (FNum 4.0) m) eqn:A4,
             (fle (FNum 7.0) m') eqn:B7, (fle (FNum 6.0) m') eqn:B6,
             (fle (FNum 5.0) m') eqn:B5, (fle (FNum 4.0) m') eqn:B4;
      try reflexivity; exfalso;
      match goal with
      | A : fle ?t m = true, B : fle ?t m' = false |- _ =>
          rewrite (fle_trans _ _ _ A Hle) in B; discriminate
      end.
Qed.

Lemma buffer_km_for_mag_step_witness :
  _buffer_km_for_mag (FNum 6.5) = FNum 125.0 /\
  fle (_buffer_km_for_mag (FNum 4.5)) (_buffer_km_for_mag (FNum 6.5)) = true.
Proof.
  split.
  - rewrite (proj1 (buffer_km_for_mag_step (FNum 6.5))). reflexivity.
  - apply (proj2 (buffer_km_for_mag_step (FNum 4.5)) (FNum 6.5)). reflexivity.
Defined.

(** ** The exposure computation *)

Section Exposure.
Context {PY : Python} {SH : Shapely} {PD : Pandas}.

Lemma scored_assets_kept : forall df,
  scored_assets df = map coerce_row (filter coords_numeric (rows df)).
Proof.
  intro df. unfold scored_assets, dropna_coords.
  induction (rows df) as [|r l IH]; simpl; [reflexivity|].
  unfold coords_numeric at 1. simpl.
  destruct (negb (is_nan (to_numeric_coerce (Latitude r)))
            && negb (is_nan (to_numeric_coerce (Longitude r))))%bool;
    simpl; rewrite IH; reflexivity.
Qed.

Lemma scored_assets_numeric : forall df a,
  In a (scored_assets df) -> is_nan (asset_lat a) = false /\ is_nan (asset_lon a) = false.
Proof.
  intros df a H. unfold scored_assets, dropna_coords in H.
  apply filter_In in H. destruct H as [_ H].
  apply andb_true_iff in H. destruct H as [H1 H2].
  apply negb_true_iff in H1. apply negb_true_iff in H2. split; assumption.
Qed.

Lemma fillna_not_nan : forall x, is_nan (fillna (FNum 0.0) x) = false.
Proof. intros [q| | |]; reflexivity. Qed.

Lemma scored_assets_tiv_not_nan : forall df a,
  In a (scored_assets df) -> is_nan (asset_tiv a) = false.
Proof.
  intros df a H. rewrite scored_assets_kept in H.
  apply in_map_iff in H. destruct H as [r [<- _]].
  apply fillna_not_nan.
Qed.

(** The ratio expression never raises: the division is guarded. *)
Lemma ratio_defined : forall e t : pyfloat,
  exists r, (if fgt t (FNum 0) then fdiv64 e t else Ok (FNum 0.0)) = Ok r.
Proof.
  intros e t. destruct (fgt t (FNum 0)) eqn:G; [|eexists; reflexivity].
  unfold fdiv64. destruct t as [q| | |]; simpl in G; try discriminate.
  - unfold fdiv. destruct (Qeq_bool q 0) eqn:Z.
    + apply Qeq_bool_iff in Z. apply negb_true_iff in G.
      apply Qle_bool_false in G. exfalso. rewrite Z in G. apply (Qlt_irrefl 0). exact G.
    + destruct e; eexists; reflexivity.
  - destruct e; eexists; reflexivity.
Qed.

(** [compute_portfolio_exposure] returns as soon as the file reads, has the
    four columns and a row with numeric coordinates, and the footprint has a
    geometry shapely accepts. *)
Lemma compute_portfolio_exposure_returns : forall E p cone df poly,
  read_csv E p = Ok df ->
  missing_columns df = [] ->
  cone_geometry cone = Ok poly ->
  scored_assets df <> [] ->
  exists out,
    compute_portfolio_exposure E p cone = Ok out /\
    let s := exposure out in
    let exposed_df := filter (exposed poly) (scored_assets df) in
    asset_count_total s = List.length (scored_assets df) /\
    asset_count_exposed s = List.length exposed_df /\
    total_insured_value_total s = series_sum (map asset_tiv (scored_assets df)) /\
    total_insured_value_exposed s = series_sum (map asset_tiv exposed_df) /\
    (if fgt (total_insured_value_total s) (FNum 0)
     then fdiv64 (total_insured_value_exposed s) (total_insured_value_total s)
     else Ok (FNum 0.0)) = Ok (exposure_ratio s) /\
    top_exposed s = firstn 10 (sort_values_desc asset_tiv exposed_df).
Proof.
  intros E p cone df poly Hread Hcols Hcone Hrows.
  unfold compute_portfolio_exposure. rewrite Hread. cbn [bind].
  rewrite Hcols. rewrite Hcone. cbn [bind].
  destruct (scored_assets df) as [|a0 l0] eqn:S; [congruence|].
  destruct (ratio_defined
              (series_sum (map asset_tiv (filter (exposed poly) (a0 :: l0))))
              (series_sum (map asset_tiv (a0 :: l0)))) as [r Hr].
  rewrite Hr. cbn [bind]. eexists. split; [reflexivity|].
  cbn [exposure asset_count_total asset_count_exposed total_insured_value_total
       total_insured_value_exposed exposure_ratio top_exposed].
  repeat split; try reflexivity. exact Hr.
Qed.

(** With no row left to score, line 79 raises: the summary is never built. *)
Lemma compute_portfolio_exposure_no_row : forall E p cone df poly,
  read_csv E p = Ok df ->
  missing_columns df = [] ->
  cone_geometry cone = Ok poly ->
  scored_assets df = [] ->
  compute_portfolio_exposure E p cone = Raise (Exn KeyError "TotalInsuredValue").
Proof.
  intros E p cone df poly Hread Hcols Hcone Hrows.
  unfold compute_portfolio_exposure. rewrite Hread. cbn [bind].
  rewrite Hcols, Hcone. cbn [bind]. rewrite Hrows. reflexivity.
Qed.

End Exposure.

(** The scenario of the specification: one asset of three inside the
    footprint; the ratio is the float nearest to 1/6. *)
Example exposure_scenario :
  exists out,
    compute_portfolio_exposure (Examples.env_with (Ok Examples.portfolio_scenario))
      "data/portfolio_alpha.csv" (Examples.rect_feature (-81) 25 (-80) 26) = Ok out /\
    asset_count_total (exposure out) = 3%nat /\
    asset_count_exposed (exposure out) = 1%nat /\
    total_insured_value_exposed (exposure out) = FNum 1000 /\
    total_insured_value_total (exposure out) = FNum 6000 /\
    exposure_ratio (exposure out) = round64 (1 # 6).
Proof. eexists. split; [vm_compute; reflexivity|]. vm_compute. repeat split. Qed.

Section ExposureClaims.
Context {PY : Python} {SH : Shapely} {PD : Pandas}.

(** *** C3: how the exposure computation fails *)

(** C3, as it holds of the code.
    [compute_portfolio_exposure] raises Python's own
    exceptions: it propagates whatever [pd.read_csv] raised when the source
    cannot be read or parsed; it raises [ValueError] when a required column is
    missing; given an absent footprint ([None]) and a portfolio that loads with
    all four columns it raises the [TypeError] of subscripting [None]; so with
    an absent footprint it never returns, the portfolio's own error taking
    precedence. *)
Theorem compute_exposure_failures : forall (E : Env) (p : string),
  (forall cone e, read_csv E p = Raise e -> compute_portfolio_exposure E p cone = Raise e) /\
  (forall cone df, read_csv E p = Ok df -> missing_columns df <> [] ->
     exists msg, compute_portfolio_exposure E p cone = Raise (Exn ValueError msg)) /\
  (forall df, read_csv E p = Ok df -> missing_columns df = [] ->
     compute_portfolio_exposure E p PNone =
       Raise (Exn TypeError "'NoneType' object is not subscriptable")) /\
  (exists e, compute_portfolio_exposure E p PNone = Raise e).
Proof.
  intros E p.
  assert (A : forall cone e, read_csv E p = Raise e ->
                             compute_portfolio_exposure E p cone = Raise e).
  { intros cone e H. unfold compute_portfolio_exposure. rewrite H. reflexivity. }
  assert (B : forall cone df, read_csv E p = Ok df -> missing_columns df <> [] ->
                exists msg, compute_portfolio_exposure E p cone = Raise (Exn ValueError msg)).
  { intros cone df H Hm. unfold compute_portfolio_exposure. rewrite H. cbn [bind].
    destruct (missing_columns df) as [|c l] eqn:M; [congruence|].
    eexists. reflexivity. }
  assert (C : forall df, read_csv E p = Ok df -> missing_columns df = [] ->
                compute_portfolio_exposure E p PNone =
                  Raise (Exn TypeError "'NoneType' object is not subscriptable")).
  { intros df H Hm. unfold compute_portfolio_exposure. rewrite H. cbn [bind].
    rewrite Hm. reflexivity. }
  repeat split; try assumption.
  destruct (read_csv E p) as [df|e] eqn:R.
  - destruct (missing_columns df) as [|c l] eqn:M.
    + eexists. apply (C df); [reflexivity|assumption].
    + destruct (B PNone df) as [msg Hmsg]; [reflexivity|congruence|].
      eexists. exact Hmsg.
  - eexists. apply A. reflexivity.
Qed.

(** *** C7: which rows are scored *)

(** C7, as it holds of the code.
    The rows scored against the footprint are exactly the CSV
    rows whose latitude and longitude both coerce to a number, in file order;
    no range is imposed on the coordinates.  A row whose coordinates fail
    coercion is dropped before scoring: when a row is left, the computation
    returns and counts the dropped rows neither among the total nor among
    the exposed assets; when none is left it raises [KeyError] and reports
    nothing. *)
Theorem scored_rows_have_numeric_coordinates : forall (E : Env) (p : string) (cone : pyval) df poly,
  read_csv E p = Ok df ->
  missing_columns df = [] ->
  cone_geometry cone = Ok poly ->
  scored_assets df = map coerce_row (filter coords_numeric (rows df)) /\
  (forall a, In a (scored_assets df) ->
     is_nan (asset_lat a) = false /\ is_nan (asset_lon a) = false) /\
  (filter coords_numeric (rows df) <> [] ->
     exists out,
       compute_portfolio_exposure E p cone = Ok out /\
       asset_count_total (exposure out) = List.length (filter coords_numeric (rows df)) /\
       asset_count_exposed (exposure out) =
         List.length (filter (fun r => exposed poly (coerce_row r))
                             (filter coords_numeric (rows df)))) /\
  (filter coords_numeric (rows df) = [] ->
     compute_portfolio_exposure E p cone = Raise (Exn KeyError "TotalInsuredValue")).
Proof.
  intros E p cone df poly Hread Hcols Hcone.
  split; [apply scored_assets_kept|].
  split; [apply scored_assets_numeric|].
  split.
  - intro Hrows.
    destruct (compute_portfolio_exposure_returns E p cone df poly Hread Hcols Hcone)
      as [out [Hout [Htot [Hexp _]]]].
    { rewrite scored_assets_kept. intro Hnil. apply Hrows.
      destruct (filter coords_numeric (rows df)); [reflexivity|discriminate Hnil]. }
    exists out. split; [exact Hout|].
    rewrite Htot, Hexp, scored_assets_kept. split.
    + apply length_map.
    + clear Hrows Hout Htot Hexp.
      induction (filter coords_numeric (rows df)) as [|r l IH]; [reflexivity|].
      simpl. destruct (exposed poly (coerce_row r)); simpl; rewrite IH; reflexivity.
  - intro Hrows.
    apply (compute_portfolio_exposure_no_row E p cone df poly Hread Hcols Hcone).
    rewrite scored_assets_kept, Hrows. reflexivity.
Qed.

End ExposureClaims.

(** The error raised for an absent footprint is no type of its own: with a
    file lacking a column it is the very [ValueError] a present footprint
    gets, and with a complete file it is a [TypeError].  No two disjoint error
    types can therefore label "missing column" and "absent footprint". *)
Lemma compute_exposure_error_types_counterexample :
  compute_portfolio_exposure (Examples.env_with (Ok Examples.portfolio_no_latitude))
    "portfolio.csv" PNone
  = Raise (Exn ValueError "Portfolio CSV missing columns: {'Latitude'}")
  /\ compute_portfolio_exposure (Examples.env_with (Ok Examples.portfolio_no_latitude))
       "portfolio.csv" (Examples.rect_feature 0 0 1 1)
     = Raise (Exn ValueError "Portfolio CSV missing columns: {'Latitude'}")
  /\ compute_portfolio_exposure (Examples.env_with (Ok (Examples.portfolio [])))
       "portfolio.csv" PNone
     = Raise (Exn TypeError "'NoneType' object is not subscriptable")
  /\ ~ (exists DataError ConfigurationError : exn -> Prop,
          (forall e, DataError e -> ConfigurationError e -> False) /\
          (forall (E : Env) (p : string) (cone : pyval) (df : DataFrame),
             read_csv E p = Ok df -> missing_columns df <> [] ->
             exists e, @compute_portfolio_exposure Ref.python Ref.shapely Ref.pandas E p cone
                       = Raise e /\ DataError e) /\
          (forall (E : Env) (p : string),
             exists e, @compute_portfolio_exposure Ref.python Ref.shapely Ref.pandas E p PNone
                       = Raise e /\ ConfigurationError e)).
Proof.
  split; [vm_compute; reflexivity|].
  split; [vm_compute; reflexivity|].
  split; [vm_compute; reflexivity|].
  intros [DataError [ConfigurationError [Hdisj [Hdata Hconf]]]].
  destruct (Hdata (Examples.env_with (Ok Examples.portfolio_no_latitude)) "portfolio.csv"
              PNone Examples.portfolio_no_latitude) as [e1 [H1 D1]].
  - reflexivity.
  - vm_compute. discriminate.
  - destruct (Hconf (Examples.env_with (Ok Examples.portfolio_no_latitude)) "portfolio.csv")
      as [e2 [H2 C2]].
    rewrite H1 in H2. injection H2 as <-. exact (Hdisj e1 D1 C2).
Qed.

Lemma compute_exposure_failures_witness :
  compute_portfolio_exposure (Examples.env_with (Ok (Examples.portfolio [])))
    "portfolio.csv" PNone
  = Raise (Exn TypeError "'NoneType' object is not subscriptable")
  /\ exists msg,
       compute_portfolio_exposure (Examples.env_with (Ok Examples.portfolio_no_latitude))
         "portfolio.csv" (Examples.rect_feature 0 0 1 1)
       = Raise (Exn ValueError msg).
Proof.
  destruct (@compute_exposure_failures Ref.python Ref.shapely Ref.pandas
              (Examples.env_with (Ok (Examples.portfolio []))) "portfolio.csv"%string)
    as [_ [_ [Habsent _]]].
  destruct (@compute_exposure_failures Ref.python Ref.shapely Ref.pandas
              (Examples.env_with (Ok Examples.portfolio_no_latitude)) "portfolio.csv"%string)
    as [_ [Hmissing _]].
  split.
  - apply (Habsent (Examples.portfolio [])); reflexivity.
  - apply (Hmissing (Examples.rect_feature 0 0 1 1) Examples.portfolio_no_latitude).
    + reflexivity.
    + vm_compute. discriminate.
Defined.

(** A row at latitude 95 is scored, and counted as exposed by a footprint
    that covers it. *)
Lemma out_of_range_row_is_scored :
  exists out a,
    compute_portfolio_exposure (Examples.env_with (Ok Examples.portfolio_out_of_range))
      "portfolio.csv" (Examples.rect_feature (-1) 94 1 96) = Ok out /\
    In a (scored_assets Examples.portfolio_out_of_range) /\
    asset_lat a = FNum 95 /\
    fle (asset_lat a) (FNum 90) = false /\
    asset_count_exposed (exposure out) = 1%nat.
Proof.
  eexists. eexists. split; [vm_compute; reflexivity|].
  split; [left; reflexivity|]. vm_compute. repeat split.
Qed.

Lemma scored_rows_have_numeric_coordinates_witness :
  (exists out,
     compute_portfolio_exposure (Examples.env_with (Ok Examples.portfolio_bad_latitude))
       "portfolio.csv" (Examples.rect_feature (-1) (-1) 1 1) = Ok out /\
     asset_count_total (exposure out) = 1%nat /\
     asset_count_exposed (exposure out) = 1%nat) /\
  compute_portfolio_exposure (Examples.env_with (Ok Examples.portfolio_no_coordinates))
    "portfolio.csv" (Examples.rect_feature (-1) (-1) 1 1)
  = Raise (Exn KeyError "TotalInsuredValue").
Proof.
  destruct (@scored_rows_have_numeric_coordinates Ref.python Ref.shapely Ref.pandas
              (Examples.env_with (Ok Examples.portfolio_bad_latitude)) "portfolio.csv"
              (Examples.rect_feature (-1) (-1) 1 1) Examples.portfolio_bad_latitude
              [Ref.Box (-1) (-1) 1 1] eq_refl eq_refl eq_refl)
    as [_ [_ [Hsome _]]].
  destruct (@scored_rows_have_numeric_coordinates Ref.python Ref.shapely Ref.pandas
              (Examples.env_with (Ok Examples.portfolio_no_coordinates)) "portfolio.csv"
              (Examples.rect_feature (-1) (-1) 1 1) Examples.portfolio_no_coordinates
              [Ref.Box (-1) (-1) 1 1] eq_refl eq_refl eq_refl)
    as [_ [_ [_ Hnone]]].
  split.
  - destruct Hsome as [out [Hout [Htot Hexp]]]; [vm_compute; discriminate|].
    exists out. split; [exact Hout|]. split; [exact Htot|exact Hexp].
  - apply Hnone. reflexivity.
Defined.

(** ** Sums of insured values *)

Lemma exact_total_filter_le : forall (keep : asset -> bool) (l : list asset),
  Forall nonneg_value l ->
  0 <= exact_total (map asset_tiv (filter keep l)) /\
  exact_total (map asset_tiv (filter keep l)) <= exact_total (map asset_tiv l).
Proof.
  intros keep l H. induction H as [|a l [q [Hq Hq0]] _ [IH0 IH1]].
  - split; apply Qle_refl.
  - cbn [filter]. destruct (keep a); cbn [map exact_total fold_right]; rewrite Hq.
    + fold (exact_total (map asset_tiv (filter keep l))).
      fold (exact_total (map asset_tiv l)). split; lra.
    + fold (exact_total (map asset_tiv l)). split; [exact IH0|lra].
Qed.

Lemma StronglySorted_app_inv : forall (A : Type) (R : A -> A -> Prop) (l1 l2 : list A),
  StronglySorted R (l1 ++ l2) ->
  StronglySorted R l1 /\ StronglySorted R l2 /\
  (forall a b, In a l1 -> In b l2 -> R a b).
Proof.
  intros A R l1 l2. induction l1 as [|x l1 IH]; simpl; intro H.
  - split; [constructor|]. split; [exact H|]. intros a b [].
  - inversion H as [|x' l' Hs Hall]; subst.
    destruct (IH Hs) as [S1 [S2 Hcross]].
    rewrite Forall_forall in Hall.
    split.
    + constructor; [exact S1|]. apply Forall_forall. intros y Hy.
      apply Hall. apply in_or_app. left. exact Hy.
    + split; [exact S2|]. intros a b [<-|Ha] Hb.
      * apply Hall. apply in_or_app. right. exact Hb.
      * apply Hcross; assumption.
Qed.

(** The quotient of two exact sums, one of a part and one of the whole, of
    non-negative amounts: its rounding stays between 0 and 1. *)
Lemma ratio_in_unit_interval : forall (qe qt : Q) (r : pyfloat),
  0 <= qe -> qe <= qt ->
  (if fgt (FNum qt) (FNum 0) then fdiv64 (FNum qe) (FNum qt) else Ok (FNum 0.0)) = Ok r ->
  fle (FNum 0) r = true /\ fle r (FNum 1) = true.
Proof.
  intros qe qt r H0 Hle Hr.
  destruct (fgt (FNum qt) (FNum 0)) eqn:G.
  - unfold fgt, flt in G. apply negb_true_iff in G. apply Qle_bool_false in G.
    unfold fdiv64, fdiv in Hr.
    destruct (Qeq_bool qt 0) eqn:Z.
    { apply Qeq_bool_iff in Z. rewrite Z in G. exfalso. apply (Qlt_irrefl 0). exact G. }
    cbn [bind] in Hr. injection Hr as <-.
    destruct (round64_unit (qe / qt)) as [x [Hx [Hx0 Hx1]]].
    + apply Qle_shift_div_l; [exact G|]. lra.
    + apply Qle_shift_div_r; [exact G|]. lra.
    + rewrite Hx. split; apply Qle_bool_iff; assumption.
  - injection Hr as <-. split; reflexivity.
Qed.

Section ExposureBounds.
Context {PY : Python} {SH : Shapely} {PD : Pandas}.

(** *** C4: bounds of the summary *)

(** C4, as it holds of the code.
    Whenever the exposure computation has a readable portfolio
    with the four columns and a row to score, and a usable footprint, it
    returns a summary whose ratio is exactly 0.0 when the total insured value
    is 0 (and whenever the total is not positive); and if every scored asset
    has a finite, non-negative insured value and the two sums come out
    without rounding error, then exposed value <= total value and
    0 <= ratio <= 1, the quotient being rounded to a float. *)
Theorem exposure_summary_bounds : forall (E : Env) (p : string) (cone : pyval) df poly,
  read_csv E p = Ok df ->
  missing_columns df = [] ->
  cone_geometry cone = Ok poly ->
  scored_assets df <> [] ->
  exists out,
    compute_portfolio_exposure E p cone = Ok out /\
    (feq (total_insured_value_total (exposure out)) (FNum 0) = true ->
       exposure_ratio (exposure out) = FNum 0.0) /\
    (fgt (total_insured_value_total (exposure out)) (FNum 0) = false ->
       exposure_ratio (exposure out) = FNum 0.0) /\
    (Forall nonneg_value (scored_assets df) ->
     summed_exactly (scored_assets df) ->
     summed_exactly (filter (exposed poly) (scored_assets df)) ->
       fle (total_insured_value_exposed (exposure out))
           (total_insured_value_total (exposure out)) = true /\
       fle (FNum 0) (exposure_ratio (exposure out)) = true /\
       fle (exposure_ratio (exposure out)) (FNum 1) = true).
Proof.
  intros E p cone df poly Hread Hcols Hcone Hrows.
  destruct (compute_portfolio_exposure_returns E p cone df poly Hread Hcols Hcone Hrows)
    as [out [Hout [_ [_ [Htot [Hexp [Hratio _]]]]]]].
  exists out. split; [exact Hout|].
  assert (Hpos : fgt (total_insured_value_total (exposure out)) (FNum 0) = false ->
                 exposure_ratio (exposure out) = FNum 0.0).
  { intro G. rewrite G in Hratio. congruence. }
  split; [|split; [exact Hpos|]].
  - intro Hz. apply Hpos.
    destruct (total_insured_value_total (exposure out)) as [q| | |];
      simpl in Hz; try discriminate.
    unfold fgt, flt. apply negb_false_iff. apply Qle_bool_iff.
    apply Qeq_bool_iff in Hz. rewrite Hz. apply Qle_refl.
  - intros Hnn [qt [Ht Hqt]] [qe [He Hqe]].
    destruct (exact_total_filter_le (exposed poly) (scored_assets df) Hnn) as [H0 H1].
    rewrite <- Hqe in H0, H1. rewrite <- Hqt in H1.
    rewrite Htot, Hexp, Ht, He in *. split.
    + simpl. apply Qle_bool_iff. exact H1.
    + exact (ratio_in_unit_interval qe qt _ H0 H1 Hratio).
Qed.

(** *** C5: the top-exposed list *)

(** C5, as it holds of the code.
    If [sort_values] returns its rows in non-increasing key
    order (all that the default sort kind promises), then on a portfolio with
    a row to score the top-exposed list holds min(10, number of exposed
    assets) exposed assets in non-increasing order of insured value, and every
    exposed asset left out has an insured value no larger than any listed
    one.  The relative order of assets with equal insured value is the
    sort's, not necessarily the CSV's. *)
Theorem top_exposed_ranked : forall (E : Env) (p : string) (cone : pyval) df poly,
  sort_contract PD ->
  read_csv E p = Ok df ->
  missing_columns df = [] ->
  cone_geometry cone = Ok poly ->
  scored_assets df <> [] ->
  exists out,
    compute_portfolio_exposure E p cone = Ok out /\
    let top := top_exposed (exposure out) in
    let exposed_df := filter (exposed poly) (scored_assets df) in
    List.length top = Nat.min 10 (List.length exposed_df) /\
    StronglySorted by_value_desc top /\
    exists rest,
      Permutation (top ++ rest) exposed_df /\
      (forall a b, In a top -> In b rest -> by_value_desc a b).
Proof.
  intros E p cone df poly Hsort Hread Hcols Hcone Hrows.
  destruct (compute_portfolio_exposure_returns E p cone df poly Hread Hcols Hcone Hrows)
    as [out [Hout [_ [_ [_ [_ [_ Htop]]]]]]].
  exists out. split; [exact Hout|]. cbv zeta. rewrite Htop.
  set (exposed_df := filter (exposed poly) (scored_assets df)).
  destruct (Hsort asset asset_tiv exposed_df) as [Hperm Hsorted].
  { intros a Ha. apply filter_In in Ha. destruct Ha as [Ha _].
    eapply scored_assets_tiv_not_nan. exact Ha. }
  set (sorted := sort_values_desc asset_tiv exposed_df) in *.
  rewrite <- (firstn_skipn 10 sorted) in Hsorted.
  apply StronglySorted_app_inv in Hsorted. destruct Hsorted as [S1 [_ Hcross]].
  split.
  - rewrite length_firstn. rewrite (Permutation_length Hperm). reflexivity.
  - split; [exact S1|]. exists (skipn 10 sorted). split.
    + rewrite firstn_skipn. exact Hperm.
    + exact Hcross.
Qed.

End ExposureBounds.

(** ** The reference sorts meet the sort contract *)

Lemma insert_desc_perm : forall (A : Type) (key : A -> pyfloat) (a : A) (l : list A),
  Permutation (Ref.insert_desc key a l) (a :: l).
Proof.
  intros A key a l. induction l as [|b l IH]; simpl.
  - apply Permutation_refl.
  - destruct (fle (key b) (key a)).
    + apply Permutation_refl.
    + eapply Permutation_trans; [apply perm_skip; exact IH|apply perm_swap].
Qed.

Lemma stable_sort_desc_perm : forall (A : Type) (key : A -> pyfloat) (l : list A),
  Permutation (Ref.stable_sort_desc key l) l.
Proof.
  intros A key l. induction l as [|a l IH]; simpl.
  - apply Permutation_refl.
  - eapply Permutation_trans; [apply insert_desc_perm|].
    apply perm_skip. exact IH.
Qed.

Lemma insert_desc_sorted : forall (A : Type) (key : A -> pyfloat) (a : A) (l : list A),
  is_nan (key a) = false ->
  (forall b, In b l -> is_nan (key b) = false) ->
  StronglySorted (fun x y => fle (key y) (key x) = true) l ->
  StronglySorted (fun x y => fle (key y) (key x) = true) (Ref.insert_desc key a l).
Proof.
  intros A key a l Ha. induction l as [|b l IH]; intros Hl Hs; simpl.
  - constructor; constructor.
  - inversion Hs as [|b' l' Hs' Hall]; subst.
    destruct (fle (key b) (key a)) eqn:C.
    + constructor; [exact Hs|]. constructor; [exact C|].
      rewrite Forall_forall in *. intros x Hx.
      eapply fle_trans; [apply Hall; exact Hx|exact C].
    + constructor.
      * apply IH; [intros x Hx; apply Hl; right; exact Hx|exact Hs'].
      * apply Forall_forall. intros x Hx.
        apply (Permutation_in _ (insert_desc_perm A key a l)) in Hx.
        destruct Hx as [<-|Hx].
        { apply fle_total; [apply Hl; left; reflexivity|exact Ha|exact C]. }
        { rewrite Forall_forall in Hall. apply Hall. exact Hx. }
Qed.

Lemma stable_sort_desc_sorted : forall (A : Type) (key : A -> pyfloat) (l : list A),
  (forall a, In a l -> is_nan (key a) = false) ->
  StronglySorted (fun x y => fle (key y) (key x) = true) (Ref.stable_sort_desc key l).
Proof.
  intros A key l. induction l as [|a l IH]; intro Hl; simpl.
  - constructor.
  - apply insert_desc_sorted.
    + apply Hl. left. reflexivity.
    + intros b Hb. apply Hl. right.
      apply (Permutation_in _ (stable_sort_desc_perm A key l)). exact Hb.
    + apply IH. intros b Hb. apply Hl. right. exact Hb.
Qed.

Lemma ref_pandas_sort_contract : sort_contract Ref.pandas.
Proof.
  intros A key l Hl. split.
  - apply stable_sort_desc_perm.
  - apply stable_sort_desc_sorted. exact Hl.
Qed.

Lemma ref_pandas_unstable_sort_contract : sort_contract Ref.pandas_unstable.
Proof.
  intros A key l Hl. split.
  - eapply Permutation_trans; [apply stable_sort_desc_perm|].
    apply Permutation_sym. apply Permutation_rev.
  - apply stable_sort_desc_sorted. intros a Ha. apply Hl.
    apply in_rev. exact Ha.
Qed.

(** ** C4 and C5 on concrete portfolios *)

(** The bounds fail in two ways.  With a negative insured value on an asset
    outside the footprint, the exposed value (100) exceeds the total (50) and
    the ratio is 2.  With two exposed assets insured for [2^1023] each, both
    sums overflow to infinity and the ratio, infinity over infinity, is NaN:
    neither [0 <= ratio] nor [ratio <= 1] holds. *)
Lemma exposure_bounds_fail :
  (exists out,
     compute_portfolio_exposure (Examples.env_with (Ok Examples.portfolio_negative))
       "portfolio.csv" (Examples.rect_feature (-1) (-1) 1 1) = Ok out /\
     fle (total_insured_value_exposed (exposure out))
         (total_insured_value_total (exposure out)) = false /\
     fle (exposure_ratio (exposure out)) (FNum 1) = false) /\
  Forall nonneg_value (scored_assets Examples.portfolio_huge) /\
  exists out,
    compute_portfolio_exposure (Examples.env_with (Ok Examples.portfolio_huge))
      "portfolio.csv" (Examples.rect_feature (-1) (-1) 1 1) = Ok out /\
    total_insured_value_total (exposure out) = FInf /\
    total_insured_value_exposed (exposure out) = FInf /\
    exposure_ratio (exposure out) = FNaN /\
    fle (FNum 0) (exposure_ratio (exposure out)) = false /\
    fle (exposure_ratio (exposure out)) (FNum 1) = false.
Proof.
  split.
  { eexists. split; [vm_compute; reflexivity|]. vm_compute. split; reflexivity. }
  split.
  { repeat constructor; eexists; (split; [reflexivity|]); discriminate. }
  eexists. split; [vm_compute; reflexivity|]. vm_compute. repeat split.
Qed.

Lemma exposure_summary_bounds_witness :
  exists out,
    compute_portfolio_exposure (Examples.env_with (Ok Examples.portfolio_scenario))
      "portfolio.csv" (Examples.rect_feature (-81) 25 (-80) 26) = Ok out /\
    fle (total_insured_value_exposed (exposure out))
        (total_insured_value_total (exposure out)) = true /\
    fle (FNum 0) (exposure_ratio (exposure out)) = true /\
    fle (exposure_ratio (exposure out)) (FNum 1) = true.
Proof.
  destruct (@exposure_summary_bounds Ref.python Ref.shapely Ref.pandas
              (Examples.env_with (Ok Examples.portfolio_scenario)) "portfolio.csv"
              (Examples.rect_feature (-81) 25 (-80) 26) Examples.portfolio_scenario
              [Ref.Box (-81) 25 (-80) 26] eq_refl eq_refl eq_refl)
    as [out [Hout [_ [_ Hb]]]].
  - vm_compute. discriminate.
  - exists out. split; [exact Hout|]. apply Hb.
    + repeat constructor; eexists; (split; [reflexivity|]); discriminate.
    + eexists. split; vm_compute; reflexivity.
    + eexists. split; vm_compute; reflexivity.
Defined.

(** Ties are not ranked in file order.  On numpy's generic quicksort, which
    the call selects by leaving [kind] at its default, eighteen exposed assets
    of equal insured value [P00 .. P17] get the top ten [P00, P01, P16, P15,
    ..., P09].  More generally a sort may meet the contract of the default
    kind and rank two equal-valued assets, [A] before [B] in the file, as
    [B], [A]. *)
Lemma top_exposed_ties_not_in_file_order :
  (exists out,
     @compute_portfolio_exposure Ref.python Ref.shapely Ref.pandas_quicksort
       (Examples.env_with (Ok Examples.portfolio_18_equal))
       "portfolio.csv" (Examples.rect_feature (-1) (-1) 1 1) = Ok out /\
     asset_count_exposed (exposure out) = 18%nat /\
     map asset_id (top_exposed (exposure out)) =
       map CellText ["P00"; "P01"; "P16"; "P15"; "P14"; "P13"; "P12"; "P11"; "P10"; "P09"]%string /\
     map asset_id (top_exposed (exposure out)) <>
       map CellText (firstn 10 Examples.ids18)) /\
  sort_contract Ref.pandas_unstable /\
  map PropertyID (rows Examples.portfolio_ties) = [CellText "A"; CellText "B"] /\
  exists out,
    @compute_portfolio_exposure Ref.python Ref.shapely Ref.pandas_unstable
      (Examples.env_with (Ok Examples.portfolio_ties))
      "portfolio.csv" (Examples.rect_feature (-1) (-1) 1 1) = Ok out /\
    map asset_tiv (top_exposed (exposure out)) = [FNum 100; FNum 100] /\
    map asset_id (top_exposed (exposure out)) = [CellText "B"; CellText "A"].
Proof.
  split.
  { eexists. split; [vm_compute; reflexivity|]. vm_compute.
    split; [reflexivity|]. split; [reflexivity|discriminate]. }
  split; [exact ref_pandas_unstable_sort_contract|].
  split; [reflexivity|].
  eexists. split; [vm_compute; reflexivity|]. vm_compute. split; reflexivity.
Qed.

Lemma top_exposed_ranked_witness :
  exists out,
    compute_portfolio_exposure (Examples.env_with (Ok Examples.portfolio_ties))
      "portfolio.csv" (Examples.rect_feature (-1) (-1) 1 1) = Ok out /\
    List.length (top_exposed (exposure out)) = 2%nat /\
    StronglySorted by_value_desc (top_exposed (exposure out)).
Proof.
  destruct (@top_exposed_ranked Ref.python Ref.shapely Ref.pandas
              (Examples.env_with (Ok Examples.portfolio_ties)) "portfolio.csv"
              (Examples.rect_feature (-1) (-1) 1 1) Examples.portfolio_ties
              [Ref.Box (-1) (-1) 1 1] ref_pandas_sort_contract eq_refl eq_refl eq_refl)
    as [out [Hout [Hlen [Hsorted _]]]].
  - vm_compute. discriminate.
  - exists out. split; [exact Hout|]. split; [exact Hlen|exact Hsorted].
Defined.

(** ** Hazard aggregation *)

Lemma mapM_ok_In : forall (A B : Type) (f : A -> result B) (l : list A) (bs : list B) (a : A),
  mapM f l = Ok bs -> In a l -> exists b, f a = Ok b /\ In b bs.
Proof.
  intros A B f l. induction l as [|x l IH]; intros bs a H Hin; [destruct Hin|].
  simpl in H. destruct (f x) as [b|e] eqn:Fx; [|discriminate]. cbn [bind] in H.
  destruct (mapM f l) as [bs'|e] eqn:M; [|discriminate]. cbn [bind] in H.
  injection H as <-. destruct Hin as [<-|Hin].
  - exists b. split; [exact Fx|left; reflexivity].
  - destruct (IH bs' a eq_refl Hin) as [b' [Hb' Hin']].
    exists b'. split; [exact Hb'|right; exact Hin'].
Qed.

Lemma mapM_all_none : forall (A B : Type) (f : A -> result (option B)) (l : list A),
  (forall a, In a l -> f a = Ok None) ->
  exists bs, mapM f l = Ok bs /\ somes bs = [].
Proof.
  intros A B f l. induction l as [|x l IH]; intro H.
  - exists []. split; reflexivity.
  - destruct IH as [bs [Hbs Hs]]; [intros a Ha; apply H; right; exact Ha|].
    exists (None :: bs). simpl. rewrite (H x (or_introl eq_refl)). cbn [bind].
    rewrite Hbs. cbn [bind]. split; [reflexivity|exact Hs].
Qed.

Lemma in_somes : forall (A : Type) (l : list (option A)) (a : A),
  In (Some a) l -> In a (somes l).
Proof.
  intros A l a. induction l as [|[x|] l IH]; simpl; intro H.
  - exact H.
  - destruct H as [H|H]; [injection H as ->; left; reflexivity|right; apply IH; exact H].
  - destruct H as [H|H]; [discriminate|apply IH; exact H].
Qed.

Section Aggregation.
Context {PY : Python} {SH : Shapely}.

Lemma py_get_dict : forall d k, py_get (PDict d) k = Ok (field k d).
Proof. reflexivity. Qed.

Lemma parse_feature_skips : forall f,
  geometry_missing_or_unparseable f -> parse_feature f = Ok None.
Proof.
  intros f [d [-> H]]. unfold parse_feature. rewrite py_get_dict. cbn [bind].
  destruct (truthy (field "geometry" d)) eqn:T; [|reflexivity].
  destruct H as [H|[e He]]; [discriminate|].
  cbn [negb]. rewrite He. reflexivity.
Qed.

Lemma parse_feature_well_formed : forall f,
  well_formed_alert f ->
  exists r, parse_feature f = Ok r /\
    forall g p, r = Some (g, p) ->
      exists pd, p = PDict pd /\
        hashable (field "event" pd) = true /\ hashable (field "severity" pd) = true.
Proof.
  intros f [d [-> H]]. unfold parse_feature. rewrite py_get_dict. cbn [bind].
  destruct (truthy (field "geometry" d)); cbn [negb].
  - destruct (shape (field "geometry" d)) as [sh|e]; cbn [bind try_except].
    + eexists. split; [reflexivity|]. intros g p Hr. injection Hr as <- <-.
      destruct H as [H|[pd [H [He Hs]]]]; rewrite H.
      * exists []. repeat split.
      * exists pd. repeat split; assumption.
    + eexists. split; [reflexivity|]. discriminate.
  - eexists. split; [reflexivity|]. discriminate.
Qed.

Lemma collect_field_hashable : forall k (props : list pyval),
  (forall p, In p props -> exists pd, p = PDict pd /\ hashable (field k pd) = true) ->
  exists vs, collect_field k props = Ok vs.
Proof.
  intros k props. induction props as [|p ps IH]; intro H.
  - eexists. reflexivity.
  - destruct (H p (or_introl eq_refl)) as [pd [-> Hh]].
    destruct IH as [vs Hvs]; [intros q Hq; apply H; right; exact Hq|].
    cbn [collect_field]. rewrite py_get_dict. cbn [bind]. rewrite Hh, Hvs. cbn [bind].
    destruct (truthy (field k pd)); eexists; reflexivity.
Qed.

Lemma mapM_parse_well_formed : forall fs,
  Forall well_formed_alert fs ->
  exists parsed, mapM parse_feature fs = Ok parsed /\
    forall p, In p (map snd (somes parsed)) ->
      exists pd, p = PDict pd /\
        hashable (field "event" pd) = true /\ hashable (field "severity" pd) = true.
Proof.
  intros fs H. induction H as [|f fs Hf _ IH].
  - exists []. split; [reflexivity|]. intros p [].
  - destruct IH as [parsed [Hp Hall]].
    destruct (parse_feature_well_formed f Hf) as [r [Hr Hwf]].
    exists (r :: parsed). simpl. rewrite Hr. cbn [bind]. rewrite Hp. cbn [bind].
    split; [reflexivity|].
    destruct r as [[g p0]|]; simpl; [|exact Hall].
    intros p [<-|Hin]; [apply (Hwf g p0 eq_refl)|apply Hall; exact Hin].
Qed.

(** What [_union_features] returns, when it returns. *)
Lemma union_features_result : forall fs u,
  _union_features (PList fs) = Ok u ->
  u = PNone \/ built_footprint "merged_count" u.
Proof.
  intros fs u H. unfold _union_features in H. cbn [py_iter bind] in H.
  destruct (mapM parse_feature fs) as [parsed|e]; [|discriminate]. cbn [bind] in H.
  destruct (map fst (somes parsed)) as [|g gs] eqn:G.
  - left. congruence.
  - destruct (collect_field "event" (map snd (somes parsed))) as [ev|e]; [|discriminate].
    cbn [bind] in H.
    destruct (collect_field "severity" (map snd (somes parsed))) as [sv|e]; [|discriminate].
    cbn [bind] in H. injection H as <-. right.
    exists g, gs. eexists. split; reflexivity.
Qed.

Lemma eq_union_feature_result : forall mm w bbox buffers,
  eq_union_feature mm w bbox buffers = PNone \/
  built_footprint "count" (eq_union_feature mm w bbox buffers).
Proof.
  intros mm w bbox [|b bs]; [left; reflexivity|right].
  exists b, bs. eexists. split; reflexivity.
Qed.

(** The fields of the dict [fetch_recent_earthquakes] returns, without a
    bounding box. *)
Lemma fetch_recent_earthquakes_result : forall E mm w r,
  fetch_recent_earthquakes E mm w None = Ok r ->
  exists data feats fs bs,
    http_get_json E (fst (_feed_for mm w)) [] = Ok data /\
    py_get_default data "features" (PList []) = Ok feats /\
    py_iter feats = Ok fs /\
    mapM buffer_of_feature fs = Ok bs /\
    eq_feature_union r = eq_union_feature mm w None (somes bs).
Proof.
  intros E mm w r H. unfold fetch_recent_earthquakes in H.
  destruct (_feed_for mm w) as [url label]. cbn [fst].
  destruct (http_get_json E url []) as [data|e] eqn:Hd; [|discriminate]. cbn [bind] in H.
  destruct (py_get_default data "features" (PList [])) as [feats|e] eqn:Hf; [|discriminate].
  cbn [bind] in H.
  destruct (py_iter feats) as [fs|e] eqn:Hi; [|discriminate]. cbn [bind] in H.
  destruct (mapM buffer_of_feature fs) as [bs|e] eqn:Hm; [|discriminate]. cbn [bind] in H.
  destruct (py_len feats) as [n|e]; [|discriminate]. cbn [bind] in H.
  destruct (py_take 200 feats) as [capped|e]; [|discriminate]. cbn [bind] in H.
  injection H as <-. exists data, feats, fs, bs.
  repeat split; try assumption; reflexivity.
Qed.

Lemma buffer_of_feature_skips : forall f, no_epicentre f -> buffer_of_feature f = Ok None.
Proof.
  intros f [d [-> H]]. unfold buffer_of_feature, epicentre_of_feature.
  rewrite py_get_dict. cbn [bind].
  destruct H as [H|[gd [Hg H]]].
  - unfold py_or. rewrite H. reflexivity.
  - rewrite Hg.
    assert (G : py_get (py_or (PDict gd) (PDict [])) "type" = Ok (field "type" gd)).
    { unfold py_or. destruct gd; reflexivity. }
    rewrite G. cbn [bind].
    destruct (py_eq_str (field "type" gd) "Point") eqn:Ty; [|reflexivity].
    destruct H as [H|H]; [discriminate H|]. cbn [negb].
    assert (C : py_get (py_or (PDict gd) (PDict [])) "coordinates"
                = Ok (field "coordinates" gd)).
    { unfold py_or. destruct gd; reflexivity. }
    rewrite C. cbn [bind].
    destruct H as [H|[l [Hl Hn]]].
    + unfold py_or. rewrite H. reflexivity.
    + rewrite Hl. unfold py_or. destruct l as [|c0 [|c1 l]]; try reflexivity.
      simpl in Hn. lia.
Qed.

Lemma geometry_missing_no_epicentre : forall f, geometry_missing f -> no_epicentre f.
Proof. intros f [d [-> H]]. exists d. split; [reflexivity|]. left. exact H. Qed.

(** Every radius of the step function, divided by 111, is a positive number
    of degrees. *)
Lemma buffer_degrees_positive : forall m,
  exists q : Q, fdiv (_buffer_km_for_mag m) (FNum 111.0) = Ok (FNum q) /\ 0 < q.
Proof.
  intro m. unfold _buffer_km_for_mag.
  destruct (fge m (FNum 7.0)); [|destruct (fge m (FNum 6.0));
    [|destruct (fge m (FNum 5.0)); [|destruct (fge m (FNum 4.0))]]];
    (eexists; split; [reflexivity|reflexivity]).
Qed.

Lemma somes_In_mapM : forall (A B : Type) (f : A -> result (option B)) (l : list A)
    (bs : list (option B)) (b : B),
  mapM f l = Ok bs -> In b (somes bs) -> exists a, In a l /\ f a = Ok (Some b).
Proof.
  intros A B f l. induction l as [|x l IH]; intros bs b H Hin.
  - simpl in H. injection H as <-. destruct Hin.
  - simpl in H. destruct (f x) as [o|e] eqn:Fx; [|discriminate]. cbn [bind] in H.
    destruct (mapM f l) as [bs'|e] eqn:M; [|discriminate]. cbn [bind] in H.
    injection H as <-. destruct o as [b0|]; simpl in Hin.
    + destruct Hin as [<-|Hin].
      * exists x. split; [left; reflexivity|exact Fx].
      * destruct (IH bs' b eq_refl Hin) as [a [Ha Hf]].
        exists a. split; [right; exact Ha|exact Hf].
    + destruct (IH bs' b eq_refl Hin) as [a [Ha Hf]].
      exists a. split; [right; exact Ha|exact Hf].
Qed.

(** A disc the loop appends contains its epicentre, when that is finite. *)
Lemma buffer_of_feature_covers_epicentre : forall f b,
  buffer_contains_centre SH ->
  finite_epicentre f ->
  buffer_of_feature f = Ok (Some b) ->
  exists x y : Q, intersects_point b (FNum x) (FNum y) = true.
Proof.
  intros f b Hcentre Hfin H. unfold buffer_of_feature in H.
  destruct (epicentre_of_feature f) as [[[lon lat]|]|e] eqn:Ep; try discriminate.
  cbn [bind] in H.
  destruct (Hfin lon lat Ep) as [x [y [-> ->]]].
  destruct (buffer_degrees_positive (feature_mag f)) as [q [Hq Hpos]].
  rewrite Hq in H. cbn [bind] in H. injection H as <-.
  exists x, y. apply Hcentre. exact Hpos.
Qed.

(** *** C9: a footprint is absent or completely built *)

(** C9, as it holds of the code.
    Hazard aggregation never yields a partially built footprint.  For
    the alerts aggregator [_union_features]: whatever it returns is either
    absent ([None]) or a complete feature whose geometry is the union of a
    non-empty list of parsed geometries, with their number recorded; on
    well-formed alerts it does return; on the empty list, or on a list where
    every geometry is missing or rejected by [shape], it returns the absent
    footprint without raising; and (the union covering its inputs) a
    footprint built from a geometry that covers a point covers a point.  For
    the seismic aggregation in [fetch_recent_earthquakes]: whatever it returns
    carries a footprint that is absent or the union of a non-empty list of
    discs; when every feature is passed over (no geometry, not a Point, fewer
    than two coordinates; the empty list included) it returns with the
    footprint absent; and (discs containing their centre, epicentres finite)
    a footprint that is present covers a point.  Neither aggregation tests
    a geometry for emptiness: a footprint built from geometries that cover
    nothing is present all the same.  Nothing is said of a seismic Point
    whose coordinates do not convert to numbers. *)
Theorem hazard_footprint_absent_or_built :
  (forall fs u, _union_features (PList fs) = Ok u ->
     u = PNone \/ built_footprint "merged_count" u) /\
  (forall fs, Forall well_formed_alert fs ->
     exists u, _union_features (PList fs) = Ok u /\
       (u = PNone \/ built_footprint "merged_count" u)) /\
  (forall fs, Forall geometry_missing_or_unparseable fs ->
     _union_features (PList fs) = Ok PNone) /\
  _union_features (PList []) = Ok PNone /\
  (forall fs u f g p x y,
     union_covers SH ->
     _union_features (PList fs) = Ok u ->
     In f fs -> parse_feature f = Ok (Some (g, p)) -> intersects_point g x y = true ->
     covers_a_point u) /\
  (forall E mm w bbox r, fetch_recent_earthquakes E mm w bbox = Ok r ->
     eq_feature_union r = PNone \/ built_footprint "count" (eq_feature_union r)) /\
  (forall E mm w dd fs,
     http_get_json E (fst (_feed_for mm w)) [] = Ok (PDict dd) ->
     lookup "features" dd = Some (PList fs) ->
     Forall no_epicentre fs ->
     exists r, fetch_recent_earthquakes E mm w None = Ok r /\ eq_feature_union r = PNone) /\
  (forall E mm w dd fs r,
     union_covers SH -> buffer_contains_centre SH ->
     http_get_json E (fst (_feed_for mm w)) [] = Ok (PDict dd) ->
     lookup "features" dd = Some (PList fs) ->
     Forall finite_epicentre fs ->
     fetch_recent_earthquakes E mm w None = Ok r ->
     eq_feature_union r = PNone \/ covers_a_point (eq_feature_union r)).
Proof.
  split; [exact union_features_result|].
  split.
  { intros fs Hwf.
    destruct (mapM_parse_well_formed fs Hwf) as [parsed [Hp Hprops]].
    assert (R : exists u, _union_features (PList fs) = Ok u).
    { unfold _union_features. cbn [py_iter bind]. rewrite Hp. cbn [bind].
      destruct (map fst (somes parsed)) as [|g gs]; [eexists; reflexivity|].
      destruct (collect_field_hashable "event" (map snd (somes parsed))) as [ev Hev].
      { intros p Hin. destruct (Hprops p Hin) as [pd [-> [He _]]].
        exists pd. split; [reflexivity|exact He]. }
      destruct (collect_field_hashable "severity" (map snd (somes parsed))) as [sv Hsv].
      { intros p Hin. destruct (Hprops p Hin) as [pd [-> [_ Hs]]].
        exists pd. split; [reflexivity|exact Hs]. }
      rewrite Hev. cbn [bind]. rewrite Hsv. cbn [bind]. eexists. reflexivity. }
    destruct R as [u Hu]. exists u. split; [exact Hu|].
    apply (union_features_result fs u Hu). }
  assert (M : forall fs, Forall geometry_missing_or_unparseable fs ->
                _union_features (PList fs) = Ok PNone).
  { intros fs Hall. rewrite Forall_forall in Hall.
    destruct (mapM_all_none _ _ parse_feature fs) as [bs [Hbs Hs]].
    { intros f Hf. apply parse_feature_skips. apply Hall. exact Hf. }
    unfold _union_features. cbn [py_iter bind]. rewrite Hbs. cbn [bind].
    rewrite Hs. reflexivity. }
  split; [exact M|].
  split; [apply M; constructor|].
  split.
  { intros fs u f g p x y Hcov H Hin Hparse Hxy.
    unfold _union_features in H. cbn [py_iter bind] in H.
    destruct (mapM parse_feature fs) as [parsed|e] eqn:Hm; [|discriminate].
    cbn [bind] in H.
    destruct (mapM_ok_In _ _ parse_feature fs parsed f Hm Hin) as [o [Ho Hino]].
    rewrite Hparse in Ho. injection Ho as <-.
    apply in_somes in Hino.
    apply (in_map fst) in Hino. cbn [fst] in Hino.
    destruct (map fst (somes parsed)) as [|g0 gs] eqn:G; [destruct Hino|].
    destruct (collect_field "event" (map snd (somes parsed))) as [ev|e]; [|discriminate].
    cbn [bind] in H.
    destruct (collect_field "severity" (map snd (somes parsed))) as [sv|e]; [|discriminate].
    cbn [bind] in H. injection H as <-.
    exists (unary_union (g0 :: gs)), x, y. split; [reflexivity|].
    rewrite Hcov. apply existsb_exists. exists g. split; [exact Hino|exact Hxy]. }
  split.
  { intros E mm w bbox r H. unfold fetch_recent_earthquakes in H.
    destruct (_feed_for mm w) as [url label].
    destruct (http_get_json E url []) as [data|e]; [|discriminate]. cbn [bind] in H.
    destruct (py_get_default data "features" (PList [])) as [feats0|e]; [|discriminate].
    cbn [bind] in H.
    destruct (match bbox with
              | Some b =>
                  if (negb (Nat.eqb (List.length b) 0) && Nat.eqb (List.length b) 4)%bool
                  then _filter_bbox feats0 b else Ok feats0
              | None => Ok feats0
              end) as [feats|e]; [|discriminate]. cbn [bind] in H.
    destruct (py_iter feats) as [fs|e]; [|discriminate]. cbn [bind] in H.
    destruct (mapM buffer_of_feature fs) as [bs|e]; [|discriminate]. cbn [bind] in H.
    destruct (py_len feats) as [n|e]; [|discriminate]. cbn [bind] in H.
    destruct (py_take 200 feats) as [capped|e]; [|discriminate]. cbn [bind] in H.
    injection H as <-. apply eq_union_feature_result. }
  split.
  { intros E mm w dd fs Hhttp Hfeats Hall. rewrite Forall_forall in Hall.
    destruct (mapM_all_none _ _ buffer_of_feature fs) as [bs [Hbs Hs]].
    { intros f Hf. apply buffer_of_feature_skips. apply Hall. exact Hf. }
    unfold fetch_recent_earthquakes.
    destruct (_feed_for mm w) as [url label]. cbn [fst] in Hhttp.
    rewrite Hhttp. cbn [bind]. unfold py_get_default. rewrite Hfeats.
    cbn [bind py_iter]. rewrite Hbs. cbn [bind py_len py_take].
    eexists. split; [reflexivity|]. cbn [eq_feature_union]. rewrite Hs. reflexivity. }
  intros E mm w dd fs r Hcov Hcentre Hhttp Hfeats Hfin Hfetch.
  destruct (fetch_recent_earthquakes_result E mm w r Hfetch)
    as [data [feats [fs' [bs [Hd [Hf [Hi [Hmap Hu]]]]]]]].
  rewrite Hhttp in Hd. injection Hd as <-.
  unfold py_get_default in Hf. rewrite Hfeats in Hf. injection Hf as <-.
  cbn [py_iter] in Hi. injection Hi as <-.
  rewrite Hu. destruct (somes bs) as [|b bs'] eqn:S; [left; reflexivity|right].
  destruct (somes_In_mapM _ _ buffer_of_feature fs bs b Hmap) as [f [Hin Hb]].
  { rewrite S. left. reflexivity. }
  rewrite Forall_forall in Hfin.
  destruct (buffer_of_feature_covers_epicentre f b Hcentre (Hfin f Hin) Hb) as [x [y Hxy]].
  exists (unary_union (b :: bs')), (FNum x), (FNum y). split; [reflexivity|].
  rewrite Hcov. apply existsb_exists. exists b. split; [left; reflexivity|exact Hxy].
Qed.

End Aggregation.

(** ** The reference geometry meets the assumptions on shapely *)

Lemma existsb_concat : forall (A : Type) (p : A -> bool) (ls : list (list A)),
  existsb p (List.concat ls) = existsb (existsb p) ls.
Proof.
  intros A p ls. induction ls as [|l ls IH]; [reflexivity|].
  simpl. rewrite existsb_app, IH. reflexivity.
Qed.

Lemma ref_shapely_union_covers : union_covers Ref.shapely.
Proof.
  intros gs x y. cbn [unary_union intersects_point Ref.shapely]. unfold Ref.ref_intersects.
  destruct x as [qx| | |], y as [qy| | |];
    try (induction gs as [|g gs IH]; [reflexivity|simpl; exact IH]).
  apply existsb_concat.
Qed.

Lemma ref_shapely_buffer_contains_centre : buffer_contains_centre Ref.shapely.
Proof.
  intros x y d Hd. cbn [point_buffer intersects_point Ref.shapely].
  destruct (Qle_bool d 0) eqn:T.
  - apply Qle_bool_iff in T. exfalso. apply (Qlt_irrefl 0).
    eapply Qlt_le_trans; eassumption.
  - unfold Ref.ref_intersects. cbn [existsb Ref.atom_contains]. rewrite orb_false_r.
    apply Qle_bool_iff. nra.
Qed.

(** The scenario of the specification: a magnitude 4.5 event is buffered by
    50 km and the footprint contains the epicentre. *)
Example seismic_scenario :
  exists r,
    fetch_recent_earthquakes Examples.env_one_quake (FNum 4.5) "day" None = Ok r /\
    _buffer_km_for_mag (feature_mag Examples.quake) = FNum 50.0 /\
    exists merged,
      py_get (eq_feature_union r) "geometry" = Ok (mapping merged) /\
      intersects_point merged (FNum (-122)) (FNum 38) = true /\
      intersects_point merged (FNum (-122)) (FNum 39) = false.
Proof.
  eexists. split; [vm_compute; reflexivity|]. split; [vm_compute; reflexivity|].
  exists [Ref.Disc (-122) 38 (50.0 / 111.0)].
  split; [vm_compute; reflexivity|]. split; vm_compute; reflexivity.
Qed.

Lemma hazard_footprint_absent_or_built_witness :
  _union_features
    (PList [PDict [("geometry", PNone); ("properties", PDict [("event", PStr "Flood Warning")])];
            PDict [("geometry", PDict [("type", PStr "Blob")])]])
  = Ok PNone /\
  exists r,
    fetch_recent_earthquakes Examples.env_one_quake (FNum 4.5) "day" None = Ok r /\
    covers_a_point (eq_feature_union r).
Proof.
  destruct (@hazard_footprint_absent_or_built Ref.python Ref.shapely)
    as [_ [_ [Hskip [_ [_ [_ [_ Hcovers]]]]]]].
  split.
  - apply Hskip. constructor; [|constructor; [|constructor]].
    + eexists. split; [reflexivity|]. left. reflexivity.
    + eexists. split; [reflexivity|]. right. eexists. reflexivity.
  - eexists. split; [vm_compute; reflexivity|].
    edestruct (Hcovers Examples.env_one_quake (FNum 4.5) "day"%string
                 [("features"%string, PList [Examples.quake])] [Examples.quake])
      as [Hnone|Hc].
    + exact ref_shapely_union_covers.
    + exact ref_shapely_buffer_contains_centre.
    + vm_compute. reflexivity.
    + reflexivity.
    + constructor; [|constructor]. intros lon lat H. vm_compute in H.
      injection H as <- <-. do 2 eexists. split; reflexivity.
    + vm_compute. reflexivity.
    + discriminate Hnone.
    + exact Hc.
Defined.

(** The claim as stated fails on both aggregators.  A seismic feed whose only
    feature is a Point with a longitude that is no number makes the fetch
    raise, where an absent footprint was promised.  An alert whose geometry is
    a polygon without coordinates is parsed (to the empty geometry) and
    merged: the footprint is present, records one merged geometry, and covers
    no point. *)
Lemma hazard_footprint_present_but_empty :
  fetch_recent_earthquakes (Scenarios.env_feed (PList [Scenarios.garbled])) (FNum 4.5) "day" None
  = Raise (Exn ValueError "could not convert string to float") /\
  (exists p, parse_feature Scenarios.hollow_alert = Ok (Some (@nil Ref.atom, p))) /\
  exists u,
    _union_features (PList [Scenarios.hollow_alert]) = Ok u /\
    truthy u = true /\
    built_footprint "merged_count" u /\
    py_get u "geometry" = Ok (@mapping Ref.shapely []) /\
    forall x y, @intersects_point Ref.shapely [] x y = false.
Proof.
  split; [vm_compute; reflexivity|].
  split; [eexists; vm_compute; reflexivity|].
  eexists. split; [vm_compute; reflexivity|].
  split; [reflexivity|].
  split.
  - exists (@nil Ref.atom), (@nil (list Ref.atom)). eexists. split; reflexivity.
  - split; [reflexivity|]. intros x y. destruct x, y; reflexivity.
Qed.

Section Magnitude.
Context {PY : Python} {SH : Shapely}.

(** The magnitude expression on properties that are not an object. *)
Lemma mag_of_non_object : forall v,
  (forall pd, v <> PDict pd) ->
  try_except
    (m <- py_get (py_or v (PDict [])) "mag" ;; py_float (py_or m (PFloat (FNum 0.0))))
    (fun _ => Ok (FNum 0.0)) = Ok (FNum 0.0).
Proof.
  intros v Hv. unfold py_or at 1.
  destruct (truthy v) eqn:T; [|reflexivity].
  destruct v; try reflexivity. exfalso. eapply Hv. reflexivity.
Qed.

Lemma feature_mag_default : forall d,
  magnitude_missing_or_uncoercible d -> feature_mag (PDict d) = FNum 0.0.
Proof.
  intros d H. unfold feature_mag. rewrite py_get_dict. cbn [bind].
  unfold magnitude_missing_or_uncoercible, magnitude_entry in H. unfold field.
  destruct (lookup "properties" d) as [props|] eqn:P; [|reflexivity].
  destruct props as [ |b|z|x|s|l|pd];
    try (rewrite mag_of_non_object; [reflexivity|intros pd0; discriminate]).
  assert (G : py_get (py_or (PDict pd) (PDict [])) "mag" = Ok (field "mag" pd)).
  { unfold py_or. destruct pd; reflexivity. }
  rewrite G. cbn [bind]. unfold field.
  destruct H as [H|[v [e [H He]]]]; rewrite H; [reflexivity|].
  unfold py_or. destruct (truthy v); [rewrite He|]; reflexivity.
Qed.

Lemma buffer_of_point_feature : forall d lon lat,
  point_feature d lon lat ->
  magnitude_missing_or_uncoercible d ->
  buffer_of_feature (PDict d) = Ok (Some (point_buffer lon lat (FNum (25.0 / 111.0)))).
Proof.
  intros d lon lat [gd [c0 [c1 [rest [Hg [Hty [Hc [H0 H1]]]]]]]] Hm.
  assert (G : field "geometry" d = PDict gd) by (unfold field; rewrite Hg; reflexivity).
  assert (Gty : field "type" gd = PStr "Point") by (unfold field; rewrite Hty; reflexivity).
  assert (Gc : field "coordinates" gd = PList (c0 :: c1 :: rest))
    by (unfold field; rewrite Hc; reflexivity).
  assert (T : py_or (PDict gd) (PDict []) = PDict gd).
  { unfold py_or. destruct gd; [discriminate|reflexivity]. }
  unfold buffer_of_feature, epicentre_of_feature.
  rewrite py_get_dict. cbn [bind]. rewrite G, T.
  rewrite py_get_dict. cbn [bind]. rewrite Gty.
  cbn [py_eq_str]. rewrite String.eqb_refl. cbn [negb].
  rewrite py_get_dict. cbn [bind]. rewrite Gc.
  unfold py_or. cbn [truthy py_len bind List.length Nat.ltb Nat.leb py_index nth_error].
  rewrite H0. cbn [bind]. rewrite H1. cbn [bind].
  rewrite (feature_mag_default d Hm). reflexivity.
Qed.

(** *** C10: a feature without usable magnitude *)

(** C10.  A seismic Point feature whose properties carry no magnitude, or a
    magnitude that [float] rejects, is not skipped: its magnitude counts as
    0.0, the loop appends the disc of radius 25/111 degrees (25 km) around its
    epicentre, and whenever [fetch_recent_earthquakes] returns on a feed that
    contains the feature, the footprint is present, is the union of a list of
    discs containing that disc, and (the union covering its inputs) covers
    every point of the disc. *)
Theorem missing_magnitude_gets_25km_disc : forall d lon lat,
  point_feature d lon lat ->
  magnitude_missing_or_uncoercible d ->
  feature_mag (PDict d) = FNum 0.0 /\
  _buffer_km_for_mag (feature_mag (PDict d)) = FNum 25.0 /\
  buffer_of_feature (PDict d) = Ok (Some (point_buffer lon lat (FNum (25.0 / 111.0)))) /\
  forall E mm w dd fs r,
    http_get_json E (fst (_feed_for mm w)) [] = Ok (PDict dd) ->
    lookup "features" dd = Some (PList fs) ->
    In (PDict d) fs ->
    fetch_recent_earthquakes E mm w None = Ok r ->
    exists buffers,
      In (point_buffer lon lat (FNum (25.0 / 111.0))) buffers /\
      eq_feature_union r =
        PDict [("type", PStr "Feature");
               ("geometry", mapping (unary_union buffers));
               ("properties",
                 PDict [("source", PStr "USGS");
                        ("min_magnitude", PFloat mm);
                        ("window", PStr w);
                        ("region_bbox", PNone);
                        ("count", PInt (Z.of_nat (List.length buffers)))])] /\
      (union_covers SH ->
       forall x y,
         intersects_point (point_buffer lon lat (FNum (25.0 / 111.0))) x y = true ->
         intersects_point (unary_union buffers) x y = true).
Proof.
  intros d lon lat Hpt Hm.
  pose proof (feature_mag_default d Hm) as Hmag.
  pose proof (buffer_of_point_feature d lon lat Hpt Hm) as Hbuf.
  split; [exact Hmag|]. split; [rewrite Hmag; reflexivity|]. split; [exact Hbuf|].
  intros E mm w dd fs r Hhttp Hfeats Hin Hfetch.
  destruct (fetch_recent_earthquakes_result E mm w r Hfetch)
    as [data [feats [fs' [bs [Hd [Hf [Hi [Hmap Hu]]]]]]]].
  rewrite Hhttp in Hd. injection Hd as <-.
  unfold py_get_default in Hf. rewrite Hfeats in Hf. injection Hf as <-.
  cbn [py_iter] in Hi. injection Hi as <-.
  destruct (mapM_ok_In _ _ buffer_of_feature fs bs (PDict d) Hmap Hin) as [b [Hb Hbin]].
  rewrite Hbuf in Hb. injection Hb as <-.
  apply in_somes in Hbin.
  exists (somes bs). split; [exact Hbin|]. split.
  - rewrite Hu. destruct (somes bs) as [|b0 bs0]; [destruct Hbin|reflexivity].
  - intros Hcov x y Hxy. rewrite Hcov. apply existsb_exists.
    eexists. split; [exact Hbin|exact Hxy].
Qed.

End Magnitude.

Lemma missing_magnitude_gets_25km_disc_witness :
  feature_mag
    (PDict [("geometry", PDict [("type", PStr "Point");
                                ("coordinates", PList [PFloat (FNum (-122)); PFloat (FNum 38)])]);
            ("properties", PDict [("place", PStr "offshore"); ("mag", PStr "unknown")])])
  = FNum 0.0 /\
  buffer_of_feature
    (PDict [("geometry", PDict [("type", PStr "Point");
                                ("coordinates", PList [PFloat (FNum (-122)); PFloat (FNum 38)])]);
            ("properties", PDict [("place", PStr "offshore"); ("mag", PStr "unknown")])])
  = Ok (Some (point_buffer (FNum (-122)) (FNum 38) (FNum (25.0 / 111.0)))).
Proof.
  destruct (@missing_magnitude_gets_25km_disc Ref.python Ref.shapely
              [("geometry", PDict [("type", PStr "Point");
                                   ("coordinates", PList [PFloat (FNum (-122)); PFloat (FNum 38)])]);
               ("properties", PDict [("place", PStr "offshore"); ("mag", PStr "unknown")])]
              (FNum (-122)) (FNum 38)) as [Hmag [_ [Hbuf _]]].
  - do 4 eexists. repeat split; reflexivity.
  - right. do 2 eexists. split; reflexivity.
  - split; [exact Hmag|exact Hbuf].
Defined.

(** ** The cycle *)

Lemma somes_app : forall (A : Type) (l1 l2 : list (option A)),
  somes (l1 ++ l2) = somes l1 ++ somes l2.
Proof.
  intros A l1 l2. induction l1 as [|[a|] l1 IH]; simpl; [reflexivity| |exact IH].
  rewrite IH. reflexivity.
Qed.

Lemma attempted_states_app : forall l1 l2,
  attempted_states (l1 ++ l2) = attempted_states l1 ++ attempted_states l2.
Proof. intros l1 l2. unfold attempted_states. rewrite map_app. apply somes_app. Qed.

Lemma written_app : forall l1 l2, written (l1 ++ l2) = written l1 ++ written l2.
Proof. intros l1 l2. unfold written. rewrite map_app. apply somes_app. Qed.

Section CycleProps.
Context {PY : Python} {SH : Shapely} {PD : Pandas}.

Lemma primary_strategy_log : forall W log,
  primary_strategy W log = (log ++ [CallInvoke], answer (primary_strategy W)).
Proof.
  intros W log. unfold answer, primary_strategy, cbind, perform, lift, cret.
  cbn [app snd].
  destruct (executor_invoke W _) as [r|e]; [|reflexivity].
  destruct (py_get r "output"); reflexivity.
Qed.

Lemma news_strategy_log : forall W log,
  news_strategy W log =
    (log ++ [CallFetchNews],
     Ok (render_news (news_items W) (utcnow_iso (env_at W FALLBACK_NEWS)), "ok_news")).
Proof.
  intros W log.
  unfold news_strategy, news_items, news_region_hint, cbind, ctry, perform, cret.
  destruct (fetch_live_news _ _ _ _ _); reflexivity.
Qed.

(** The earthquake state either renders its briefing or raises; in both cases
    it has fetched once and written nothing. *)
Lemma seismic_strategy_outcome : forall W log,
  exists log_s r,
    seismic_strategy W log = (log ++ log_s, r) /\
    attempted_states log_s = [FALLBACK_SEISMIC] /\
    written log_s = [] /\
    ((exists e, r = Raise e) \/
     (exists i t,
        r = Ok (t, "ok_eq") /\
        briefing_input_at W FALLBACK_SEISMIC = Some i /\
        render_briefing i (utcnow_iso (env_at W FALLBACK_SEISMIC)) = Ok t)).
Proof.
  intros W log. unfold seismic_strategy, briefing_input_at, cbind, perform, lift, cret.
  destruct (fetch_recent_earthquakes _ _ _ _) as [eq|e].
  - destruct (truthy (eq_feature_union eq)).
    + destruct (compute_portfolio_exposure _ _ _) as [out|e].
      * destruct (render_eq eq (exposure out) _) as [t|e] eqn:R.
        { exists [CallFetchEarthquakes; CallComputeExposure FALLBACK_SEISMIC (eq_feature_union eq)]. eexists.
          rewrite <- app_assoc. split; [reflexivity|]. repeat split.
          right. exists (EqBriefing eq (exposure out)), t. repeat split. exact R. }
        { exists [CallFetchEarthquakes; CallComputeExposure FALLBACK_SEISMIC (eq_feature_union eq)]. eexists.
          rewrite <- app_assoc. split; [reflexivity|]. repeat split.
          left. eexists. reflexivity. }
      * exists [CallFetchEarthquakes; CallComputeExposure FALLBACK_SEISMIC (eq_feature_union eq)]. eexists.
        rewrite <- app_assoc. split; [reflexivity|]. repeat split.
        left. eexists. reflexivity.
    + exists [CallFetchEarthquakes]. eexists. split; [reflexivity|]. repeat split.
      left. eexists. reflexivity.
  - exists [CallFetchEarthquakes]. eexists. split; [reflexivity|]. repeat split.
    left. eexists. reflexivity.
Qed.

Lemma alerts_strategy_outcome : forall W log,
  exists log_a r,
    alerts_strategy W log = (log ++ log_a, r) /\
    attempted_states log_a = [FALLBACK_ALERTS] /\
    written log_a = [] /\
    ((exists e, r = Raise e) \/
     (exists i t,
        r = Ok (t, "ok_alerts") /\
        briefing_input_at W FALLBACK_ALERTS = Some i /\
        render_briefing i (utcnow_iso (env_at W FALLBACK_ALERTS)) = Ok t)).
Proof.
  intros W log. unfold alerts_strategy, briefing_input_at, cbind, perform, lift, cret.
  destruct (fetch_active_alerts _ _ _) as [al|e].
  - destruct (truthy (al_feature_union al)).
    + destruct (compute_portfolio_exposure _ _ _) as [out|e].
      * destruct (render_alerts al (exposure out) _ _) as [t|e] eqn:R.
        { exists [CallFetchAlerts; CallComputeExposure FALLBACK_ALERTS (al_feature_union al)]. eexists.
          rewrite <- app_assoc. split; [reflexivity|]. repeat split.
          right. exists (AlertsBriefing al (exposure out) (alerts_area (settings W))), t.
          repeat split. exact R. }
        { exists [CallFetchAlerts; CallComputeExposure FALLBACK_ALERTS (al_feature_union al)]. eexists.
          rewrite <- app_assoc. split; [reflexivity|]. repeat split.
          left. eexists. reflexivity. }
      * exists [CallFetchAlerts; CallComputeExposure FALLBACK_ALERTS (al_feature_union al)]. eexists.
        rewrite <- app_assoc. split; [reflexivity|]. repeat split.
        left. eexists. reflexivity.
    + exists [CallFetchAlerts]. eexists. split; [reflexivity|]. repeat split.
      left. eexists. reflexivity.
  - exists [CallFetchAlerts]. eexists. split; [reflexivity|]. repeat split.
    left. eexists. reflexivity.
Qed.

(** The fallback chain always returns: with the briefing of the first state,
    in the order earthquakes, alerts, news, that renders one. *)
Lemma fallback_chain_outcome : forall W log,
  exists log_f t s,
    fallback_chain W log = (log ++ log_f, Ok (t, status_label s)) /\
    written log_f = [] /\
    exists i,
      briefing_input_at W s = Some i /\
      render_briefing i (utcnow_iso (env_at W s)) = Ok t /\
      ((s = FALLBACK_SEISMIC /\ attempted_states log_f = [FALLBACK_SEISMIC]) \/
       (s = FALLBACK_ALERTS /\
        attempted_states log_f = [FALLBACK_SEISMIC; FALLBACK_ALERTS]) \/
       (s = FALLBACK_NEWS /\
        attempted_states log_f = [FALLBACK_SEISMIC; FALLBACK_ALERTS; FALLBACK_NEWS])).
Proof.
  intros W log. unfold fallback_chain, ctry.
  destruct (seismic_strategy_outcome W log) as [ls [rs [Hs [As [Ws Cs]]]]].
  rewrite Hs. destruct Cs as [[e ->]|[i [t [-> [Hi Hr]]]]].
  - destruct (alerts_strategy_outcome W (log ++ ls)) as [la [ra [Ha [Aa [Wa Ca]]]]].
    rewrite Ha. destruct Ca as [[e' ->]|[i [t [-> [Hi Hr]]]]].
    + rewrite news_strategy_log.
      exists (ls ++ la ++ [CallFetchNews]), (render_news (news_items W)
                (utcnow_iso (env_at W FALLBACK_NEWS))), FALLBACK_NEWS.
      rewrite !app_assoc. split; [reflexivity|].
      rewrite <- !app_assoc, !written_app, Ws, Wa. split; [reflexivity|].
      exists (NewsBriefing (news_items W)). split; [reflexivity|]. split; [reflexivity|].
      right. right. rewrite !attempted_states_app, As, Aa. split; reflexivity.
    + exists (ls ++ la), t, FALLBACK_ALERTS.
      rewrite !app_assoc. split; [reflexivity|].
      rewrite !written_app, Ws, Wa. split; [reflexivity|].
      exists i. split; [exact Hi|]. split; [exact Hr|].
      right. left. rewrite attempted_states_app, As, Aa. split; reflexivity.
  - exists ls, t, FALLBACK_SEISMIC. split; [reflexivity|]. split; [exact Ws|].
    exists i. split; [exact Hi|]. split; [exact Hr|]. left. split; [reflexivity|exact As].
Qed.

End CycleProps.

Section CycleClaims.
Context {PY : Python} {SH : Shapely} {PD : Pandas}.

(** The directory and the file name of the briefing of a cycle that ends with
    the given status. *)
Lemma persist_ok : forall W (t status0 : string) log,
  persistence_ok W ->
  exists dir path,
    persist W (PStr t) status0 log =
      (log ++ [CallMakedirs dir; CallWrite path t],
       Ok {| output_path := path; text := t; status := status0 |}).
Proof.
  intros W t status0 log [Hmk Hwr]. unfold persist, cbind, perform, cret.
  rewrite Hmk. rewrite Hwr. rewrite <- app_assoc. do 2 eexists. reflexivity.
Qed.

(** When the agent is built and its call raises, the cycle returns the
    briefing of the fallback chain, written once. *)
Lemma run_cycle_after_primary_failure : forall W e,
  build_agent W = Ok tt ->
  persistence_ok W ->
  answer (primary_strategy W) = Raise e ->
  exists log_f t s i dir path,
    run_cycle W [] =
      ([CallBuildAgent; CallInvoke] ++ log_f ++ [CallMakedirs dir; CallWrite path t],
       Ok {| output_path := path; text := t; status := status_label s |}) /\
    written log_f = [] /\
    briefing_input_at W s = Some i /\
    render_briefing i (utcnow_iso (env_at W s)) = Ok t /\
    ((s = FALLBACK_SEISMIC /\ attempted_states log_f = [FALLBACK_SEISMIC]) \/
     (s = FALLBACK_ALERTS /\
      attempted_states log_f = [FALLBACK_SEISMIC; FALLBACK_ALERTS]) \/
     (s = FALLBACK_NEWS /\
      attempted_states log_f = [FALLBACK_SEISMIC; FALLBACK_ALERTS; FALLBACK_NEWS])).
Proof.
  intros W e Hbuild Hpers Hprim.
  destruct (fallback_chain_outcome W [CallBuildAgent; CallInvoke])
    as [log_f [t [s [Hchain [Hw [i [Hi [Hr Hc]]]]]]]].
  destruct (persist_ok W t (status_label s) ([CallBuildAgent; CallInvoke] ++ log_f) Hpers)
    as [dir [path Hp]].
  exists log_f, t, s, i, dir, path. split; [|repeat split; assumption].
  unfold run_cycle. unfold cbind at 1. unfold perform at 1. rewrite Hbuild.
  cbn [app]. unfold cbind at 1. unfold ctry. rewrite primary_strategy_log, Hprim.
  cbn [app]. unfold cbind at 1. rewrite Hchain. unfold cret at 1.
  rewrite Hp. rewrite <- app_assoc. reflexivity.
Qed.

Lemma run_cycle_after_primary_success : forall W (t : string),
  build_agent W = Ok tt ->
  persistence_ok W ->
  answer (primary_strategy W) = Ok (PStr t, "ok"%string) ->
  exists dir path,
    run_cycle W [] =
      ([CallBuildAgent; CallInvoke; CallMakedirs dir; CallWrite path t],
       Ok {| output_path := path; text := t; status := "ok" |}).
Proof.
  intros W t Hbuild Hpers Hprim.
  destruct (persist_ok W t "ok"%string [CallBuildAgent; CallInvoke] Hpers) as [dir [path Hp]].
  exists dir, path.
  unfold run_cycle. unfold cbind at 1. unfold perform at 1. rewrite Hbuild.
  cbn [app]. unfold cbind at 1. unfold ctry. rewrite primary_strategy_log, Hprim.
  cbn [app]. rewrite Hp. reflexivity.
Qed.

(** An error in [build_agent()] is not caught: the cycle raises it and no
    state is attempted. *)
Lemma run_cycle_build_agent_raises : forall W e,
  build_agent W = Raise e -> run_cycle W [] = ([CallBuildAgent], Raise e).
Proof.
  intros W e H. unfold run_cycle. unfold cbind at 1. unfold perform at 1.
  rewrite H. reflexivity.
Qed.

Lemma seismic_input_some : forall W i,
  briefing_input_at W FALLBACK_SEISMIC = Some i ->
  exists eq, fetch_recent_earthquakes (env_at W FALLBACK_SEISMIC) (FNum 4.5) "day" None = Ok eq /\
             truthy (eq_feature_union eq) = true.
Proof.
  intros W i H. unfold briefing_input_at in H.
  destruct (fetch_recent_earthquakes _ _ _ _) as [eq|e]; [|discriminate].
  exists eq. split; [reflexivity|]. destruct (truthy (eq_feature_union eq)); [reflexivity|discriminate].
Qed.

Lemma alerts_input_some : forall W i,
  briefing_input_at W FALLBACK_ALERTS = Some i ->
  exists al, fetch_active_alerts (env_at W FALLBACK_ALERTS) None (alerts_area (settings W)) = Ok al.
Proof.
  intros W i H. unfold briefing_input_at in H.
  destruct (fetch_active_alerts _ _ _) as [al|e]; [|discriminate].
  exists al. reflexivity.
Qed.

Lemma persist_inv : forall W v st log log' o,
  persist W v st log = (log', Ok o) ->
  v = PStr (text o) /\ status o = st.
Proof.
  intros W v st log log' o H. unfold persist, cbind, perform, lift, cret in H.
  destruct (makedirs W _); [|discriminate].
  destruct v; try (destruct (write_text W _ _); discriminate).
  destruct (write_text W _ _); [|discriminate].
  injection H as _ <-. split; reflexivity.
Qed.

Lemma primary_answer_status : forall W v st,
  answer (primary_strategy W) = Ok (v, st) -> st = "ok"%string.
Proof.
  intros W v st H. unfold answer, primary_strategy, cbind, perform, lift, cret in H.
  cbn [app snd] in H.
  destruct (executor_invoke W _) as [r|e]; [|discriminate].
  destruct (py_get r "output"); [|discriminate].
  cbn [snd] in H. injection H as _ <-. reflexivity.
Qed.

(** Whatever a cycle returns is the agent's answer tagged [ok], or the
    briefing a fallback state rendered from its structured input and its
    timestamp, tagged with that state's label. *)
Lemma run_cycle_returns_inv : forall W log o,
  run_cycle W [] = (log, Ok o) ->
  (status o = "ok"%string /\
   answer (primary_strategy W) = Ok (PStr (text o), "ok"%string)) \/
  (exists e s i,
     answer (primary_strategy W) = Raise e /\
     status o = status_label s /\
     (s = FALLBACK_SEISMIC \/ s = FALLBACK_ALERTS \/ s = FALLBACK_NEWS) /\
     briefing_input_at W s = Some i /\
     render_briefing i (utcnow_iso (env_at W s)) = Ok (text o)).
Proof.
  intros W log o H. unfold run_cycle in H. unfold cbind at 1 in H.
  unfold perform at 1 in H. destruct (build_agent W); [|discriminate].
  cbn [app] in H. unfold cbind at 1 in H. unfold ctry in H.
  rewrite primary_strategy_log in H.
  destruct (answer (primary_strategy W)) as [[v st]|e] eqn:A.
  - apply persist_inv in H. destruct H as [-> <-].
    pose proof (primary_answer_status W _ _ A) as ->. left. split; reflexivity.
  - destruct (fallback_chain_outcome W ([CallBuildAgent] ++ [CallInvoke]))
      as [log_f [t [s [Hchain [_ [i [Hi [Hr Hc]]]]]]]].
    unfold cbind at 1 in H. rewrite Hchain in H. unfold cret at 1 in H.
    apply persist_inv in H. destruct H as [Ht Hst]. injection Ht as ->.
    right. exists e, s, i. split; [reflexivity|]. split; [exact Hst|].
    split; [|split; assumption].
    destruct Hc as [[-> _]|[[-> _]|[-> _]]]; auto.
Qed.

(** *** C1: the terminal guarantee *)

(** The terminal guarantee of a cycle whose agent was built.
    Let the agent be built and the briefing file be writable.
    If the agent's call raises, then whatever the three data sources do the
    cycle returns exactly one outcome, tagged [ok_eq], [ok_alerts] or
    [ok_news], having written exactly one briefing, and when the seismic and
    the alerts fetch both raise (the news fetch raising or not) the status is
    [ok_news].  If the agent's call returns text, the outcome is that text
    tagged [ok], whatever the data sources would do.  The cycle raises in one
    case only: the agent's call returned an answer that is not text, which
    the final write rejects; no error of the agent's call or of a fallback
    state escapes. *)
Theorem run_cycle_terminal_guarantee : forall W,
  build_agent W = Ok tt ->
  persistence_ok W ->
  (forall e, answer (primary_strategy W) = Raise e ->
     exists log o,
       run_cycle W [] = (log, Ok o) /\
       written log = [(output_path o, text o)] /\
       (status o = "ok_eq" \/ status o = "ok_alerts" \/ status o = "ok_news")%string /\
       ((exists e1, fetch_recent_earthquakes (env_at W FALLBACK_SEISMIC) (FNum 4.5) "day" None
                    = Raise e1) ->
        (exists e2, fetch_active_alerts (env_at W FALLBACK_ALERTS) None
                      (alerts_area (settings W)) = Raise e2) ->
        status o = "ok_news"%string)) /\
  (forall t : string, answer (primary_strategy W) = Ok (PStr t, "ok"%string) ->
     exists log o,
       run_cycle W [] = (log, Ok o) /\
       written log = [(output_path o, text o)] /\
       status o = "ok"%string /\ text o = t) /\
  (forall log e, run_cycle W [] = (log, Raise e) ->
     exists v, answer (primary_strategy W) = Ok (v, "ok"%string) /\
               forall t : string, v <> PStr t).
Proof.
  intros W Hbuild Hpers. split; [|split].
  - intros e Hprim.
    destruct (run_cycle_after_primary_failure W e Hbuild Hpers Hprim)
      as [log_f [t [s [i [dir [path [Hrun [Hw [Hi [_ Hc]]]]]]]]]].
    eexists. eexists. split; [exact Hrun|]. cbn [output_path text status].
    split.
    { rewrite !written_app, Hw. reflexivity. }
    split.
    { destruct Hc as [[-> _]|[[-> _]|[-> _]]]; cbn [status_label]; auto. }
    intros [e1 H1] [e2 H2].
    destruct Hc as [[-> _]|[[-> _]|[-> _]]]; [| |reflexivity].
    + destruct (seismic_input_some W i Hi) as [eq [Heq _]]. congruence.
    + destruct (alerts_input_some W i Hi) as [al Hal]. congruence.
  - intros t Hprim.
    destruct (run_cycle_after_primary_success W t Hbuild Hpers Hprim) as [dir [path Hrun]].
    eexists. eexists. split; [exact Hrun|]. repeat split.
  - intros log e Hrun.
    destruct (answer (primary_strategy W)) as [[v st]|e0] eqn:A.
    + pose proof (primary_answer_status W v st A) as ->.
      exists v. split; [reflexivity|]. intros t ->.
      destruct (run_cycle_after_primary_success W t Hbuild Hpers A) as [dir [path Hok]].
      rewrite Hok in Hrun. discriminate.
    + destruct (run_cycle_after_primary_failure W e0 Hbuild Hpers A)
        as [log_f [t [s [i [dir [path [Hok _]]]]]]].
      rewrite Hok in Hrun. discriminate.
Qed.

(** *** C2: the order of the fallbacks *)

(** C2.  In every cycle whose agent call raises and whose seismic fetch
    returns without union geometry, the cycle (agent built, briefing file
    writable) returns an outcome tagged [ok_alerts] or [ok_news], never
    [ok_eq]; each state was attempted once, in the order PRIMARY,
    FALLBACK_SEISMIC, FALLBACK_ALERTS and then, only when the alerts state
    produced no briefing, FALLBACK_NEWS. *)
Theorem fallback_order_after_absent_seismic : forall W e eq,
  build_agent W = Ok tt ->
  persistence_ok W ->
  answer (primary_strategy W) = Raise e ->
  fetch_recent_earthquakes (env_at W FALLBACK_SEISMIC) (FNum 4.5) "day" None = Ok eq ->
  eq_feature_union eq = PNone ->
  exists log o,
    run_cycle W [] = (log, Ok o) /\
    status o <> "ok_eq"%string /\
    ((status o = "ok_alerts"%string /\
      attempted_states log = [PRIMARY; FALLBACK_SEISMIC; FALLBACK_ALERTS]) \/
     (status o = "ok_news"%string /\
      attempted_states log = [PRIMARY; FALLBACK_SEISMIC; FALLBACK_ALERTS; FALLBACK_NEWS])).
Proof.
  intros W e eq Hbuild Hpers Hprim Hfetch Hunion.
  destruct (run_cycle_after_primary_failure W e Hbuild Hpers Hprim)
    as [log_f [t [s [i [dir [path [Hrun [Hw [Hi [_ Hc]]]]]]]]]].
  eexists. eexists. split; [exact Hrun|]. cbn [status].
  rewrite !attempted_states_app.
  destruct Hc as [[-> _]|[[-> Ha]|[-> Ha]]].
  - destruct (seismic_input_some W i Hi) as [eq' [Heq' Ht]].
    rewrite Hfetch in Heq'. injection Heq' as <-. rewrite Hunion in Ht. discriminate.
  - split; [discriminate|]. left. rewrite Ha. split; reflexivity.
  - split; [discriminate|]. right. rewrite Ha. split; reflexivity.
Qed.

End CycleClaims.

(** Persisting: the directory is made, then the file written; each step that
    raises ends the cycle with its error. *)
Lemma persist_cases : forall W v st log,
  (forall e, makedirs W (briefings_dir W) = Raise e ->
     persist W v st log = (log ++ [CallMakedirs (briefings_dir W)], Raise e)) /\
  (makedirs W (briefings_dir W) = Ok tt ->
     exists r,
       persist W v st log =
         (log ++ [CallMakedirs (briefings_dir W);
                  CallWrite (briefing_path W st)
                    (match v with PStr s => s | _ => ""%string end)], r) /\
       (forall e, write_text W (briefing_path W st)
                    (match v with PStr s => s | _ => ""%string end) = Raise e ->
          r = Raise e) /\
       (write_text W (briefing_path W st)
          (match v with PStr s => s | _ => ""%string end) = Ok tt ->
        r = match v with
            | PStr s => Ok {| output_path := briefing_path W st; text := s; status := st |}
            | _ => raise TypeError "write() argument must be str"
            end)).
Proof.
  intros W v st log. unfold persist, cbind, perform, lift, cret.
  fold (briefings_dir W). fold (briefing_path W st). split.
  - intros e H. rewrite H. reflexivity.
  - intro H. rewrite H.
    destruct v;
      (destruct (write_text W (briefing_path W st) _) as [[]|e0] eqn:Wt;
       (rewrite <- app_assoc; cbn [app] in *; eexists;
        (split; [reflexivity|]);
        (split;
         [ intros e He; congruence
         | intro He; first [reflexivity | discriminate He] ]))).
Qed.

(** *** C6: what two runs on the same inputs can differ in *)

Lemma mapM_Permutation : forall (A B : Type) (f : A -> result B) (l l' : list A),
  Permutation l l' ->
  forall bs, mapM f l = Ok bs -> exists bs', mapM f l' = Ok bs' /\ Permutation bs bs'.
Proof.
  intros A B f l l' HP. induction HP as [|a l l' HP IH|a b l|l l' l'' HP1 IH1 HP2 IH2];
    intros bs Hm.
  - exists bs. split; [exact Hm|apply Permutation_refl].
  - cbn [mapM] in *. destruct (f a) as [x|e]; [|discriminate]. cbn [bind] in *.
    destruct (mapM f l) as [xs|e]; [|discriminate]. cbn [bind] in *.
    injection Hm as <-. destruct (IH xs eq_refl) as [xs' [-> HP']].
    exists (x :: xs'). split; [reflexivity|]. apply perm_skip. exact HP'.
  - cbn [mapM] in *. destruct (f b) as [x|e]; [|discriminate]. cbn [bind] in *.
    destruct (f a) as [y|e]; [|discriminate]. cbn [bind] in *.
    destruct (mapM f l) as [xs|e]; [|discriminate]. cbn [bind] in *.
    injection Hm as <-. exists (y :: x :: xs). split; [reflexivity|]. apply perm_swap.
  - destruct (IH1 bs Hm) as [bs' [H1 P1]]. destruct (IH2 bs' H1) as [bs'' [H2 P2]].
    exists bs''. split; [exact H2|]. eapply Permutation_trans; eassumption.
Qed.

Section SetOrder.
Context {PY : Python} {SH : Shapely} {PD : Pandas}.
Variable ord : list pyval -> list pyval.
Hypothesis set_order_ok : set_order_permutes PY.
Hypothesis ord_ok : forall l : list pyval, Permutation (ord l) l.

Lemma union_features_set_order : forall fs,
  match @_union_features PY SH fs, @_union_features (with_set_order PY ord) SH fs with
  | Ok u, Ok u' => same_but_set_order u u'
  | Raise _, Raise _ => True
  | _, _ => False
  end.
Proof.
  intro fs. unfold _union_features.
  destruct (py_iter fs) as [l|e]; [|exact I]. cbn [bind].
  destruct (mapM parse_feature l) as [parsed|e]; [|exact I]. cbn [bind].
  destruct (map fst (somes parsed)) as [|g gs]; [constructor|].
  destruct (collect_field "event" (map snd (somes parsed))) as [ev|e]; [|exact I].
  cbn [bind].
  destruct (collect_field "severity" (map snd (somes parsed))) as [sv|e]; [|exact I].
  cbn [bind]. constructor; unfold list_of_set; cbn [set_order with_set_order].
  - eapply Permutation_trans; [apply set_order_ok|]. apply Permutation_sym, ord_ok.
  - eapply Permutation_trans; [apply set_order_ok|]. apply Permutation_sym, ord_ok.
Qed.

Lemma fetch_active_alerts_set_order : forall E event area,
  match @fetch_active_alerts PY SH E event area,
        @fetch_active_alerts (with_set_order PY ord) SH E event area with
  | Ok al, Ok al' =>
      al_count al' = al_count al /\
      same_but_set_order (al_feature_union al) (al_feature_union al')
  | Raise _, Raise _ => True
  | _, _ => False
  end.
Proof.
  intros E event area. unfold fetch_active_alerts.
  destruct (http_get_json E NWS_ALERTS_URL (_build_params event area)) as [data|e];
    [|exact I]. cbn [bind].
  destruct (py_get data "features") as [f|e]; [|exact I]. cbn [bind].
  destruct (truthy (py_or f (PList []))).
  - pose proof (union_features_set_order (py_or f (PList []))) as HU.
    destruct (@_union_features PY SH (py_or f (PList []))) as [u|e];
      destruct (@_union_features (with_set_order PY ord) SH (py_or f (PList [])))
        as [u'|e']; try contradiction; [|exact I].
    cbn [bind]. destruct (py_len (py_or f (PList []))) as [n|e]; [|exact I]. cbn [bind].
    destruct (py_take 50 (py_or f (PList []))) as [c|e]; [|exact I]. cbn [bind].
    split; [reflexivity|exact HU].
  - cbn [bind]. destruct (py_len (py_or f (PList []))) as [n|e]; [|exact I]. cbn [bind].
    destruct (py_take 50 (py_or f (PList []))) as [c|e]; [|exact I]. cbn [bind].
    split; [reflexivity|constructor].
Qed.

(** The exposure computation reads the footprint through its geometry only. *)
Lemma compute_portfolio_exposure_set_order : forall E p u u',
  @cone_geometry PY SH u = @cone_geometry PY SH u' ->
  same_ok (@compute_portfolio_exposure PY SH PD E p u)
          (@compute_portfolio_exposure (with_set_order PY ord) SH PD E p u').
Proof.
  intros E p u u' Hc. unfold compute_portfolio_exposure.
  destruct (read_csv E p) as [df|e]; [|exact I]. cbn [bind].
  destruct (missing_columns df) as [|c cs]; [|exact I].
  change (@cone_geometry (with_set_order PY ord) SH u') with (@cone_geometry PY SH u').
  rewrite <- Hc. destruct (cone_geometry u) as [poly|e]; [|exact I]. cbn [bind].
  destruct (scored_assets df) as [|a l]; [exact I|].
  destruct (if fgt _ _ then _ else _) as [r|e]; [|exact I]. reflexivity.
Qed.

Lemma same_but_set_order_truthy : forall u u',
  same_but_set_order u u' -> truthy u' = truthy u.
Proof. intros u u' []; reflexivity. Qed.

Lemma same_but_set_order_geometry : forall u u',
  same_but_set_order u u' -> @cone_geometry PY SH u = @cone_geometry PY SH u'.
Proof. intros u u' []; reflexivity. Qed.

Lemma py_or_list : forall l, py_or (PList l) (PList []) = PList l.
Proof. intros [|a l]; reflexivity. Qed.

(** What [render_alerts] returns is the alerts briefing over the events of
    the footprint, in the order the footprint lists them. *)
Lemma render_alerts_set_order : forall al al' exp area now,
  al_count al' = al_count al ->
  same_but_set_order (al_feature_union al) (al_feature_union al') ->
  match @render_alerts PY al exp area now,
        @render_alerts (with_set_order PY ord) al' exp area now with
  | Ok t, Ok t' =>
      exists evs evs',
        t = alerts_text (al_count al) evs exp area now /\
        t' = alerts_text (al_count al) evs' exp area now /\
        Permutation evs evs'
  | Raise _, Raise _ => True
  | _, _ => False
  end.
Proof.
  intros al al' exp area now Hn HU. unfold render_alerts. rewrite Hn.
  destruct HU as [|g n ev ev' sv sv' Hev Hsv]; [exact I|].
  cbn [py_get_default lookup String.eqb Ascii.eqb Bool.eqb bind]. rewrite !py_or_list.
  unfold py_join. cbn [py_iter bind].
  set (as_str := fun x : pyval => match x with
                                  | PStr s => Ok s
                                  | _ => raise TypeError "sequence item: expected str instance"
                                  end).
  destruct (mapM as_str ev) as [strs|e] eqn:M.
  - destruct (mapM_Permutation _ _ as_str ev ev' Hev strs M) as [strs' [-> HP]].
    cbn [bind]. exists strs, strs'. repeat split. exact HP.
  - destruct (mapM as_str ev') as [strs'|e'] eqn:M'; [|exact I].
    destruct (mapM_Permutation _ _ as_str ev' ev (Permutation_sym Hev) strs' M')
      as [strs [M2 _]].
    rewrite M2 in M. discriminate.
Qed.

Lemma state_text_seismic_set_order : forall W,
  @state_text (with_set_order PY ord) SH PD W FALLBACK_SEISMIC
  = @state_text PY SH PD W FALLBACK_SEISMIC.
Proof.
  intro W. unfold state_text, briefing_input_at.
  change (@fetch_recent_earthquakes (with_set_order PY ord) SH)
    with (@fetch_recent_earthquakes PY SH).
  destruct (fetch_recent_earthquakes _ _ _ _) as [eq|e]; [|reflexivity].
  destruct (truthy (eq_feature_union eq)); [|reflexivity].
  pose proof (compute_portfolio_exposure_set_order (env_at W FALLBACK_SEISMIC)
                (portfolio_csv (settings W)) (eq_feature_union eq) (eq_feature_union eq)
                eq_refl) as HC.
  unfold same_ok in HC.
  destruct (@compute_portfolio_exposure PY SH PD _ _ _) as [o|e];
    destruct (@compute_portfolio_exposure (with_set_order PY ord) SH PD _ _ _) as [o'|e'];
    try contradiction; [|reflexivity].
  subst o'. reflexivity.
Qed.

Lemma state_text_news_set_order : forall W,
  @state_text (with_set_order PY ord) SH PD W FALLBACK_NEWS
  = @state_text PY SH PD W FALLBACK_NEWS.
Proof. reflexivity. Qed.

Lemma state_text_alerts_set_order : forall W,
  match @state_text PY SH PD W FALLBACK_ALERTS,
        @state_text (with_set_order PY ord) SH PD W FALLBACK_ALERTS with
  | Some t, Some t' =>
      exists count exp evs evs',
        t = alerts_text count evs exp (alerts_area (settings W))
              (utcnow_iso (env_at W FALLBACK_ALERTS)) /\
        t' = alerts_text count evs' exp (alerts_area (settings W))
               (utcnow_iso (env_at W FALLBACK_ALERTS)) /\
        Permutation evs evs'
  | None, None => True
  | _, _ => False
  end.
Proof.
  intro W. unfold state_text, briefing_input_at.
  pose proof (fetch_active_alerts_set_order (env_at W FALLBACK_ALERTS) None
                (alerts_area (settings W))) as HF.
  destruct (@fetch_active_alerts PY SH _ _ _) as [al|e];
    destruct (@fetch_active_alerts (with_set_order PY ord) SH _ _ _) as [al'|e'];
    try contradiction; [|exact I].
  destruct HF as [Hn HU]. rewrite (same_but_set_order_truthy _ _ HU).
  destruct (truthy (al_feature_union al)); [|exact I].
  pose proof (compute_portfolio_exposure_set_order (env_at W FALLBACK_ALERTS)
                (portfolio_csv (settings W)) _ _ (same_but_set_order_geometry _ _ HU))
    as HC.
  unfold same_ok in HC.
  destruct (@compute_portfolio_exposure PY SH PD _ _ _) as [o|e];
    destruct (@compute_portfolio_exposure (with_set_order PY ord) SH PD _ _ _) as [o'|e'];
    try contradiction; [|exact I].
  subst o'. cbn [render_briefing].
  pose proof (render_alerts_set_order al al' (exposure o) (alerts_area (settings W))
                (utcnow_iso (env_at W FALLBACK_ALERTS)) Hn HU) as HR.
  destruct (@render_alerts PY al _ _ _) as [t|e];
    destruct (@render_alerts (with_set_order PY ord) al' _ _ _) as [t'|e'];
    try contradiction; [|exact I].
  destruct HR as [evs [evs' [Ht [Ht' HP]]]].
  exists (al_count al), (exposure o), evs, evs'. repeat split; assumption.
Qed.

End SetOrder.

Section ChainResult.
Context {PY : Python} {SH : Shapely} {PD : Pandas}.

Lemma seismic_strategy_text : forall W log,
  match state_text W FALLBACK_SEISMIC with
  | Some t => snd (seismic_strategy W log) = Ok (t, "ok_eq"%string)
  | None => exists e, snd (seismic_strategy W log) = Raise e
  end.
Proof.
  intros W log.
  unfold state_text, seismic_strategy, briefing_input_at, cbind, perform, lift, cret.
  destruct (fetch_recent_earthquakes _ _ _ _) as [eq|e]; [|eexists; reflexivity].
  destruct (truthy (eq_feature_union eq)); [|eexists; reflexivity].
  destruct (compute_portfolio_exposure _ _ _) as [out|e]; [|eexists; reflexivity].
  cbn [render_briefing].
  destruct (render_eq eq (exposure out) _) as [t|e]; [reflexivity|eexists; reflexivity].
Qed.

Lemma alerts_strategy_text : forall W log,
  match state_text W FALLBACK_ALERTS with
  | Some t => snd (alerts_strategy W log) = Ok (t, "ok_alerts"%string)
  | None => exists e, snd (alerts_strategy W log) = Raise e
  end.
Proof.
  intros W log.
  unfold state_text, alerts_strategy, briefing_input_at, cbind, perform, lift, cret.
  destruct (fetch_active_alerts _ _ _) as [al|e]; [|eexists; reflexivity].
  destruct (truthy (al_feature_union al)); [|eexists; reflexivity].
  destruct (compute_portfolio_exposure _ _ _) as [out|e]; [|eexists; reflexivity].
  cbn [render_briefing].
  destruct (render_alerts al (exposure out) _ _) as [t|e];
    [reflexivity|eexists; reflexivity].
Qed.

(** The fallback chain returns the briefing of the first state that renders
    one. *)
Lemma fallback_chain_result : forall W log,
  snd (fallback_chain W log) = Ok (chain_result W).
Proof.
  intros W log. unfold fallback_chain, ctry, chain_result.
  pose proof (seismic_strategy_text W log) as HS.
  destruct (seismic_strategy W log) as [ls rs]. cbn [snd] in HS.
  destruct (state_text W FALLBACK_SEISMIC) as [t|].
  - rewrite HS. reflexivity.
  - destruct HS as [e ->].
    pose proof (alerts_strategy_text W ls) as HA.
    destruct (alerts_strategy W ls) as [la ra]. cbn [snd] in HA.
    destruct (state_text W FALLBACK_ALERTS) as [t|].
    + rewrite HA. reflexivity.
    + destruct HA as [e' ->]. rewrite news_strategy_log. reflexivity.
Qed.

(** What a cycle that returns has returned: the agent's answer, or else the
    result of the fallback chain, in the file named after the status. *)
Lemma run_cycle_result : forall W log o,
  run_cycle W [] = (log, Ok o) ->
  output_path o = briefing_path W (status o) /\
  match answer (primary_strategy W) with
  | Ok (v, st) => v = PStr (text o) /\ st = status o
  | Raise _ => chain_result W = (text o, status o)
  end.
Proof.
  intros W log o R. unfold run_cycle, cbind, perform in R. cbn [app] in R.
  destruct (build_agent W) as [[]|e]; [|discriminate].
  unfold ctry in R. rewrite primary_strategy_log in R.
  assert (P : forall v st l, persist W v st l = (log, Ok o) ->
              output_path o = briefing_path W (status o) /\ v = PStr (text o) /\ st = status o).
  { intros v st l HP. destruct (persist_cases W v st l) as [Hraise Hok].
    destruct (makedirs W (briefings_dir W)) as [[]|e] eqn:Hmk.
    - destruct (Hok eq_refl) as [r [Hp [Hwr Hw]]]. rewrite Hp in HP.
      injection HP as _ ->.
      destruct (write_text W (briefing_path W st) _) as [[]|e] eqn:Hw'.
      + specialize (Hw eq_refl). destruct v; try discriminate.
        injection Hw as Hw. rewrite Hw. cbn. repeat split.
      + specialize (Hwr e eq_refl). discriminate.
    - rewrite (Hraise e eq_refl) in HP. discriminate. }
  destruct (answer (primary_strategy W)) as [[v st]|e].
  - destruct (P _ _ _ R) as [Hp [Hv Hs]]. split; [exact Hp|]. split; assumption.
  - match type of R with
    | context [fallback_chain W ?l] =>
        pose proof (fallback_chain_result W l) as HF;
        destruct (fallback_chain W l) as [lf rf]
    end.
    cbn [snd] in HF. subst rf.
    destruct (chain_result W) as [t s]. unfold cret in R.
    destruct (P _ _ _ R) as [Hp [Hv Hs]]. split; [exact Hp|].
    injection Hv as ->. subst s. reflexivity.
Qed.

End ChainResult.

Section RenderingDeterminism.
Context {PY : Python} {SH : Shapely} {PD : Pandas}.

(** C6, as it holds of the code.  Run the cycle twice on the same inputs (the
    same world: agent, feeds, portfolio, clock), the second time in a
    process whose sets iterate in another order.  If both runs return, they
    return the same status and the same file name; the two Markdown texts
    are identical unless the briefing is the alerts one, and then they are
    the same alerts briefing over the same count and exposure whose lines
    of events list the same names, each as often, in two orders: identical
    again when at most one name is listed. *)
Theorem briefing_rendering_deterministic :
  forall (ord : list pyval -> list pyval) (W : World) log1 log2 o1 o2,
  set_order_permutes PY ->
  set_order_permutes (with_set_order PY ord) ->
  @run_cycle PY SH PD W [] = (log1, Ok o1) ->
  @run_cycle (with_set_order PY ord) SH PD W [] = (log2, Ok o2) ->
  status o2 = status o1 /\
  output_path o2 = output_path o1 /\
  (status o1 <> "ok_alerts"%string -> text o2 = text o1) /\
  (status o1 = "ok_alerts"%string ->
     exists count exp events1 events2,
       text o1 = alerts_text count events1 exp (alerts_area (settings W))
                   (utcnow_iso (env_at W FALLBACK_ALERTS)) /\
       text o2 = alerts_text count events2 exp (alerts_area (settings W))
                   (utcnow_iso (env_at W FALLBACK_ALERTS)) /\
       Permutation events1 events2 /\
       ((List.length events1 <= 1)%nat -> text o2 = text o1)).
Proof.
  intros ord W log1 log2 o1 o2 HPY Hord R1 R2.
  destruct (run_cycle_result W log1 o1 R1) as [P1 C1].
  destruct (@run_cycle_result (with_set_order PY ord) SH PD W log2 o2 R2) as [P2 C2].
  assert (Hmain : status o2 = status o1 /\
            (status o1 <> "ok_alerts"%string -> text o2 = text o1) /\
            (status o1 = "ok_alerts"%string ->
               exists count exp events1 events2,
                 text o1 = alerts_text count events1 exp (alerts_area (settings W))
                             (utcnow_iso (env_at W FALLBACK_ALERTS)) /\
                 text o2 = alerts_text count events2 exp (alerts_area (settings W))
                             (utcnow_iso (env_at W FALLBACK_ALERTS)) /\
                 Permutation events1 events2)).
  { destruct (answer (primary_strategy W)) as [[v st]|e] eqn:Hprim.
    - assert (Hst : st = "ok"%string).
      { unfold answer, primary_strategy, cbind, perform, lift, cret in Hprim.
        cbn [app snd] in Hprim.
        destruct (executor_invoke W _) as [r|e]; [|discriminate].
        destruct (py_get r "output"); [|discriminate]. injection Hprim as _ <-.
        reflexivity. }
      destruct C1 as [V1 S1], C2 as [V2 S2]. rewrite V1 in V2. injection V2 as V2.
      split; [congruence|]. split; [intros _; congruence|].
      intro Ha. exfalso. rewrite <- S1, Hst in Ha. discriminate Ha.
    - unfold chain_result in C1, C2.
      rewrite (state_text_seismic_set_order ord W) in C2.
      destruct (state_text W FALLBACK_SEISMIC) as [t|].
      + injection C1 as T1 S1. injection C2 as T2 S2.
        split; [congruence|]. split; [intros _; congruence|].
        intro Ha. rewrite <- S1 in Ha. discriminate.
      + pose proof (state_text_alerts_set_order ord HPY Hord W) as HA.
        destruct (@state_text PY SH PD W FALLBACK_ALERTS) as [t|];
          destruct (@state_text (with_set_order PY ord) SH PD W FALLBACK_ALERTS) as [t'|];
          try contradiction.
        * injection C1 as T1 S1. injection C2 as T2 S2.
          split; [congruence|]. split; [intro Hn; exfalso; apply Hn; congruence|].
          intros _. destruct HA as [count [exp [evs [evs' [Ht [Ht' HP]]]]]].
          exists count, exp, evs, evs'. subst t t'. repeat split; try assumption; congruence.
        * change (@render_news (with_set_order PY ord)) with (@render_news PY) in C2.
          injection C1 as T1 S1. injection C2 as T2 S2.
          split; [congruence|]. split; [intros _; congruence|].
          intro Ha. rewrite <- S1 in Ha. discriminate. }
  destruct Hmain as [HS [HT HA]].
  split; [exact HS|]. split; [rewrite P1, P2, HS; reflexivity|]. split; [exact HT|].
  intro Ha. destruct (HA Ha) as [count [exp [evs [evs' [T1 [T2 HP]]]]]].
  exists count, exp, evs, evs'. repeat split; try assumption.
  intro Hlen. rewrite T1, T2.
  destruct evs as [|a [|b evs]]; cbn in Hlen; try lia.
  - apply Permutation_nil in HP. subst evs'. reflexivity.
  - apply Permutation_length_1_inv in HP. subst evs'. reflexivity.
Qed.

End RenderingDeterminism.

(** ** The cycle on concrete worlds *)

(** C1.  The claim fails on the code where the agent cannot be built.
    [run_cycle] calls [build_agent()] on line 131, before the [try] of line
    142: in the world [Examples.world_no_agent] (no API key, so that the
    constructor of the chat model raises) the error escapes the cycle, which
    attempts the strategy of no state, writes no briefing and returns no
    outcome.  Every later failure of the primary state is caught on line
    146: in [Examples.world_all_down], where the agent is built, its call
    raises and nothing can be fetched either, the cycle returns the one
    outcome tagged [ok_news] and has written it. *)
Theorem build_agent_error_escapes :
  (exists e,
     build_agent Examples.world_no_agent = Raise e /\
     run_cycle Examples.world_no_agent [] = ([CallBuildAgent], Raise e)) /\
  attempted_states [CallBuildAgent] = [] /\
  written [CallBuildAgent] = [] /\
  (exists e log o,
     build_agent Examples.world_all_down = Ok tt /\
     answer (primary_strategy Examples.world_all_down) = Raise e /\
     run_cycle Examples.world_all_down [] = (log, Ok o) /\
     status o = "ok_news"%string /\
     written log = [(output_path o, text o)]).
Proof.
  split; [eexists; split; [reflexivity | vm_compute; reflexivity]|].
  split; [reflexivity|]. split; [reflexivity|].
  do 3 eexists. split; [reflexivity|]. split; [vm_compute; reflexivity|].
  split; [vm_compute; reflexivity|]. split; reflexivity.
Qed.

Lemma examples_persistence_ok : forall invoke envs,
  persistence_ok (Examples.world invoke envs).
Proof. intros invoke envs. split; intros; reflexivity. Qed.

Lemma run_cycle_terminal_guarantee_witness :
  exists log o,
    run_cycle Examples.world_all_down [] = (log, Ok o) /\
    written log = [(output_path o, text o)] /\
    status o = "ok_news"%string.
Proof.
  destruct (proj1 (@run_cycle_terminal_guarantee Ref.python Ref.shapely Ref.pandas
                     Examples.world_all_down eq_refl
                     (examples_persistence_ok _ _))
              (Exn (ExternalError "ConnectionError") "network is unreachable") eq_refl)
    as [log [o [Hrun [Hw [_ Hnews]]]]].
  exists log, o. split; [exact Hrun|]. split; [exact Hw|].
  apply Hnews; eexists; vm_compute; reflexivity.
Defined.

Lemma fallback_order_after_absent_seismic_witness :
  exists log o,
    run_cycle Examples.world_quiet [] = (log, Ok o) /\
    status o = "ok_alerts"%string /\
    attempted_states log = [PRIMARY; FALLBACK_SEISMIC; FALLBACK_ALERTS].
Proof.
  edestruct (@fallback_order_after_absent_seismic Ref.python Ref.shapely Ref.pandas
               Examples.world_quiet)
    as [log [o [Hrun [_ Hc]]]].
  - reflexivity.
  - apply examples_persistence_ok.
  - vm_compute. reflexivity.
  - vm_compute. reflexivity.
  - reflexivity.
  - exists log, o. split; [exact Hrun|].
    destruct Hc as [Hc|[Hs _]]; [exact Hc|].
    exfalso. vm_compute in Hrun. injection Hrun as _ <-. discriminate.
Defined.

Lemma briefing_rendering_deterministic_witness :
  exists log1 log2 o1 o2,
    @run_cycle Ref.python Ref.shapely Ref.pandas
      DeterminismScenarios.world_two_events [] = (log1, Ok o1) /\
    @run_cycle (with_set_order Ref.python (@rev pyval)) Ref.shapely Ref.pandas
      DeterminismScenarios.world_two_events [] = (log2, Ok o2) /\
    status o1 = "ok_alerts"%string /\
    status o2 = status o1 /\
    output_path o2 = output_path o1 /\
    exists count exp events1 events2,
      text o1 = @alerts_text Ref.python count events1 exp None "2024-05-01T12:00:00+00:00" /\
      text o2 = @alerts_text Ref.python count events2 exp None "2024-05-01T12:00:00+00:00" /\
      Permutation events1 events2.
Proof.
  do 4 eexists.
  split; [vm_compute; reflexivity|]. split; [vm_compute; reflexivity|].
  split; [reflexivity|].
  edestruct (@briefing_rendering_deterministic Ref.python Ref.shapely Ref.pandas
               (@rev pyval) DeterminismScenarios.world_two_events)
    as [HS [HP [_ HA]]].
  - intro l. apply Permutation_refl.
  - intro l. apply Permutation_sym, Permutation_rev.
  - vm_compute. reflexivity.
  - vm_compute. reflexivity.
  - split; [exact HS|]. split; [exact HP|].
    destruct (HA eq_refl) as [count [exp [evs1 [evs2 [T1 [T2 [HPm _]]]]]]].
    exists count, exp, evs1, evs2. repeat split; assumption.
Defined.

(** C6 as the specification states it fails: on the same feeds, portfolio
    and clock, with two distinct events among the alerts, a process whose
    sets iterate in the opposite order writes another line of events. *)
Lemma alerts_briefing_depends_on_set_order :
  exists log1 log2 o1 o2 exp,
    @run_cycle Ref.python Ref.shapely Ref.pandas
      DeterminismScenarios.world_two_events [] = (log1, Ok o1) /\
    @run_cycle (with_set_order Ref.python (@rev pyval)) Ref.shapely Ref.pandas
      DeterminismScenarios.world_two_events [] = (log2, Ok o2) /\
    set_order_permutes Ref.python /\
    set_order_permutes (with_set_order Ref.python (@rev pyval)) /\
    text o1 = @alerts_text Ref.python 3 ["Flood Warning"; "Tornado Warning"]%string exp None
                "2024-05-01T12:00:00+00:00" /\
    text o2 = @alerts_text Ref.python 3 ["Tornado Warning"; "Flood Warning"]%string exp None
                "2024-05-01T12:00:00+00:00" /\
    text o1 <> text o2.
Proof.
  do 4 eexists.
  let r := eval vm_compute in
    (bind (@fetch_active_alerts Ref.python Ref.shapely
             DeterminismScenarios.env_two_events None None)
          (fun al => @compute_portfolio_exposure Ref.python Ref.shapely Ref.pandas
                       DeterminismScenarios.env_two_events "data/portfolio_alpha.csv"
                       (al_feature_union al))) in
  match r with Ok ?out => exists (exposure out) end.
  split; [vm_compute; reflexivity|]. split; [vm_compute; reflexivity|].
  split; [intro l; apply Permutation_refl|].
  split; [intro l; apply Permutation_sym, Permutation_rev|].
  split; [vm_compute; reflexivity|]. split; [vm_compute; reflexivity|].
  vm_compute. discriminate.
Qed.

(** * Further properties of the sources *)

(** ** [app/tools/earthquake_tool.py]: feed selection, filtering, counting *)

Lemma windows_cases : forall w : string,
  existsb (String.eqb w) ["hour"; "day"; "week"; "month"]%string = true <->
  In w ["hour"; "day"; "week"; "month"]%string.
Proof.
  intro w. rewrite existsb_exists. split.
  - intros [x [Hin Heq]]. apply String.eqb_eq in Heq. subst x. exact Hin.
  - intro Hin. exists w. split; [exact Hin | apply String.eqb_refl].
Qed.

(** X1.  Whatever the threshold and the window, [_feed_for] names one of the
    sixteen USGS summary feeds: [<level>_<window>.geojson] under [USGS_BASE],
    the level being one of significant, 4.5, 2.5 and all, the window one of
    hour, day, week and month.  A recognised window is kept, any other string
    is read as [day], and a NaN threshold selects the all-earthquakes feed. *)
Theorem feed_for_names_a_usgs_summary_feed : forall (m : pyfloat) (w : string),
  exists level win label : string,
    _feed_for m w = ((USGS_BASE ++ "/" ++ level ++ "_" ++ win ++ ".geojson")%string, label) /\
    In level ["significant"; "4.5"; "2.5"; "all"]%string /\
    In win ["hour"; "day"; "week"; "month"]%string /\
    (In w ["hour"; "day"; "week"; "month"]%string -> win = w) /\
    (~ In w ["hour"; "day"; "week"; "month"]%string -> win = "day"%string) /\
    (is_nan m = true -> level = "all"%string).
Proof.
  intros m w. unfold _feed_for.
  set (win := if existsb (String.eqb w) ["hour"; "day"; "week"; "month"]%string
              then w else "day"%string).
  assert (Hwin : In win ["hour"; "day"; "week"; "month"]%string /\
                 (In w ["hour"; "day"; "week"; "month"]%string -> win = w) /\
                 (~ In w ["hour"; "day"; "week"; "month"]%string -> win = "day"%string)).
  { subst win.
    destruct (existsb (String.eqb w) ["hour"; "day"; "week"; "month"]%string) eqn:T.
    - apply windows_cases in T. split; [exact T | split; [reflexivity | contradiction]].
    - split; [right; left; reflexivity | split; [| reflexivity]].
      intro Hin. apply windows_cases in Hin. congruence. }
  destruct Hwin as [W1 [W2 W3]].
  assert (Hnan : forall t, is_nan m = true -> fge m (FNum t) = false).
  { intros t Hn. destruct m; try discriminate. reflexivity. }
  destruct (fge m (FNum 7.0)) eqn:T7.
  { exists "significant"%string, win, ("USGS Significant Earthquakes (" ++ win ++ ")")%string.
    repeat split; auto; [simpl; tauto |].
    intro Hn. rewrite (Hnan _ Hn) in T7. discriminate. }
  destruct (fge m (FNum 4.5)) eqn:T45.
  { exists "4.5"%string, win, ("USGS M4.5+ Earthquakes (" ++ win ++ ")")%string.
    repeat split; auto; [simpl; tauto |].
    intro Hn. rewrite (Hnan _ Hn) in T45. discriminate. }
  destruct (fge m (FNum 2.5)) eqn:T25.
  { exists "2.5"%string, win, ("USGS M2.5+ Earthquakes (" ++ win ++ ")")%string.
    repeat split; auto; [simpl; tauto |].
    intro Hn. rewrite (Hnan _ Hn) in T25. discriminate. }
  exists "all"%string, win, ("USGS All Earthquakes (" ++ win ++ ")")%string.
  repeat split; auto. simpl; tauto.
Qed.

Lemma filterM_inv : forall (A : Type) (p : A -> result bool) (l out : list A),
  filterM p l = Ok out ->
  subseq out l /\
  (forall a, In a out -> p a = Ok true) /\
  (forall a, In a l -> p a = Ok true -> In a out) /\
  filterM p out = Ok out.
Proof.
  intros A p. induction l as [|a l IH]; intros out H.
  - simpl in H. injection H as <-. repeat split; try constructor; intros; try contradiction.
  - simpl in H. destruct (p a) as [keep|e] eqn:Pa; [|discriminate]. simpl in H.
    destruct (filterM p l) as [rest|e] eqn:Fl; [|discriminate]. simpl in H.
    injection H as <-.
    destruct (IH rest eq_refl) as [S1 [S2 [S3 S4]]].
    destruct keep.
    + repeat split.
      * apply subseq_keep. exact S1.
      * intros b [<-|Hb]; auto.
      * intros b [<-|Hb] Hp; [left; reflexivity | right; auto].
      * simpl. rewrite Pa. simpl. rewrite S4. reflexivity.
    + repeat split; auto.
      * apply subseq_skip. exact S1.
      * intros b [<-|Hb] Hp; [congruence | auto].
Qed.

Section SeismicFeed.
Context {PY : Python} {SH : Shapely}.

Lemma in_bbox_true_iff : forall minx miny maxx maxy f,
  in_bbox minx miny maxx maxy f = Ok true <->
  exists lon lat, epicentre_of_feature f = Ok (Some (lon, lat)) /\
                  in_box minx miny maxx maxy lon lat.
Proof.
  intros. unfold in_bbox, epicentre_of_feature, in_box.
  destruct (py_get f "geometry") as [g|e]; cbn [bind].
  2:{ split; [discriminate | intros [lon [lat [H _]]]; discriminate H]. }
  change (py_or g (PDict [])) with (if truthy g then g else PDict []).
  destruct (truthy g) eqn:Tg; cbn [negb].
  2:{ split; [discriminate |]. intros [lon [lat [H _]]]. simpl in H. discriminate H. }
  destruct (py_get g "type") as [ty|e]; cbn [bind].
  2:{ split; [discriminate | intros [lon [lat [H _]]]; discriminate H]. }
  destruct (py_eq_str ty "Point"); cbn [negb].
  2:{ split; [discriminate | intros [lon [lat [H _]]]; discriminate H]. }
  destruct (py_get g "coordinates") as [c|e]; cbn [bind].
  2:{ split; [discriminate | intros [lon [lat [H _]]]; discriminate H]. }
  destruct (py_len (py_or c (PList []))) as [n|e]; cbn [bind].
  2:{ split; [discriminate | intros [lon [lat [H _]]]; discriminate H]. }
  destruct (Nat.ltb n 2).
  { split; [discriminate | intros [lon [lat [H _]]]; discriminate H]. }
  destruct (py_index (py_or c (PList [])) 0) as [c0|e]; cbn [bind].
  2:{ split; [discriminate | intros [lon [lat [H _]]]; discriminate H]. }
  destruct (py_float c0) as [lon|e]; cbn [bind].
  2:{ split; [discriminate | intros [lon [lat [H _]]]; discriminate H]. }
  destruct (py_index (py_or c (PList [])) 1) as [c1|e]; cbn [bind].
  2:{ split; [discriminate | intros [lon' [lat' [H _]]]; discriminate H]. }
  destruct (py_float c1) as [lat|e]; cbn [bind].
  2:{ split; [discriminate | intros [lon' [lat' [H _]]]; discriminate H]. }
  split.
  - intro H. injection H as H. rewrite !andb_true_iff in H.
    exists lon, lat. tauto.
  - intros [lon' [lat' [H [B1 [B2 [B3 B4]]]]]]. injection H as <- <-.
    rewrite B1, B2, B3, B4. reflexivity.
Qed.

Lemma buffer_of_feature_of_epicentre : forall f lon lat,
  epicentre_of_feature f = Ok (Some (lon, lat)) ->
  exists b, buffer_of_feature f = Ok (Some b).
Proof.
  intros f lon lat H. unfold buffer_of_feature. rewrite H. cbn [bind].
  destruct (buffer_degrees_positive (feature_mag f)) as [q [Hq _]].
  rewrite Hq. cbn [bind]. eauto.
Qed.

Lemma bad_coordinate_raises : forall f,
  bad_coordinate f -> exists e, epicentre_of_feature f = Raise e.
Proof.
  intros f [d [gd [c0 [c1 [rest [-> [G [T [C B]]]]]]]]].
  unfold epicentre_of_feature, py_get, py_get_default. rewrite G. cbn [bind].
  assert (Tg : py_or (PDict gd) (PDict []) = PDict gd).
  { destruct gd; [discriminate T | reflexivity]. }
  rewrite !Tg. rewrite T. cbn [bind py_eq_str].
  rewrite String.eqb_refl. cbn [negb]. rewrite C. cbn [bind].
  unfold py_or. cbn [truthy py_len bind length Nat.ltb Nat.leb py_index nth_error].
  change (Nat.leb (List.length (c0 :: c1 :: rest)) 1) with false. cbv iota.
  destruct B as [[e B]|[e B]].
  - rewrite B. cbn [bind]. eauto.
  - rewrite B. destruct (py_float c0); cbn [bind]; eauto.
Qed.

End SeismicFeed.

Lemma mapM_length : forall (A B : Type) (f : A -> result B) (l : list A) (bs : list B),
  mapM f l = Ok bs -> List.length bs = List.length l.
Proof.
  intros A B f. induction l as [|a l IH]; intros bs H; simpl in H.
  - injection H as <-. reflexivity.
  - destruct (f a); [|discriminate]. simpl in H.
    destruct (mapM f l) as [bs'|]; [|discriminate]. simpl in H.
    injection H as <-. simpl. f_equal. apply IH. reflexivity.
Qed.

Lemma somes_length_le : forall (A : Type) (l : list (option A)),
  (List.length (somes l) <= List.length l)%nat.
Proof.
  intros A. induction l as [|[a|] l IH]; simpl; lia.
Qed.

Lemma mapM_all_some : forall (A B : Type) (f : A -> result (option B)) (l : list A)
    (bs : list (option B)),
  mapM f l = Ok bs ->
  (forall a, In a l -> exists b, f a = Ok (Some b)) ->
  List.length (somes bs) = List.length l.
Proof.
  intros A B f. induction l as [|a l IH]; intros bs H Hall; simpl in H.
  - injection H as <-. reflexivity.
  - destruct (Hall a (or_introl eq_refl)) as [b Hb]. rewrite Hb in H. simpl in H.
    destruct (mapM f l) as [bs'|]; [|discriminate]. simpl in H.
    injection H as <-. simpl. f_equal. apply IH; [reflexivity|].
    intros a' Ha'. apply Hall. right. exact Ha'.
Qed.

Lemma mapM_raises : forall (A B : Type) (f : A -> result B) (l : list A) (a : A) (e : exn),
  In a l -> f a = Raise e -> exists e', mapM f l = Raise e'.
Proof.
  intros A B f. induction l as [|x l IH]; intros a e Hin Hf; [contradiction|].
  simpl. destruct Hin as [->|Hin].
  - rewrite Hf. simpl. eauto.
  - destruct (f x); simpl; [|eauto].
    destruct (IH a e Hin Hf) as [e' ->]. simpl. eauto.
Qed.

Lemma filterM_raises : forall (A : Type) (p : A -> result bool) (l : list A) (a : A) (e : exn),
  In a l -> p a = Raise e -> exists e', filterM p l = Raise e'.
Proof.
  intros A p. induction l as [|x l IH]; intros a e Hin Hf; [contradiction|].
  simpl. destruct Hin as [->|Hin].
  - rewrite Hf. simpl. eauto.
  - destruct (p x); simpl; [|eauto].
    destruct (IH a e Hin Hf) as [e' ->]. simpl. eauto.
Qed.

Section SeismicFetch.
Context {PY : Python} {SH : Shapely}.

Lemma fetch_recent_earthquakes_inv : forall E mm w bbox r,
  fetch_recent_earthquakes E mm w bbox = Ok r ->
  exists data feats0 feats fs bs,
    http_get_json E (fst (_feed_for mm w)) [] = Ok data /\
    py_get_default data "features" (PList []) = Ok feats0 /\
    match bbox with
    | Some b =>
        if (negb (Nat.eqb (List.length b) 0) && Nat.eqb (List.length b) 4)%bool
        then _filter_bbox feats0 b else Ok feats0
    | None => Ok feats0
    end = Ok feats /\
    py_iter feats = Ok fs /\
    mapM buffer_of_feature fs = Ok bs /\
    py_len feats = Ok (eq_count r) /\
    py_take 200 feats = Ok (eq_features r) /\
    eq_feature_union r = eq_union_feature mm w bbox (somes bs).
Proof.
  intros E mm w bbox r H. unfold fetch_recent_earthquakes in H.
  destruct (_feed_for mm w) as [url label]. cbn [fst].
  destruct (http_get_json E url []) as [data|e] eqn:Hd; [|discriminate]. cbn [bind] in H.
  destruct (py_get_default data "features" (PList [])) as [feats0|e] eqn:Hf; [|discriminate].
  cbn [bind] in H.
  match type of H with
  | bind ?m _ = _ => destruct m as [feats|e] eqn:Hb; [|discriminate]
  end.
  cbn [bind] in H.
  destruct (py_iter feats) as [fs|e] eqn:Hi; [|discriminate]. cbn [bind] in H.
  destruct (mapM buffer_of_feature fs) as [bs|e] eqn:Hm; [|discriminate]. cbn [bind] in H.
  destruct (py_len feats) as [n|e] eqn:Hn; [|discriminate]. cbn [bind] in H.
  destruct (py_take 200 feats) as [capped|e] eqn:Ht; [|discriminate]. cbn [bind] in H.
  injection H as <-. exists data, feats0, feats, fs, bs.
  repeat split; try assumption; reflexivity.
Qed.

Lemma bbox_ignored_unfiltered : forall (bbox : option (list pyfloat)) (feats0 : pyval),
  bbox_ignored bbox ->
  match bbox with
  | Some b =>
      if (negb (Nat.eqb (List.length b) 0) && Nat.eqb (List.length b) 4)%bool
      then _filter_bbox feats0 b else Ok feats0
  | None => Ok feats0
  end = Ok feats0.
Proof.
  intros [b|] feats0 H; [|reflexivity]. simpl in H.
  destruct (Nat.eqb (List.length b) 4) eqn:T.
  - apply Nat.eqb_eq in T. contradiction.
  - rewrite andb_false_r. reflexivity.
Qed.

Lemma filter_bbox_inv :
  forall (fs : list pyval) (minx miny maxx maxy : pyfloat) (out : pyval),
  _filter_bbox (PList fs) [minx; miny; maxx; maxy] = Ok out ->
  exists kept,
    out = PList kept /\
    filterM (in_bbox minx miny maxx maxy) fs = Ok kept.
Proof.
  intros fs minx miny maxx maxy out H. unfold _filter_bbox in H. cbn [py_iter bind] in H.
  destruct (filterM (in_bbox minx miny maxx maxy) fs) as [kept|e] eqn:F; [|discriminate].
  cbn [bind] in H. injection H as <-. exists kept. split; reflexivity.
Qed.

(** X2.  Whenever [_filter_bbox] returns, its output is the input list with
    some features left out and the others in their order; a feature of the
    input is kept exactly when it is a Point whose first two coordinates
    convert to a longitude and a latitude inside the closed box (the very
    reading the buffering loop makes of it); and filtering the output again
    with the same box changes nothing. *)
Theorem filter_bbox_keeps_the_points_in_the_box :
  forall (fs : list pyval) (minx miny maxx maxy : pyfloat) (out : pyval),
  _filter_bbox (PList fs) [minx; miny; maxx; maxy] = Ok out ->
  exists kept,
    out = PList kept /\
    subseq kept fs /\
    (forall f, In f fs ->
       (In f kept <->
        exists lon lat, epicentre_of_feature f = Ok (Some (lon, lat)) /\
                        in_box minx miny maxx maxy lon lat)) /\
    _filter_bbox out [minx; miny; maxx; maxy] = Ok out.
Proof.
  intros fs minx miny maxx maxy out H.
  destruct (filter_bbox_inv _ _ _ _ _ _ H) as [kept [-> F]].
  destruct (filterM_inv _ _ _ _ F) as [S1 [S2 [S3 S4]]].
  exists kept. split; [reflexivity|]. split; [exact S1|]. split.
  - intros f Hf. split.
    + intro Hin. apply in_bbox_true_iff. apply S2. exact Hin.
    + intro Hb. apply S3; [exact Hf|]. apply in_bbox_true_iff. exact Hb.
  - unfold _filter_bbox. cbn [py_iter bind]. rewrite S4. reflexivity.
Qed.

(** X3.  When [fetch_recent_earthquakes] is given a box of four numbers and
    returns, [count] is the number of features of the feed that are Points
    inside the box, [features] holds the first 200 of them in feed order,
    every one of them got a disc (the footprint records as many discs as
    [count]), and the footprint is absent exactly when no feature lies in the
    box. *)
Theorem bbox_fetch_buffers_every_listed_feature :
  forall (E : Env) (mm : pyfloat) (w : string) (minx miny maxx maxy : pyfloat)
         (dd : pydict) (fs : list pyval) (r : EqResult),
  http_get_json E (fst (_feed_for mm w)) [] = Ok (PDict dd) ->
  lookup "features" dd = Some (PList fs) ->
  fetch_recent_earthquakes E mm w (Some [minx; miny; maxx; maxy]) = Ok r ->
  exists kept buffers,
    subseq kept fs /\
    (forall f, In f fs ->
       (In f kept <->
        exists lon lat, epicentre_of_feature f = Ok (Some (lon, lat)) /\
                        in_box minx miny maxx maxy lon lat)) /\
    eq_count r = List.length kept /\
    eq_features r = PList (firstn 200 kept) /\
    eq_feature_union r = eq_union_feature mm w (Some [minx; miny; maxx; maxy]) buffers /\
    List.length buffers = List.length kept /\
    (eq_feature_union r = PNone <-> kept = []).
Proof.
  intros E mm w minx miny maxx maxy dd fs r Hd Hl H.
  destruct (fetch_recent_earthquakes_inv _ _ _ _ _ H)
    as [data [feats0 [feats [fs' [bs [D [F0 [Fb [I [M [N [T U]]]]]]]]]]]].
  rewrite Hd in D. injection D as <-.
  unfold py_get_default in F0. rewrite Hl in F0. injection F0 as <-.
  cbn [List.length Nat.eqb negb andb] in Fb.
  destruct (filter_bbox_inv fs minx miny maxx maxy feats Fb) as [kept [-> Fk]].
  destruct (filterM_inv _ _ _ _ Fk) as [S1 [K1 [K2 _]]].
  assert (S2 : forall f, In f fs ->
            (In f kept <->
             exists lon lat, epicentre_of_feature f = Ok (Some (lon, lat)) /\
                             in_box minx miny maxx maxy lon lat)).
  { intros f Hf. split.
    - intro Hin. apply in_bbox_true_iff. apply K1. exact Hin.
    - intro Hb. apply K2; [exact Hf|]. apply in_bbox_true_iff. exact Hb. }
  cbn [py_iter] in I. injection I as <-.
  cbn [py_len] in N. injection N as N.
  cbn [py_take] in T. injection T as T.
  assert (L : List.length (somes bs) = List.length kept).
  { apply (mapM_all_some _ _ _ _ _ M). intros f Hf.
    assert (Hfs : In f fs).
    { clear - S1 Hf. induction S1; simpl in *; tauto. }
    destruct (proj1 (S2 f Hfs) Hf) as [lon [lat [Ep _]]].
    exact (buffer_of_feature_of_epicentre _ _ _ Ep). }
  exists kept, (somes bs). repeat split; auto.
  - apply S2; assumption.
  - apply S2; assumption.
  - intro Hu. rewrite U in Hu. destruct (somes bs) as [|b l] eqn:Sb.
    + destruct kept; [reflexivity | discriminate L].
    + discriminate Hu.
  - intros ->. rewrite U. destruct (somes bs); [reflexivity | discriminate L].
Qed.

End SeismicFetch.

Section SeismicFetchEdges.
Context {PY : Python} {SH : Shapely}.

(** X4.  Without a box (or with a box that does not hold exactly four
    numbers, which is ignored), a fetch that returns reports as [count] the
    length of the feed's feature list, whatever the features are, returns
    the first 200 of them unchanged, and its footprint merges at most [count]
    discs; a payload without the [features] key counts as the empty feed. *)
Theorem unfiltered_fetch_counts_and_caps :
  forall (E : Env) (mm : pyfloat) (w : string) (bbox : option (list pyfloat))
         (dd : pydict) (fs : list pyval) (r : EqResult),
  bbox_ignored bbox ->
  http_get_json E (fst (_feed_for mm w)) [] = Ok (PDict dd) ->
  lookup "features" dd = Some (PList fs) \/ (lookup "features" dd = None /\ fs = []) ->
  fetch_recent_earthquakes E mm w bbox = Ok r ->
  eq_count r = List.length fs /\
  eq_features r = PList (firstn 200 fs) /\
  exists buffers,
    eq_feature_union r = eq_union_feature mm w bbox buffers /\
    (List.length buffers <= List.length fs)%nat.
Proof.
  intros E mm w bbox dd fs r Hb Hd Hl H.
  destruct (fetch_recent_earthquakes_inv _ _ _ _ _ H)
    as [data [feats0 [feats [fs' [bs [D [F0 [Fb [I [M [N [T U]]]]]]]]]]]].
  rewrite Hd in D. injection D as <-.
  assert (F0' : feats0 = PList fs).
  { unfold py_get_default in F0. destruct Hl as [Hl|[Hl ->]]; rewrite Hl in F0; congruence. }
  subst feats0. rewrite (bbox_ignored_unfiltered _ _ Hb) in Fb. injection Fb as <-.
  cbn [py_iter] in I. injection I as <-.
  cbn [py_len] in N. injection N as N.
  cbn [py_take] in T. injection T as T.
  repeat split; auto.
  exists (somes bs). split; [exact U|].
  rewrite <- (mapM_length _ _ _ _ _ M). apply somes_length_le.
Qed.

(** X5.  What makes [fetch_recent_earthquakes] raise, with or without a box:
    an HTTP error is passed on as it is; a payload that is not a JSON object
    raises [AttributeError]; a payload whose [features] is null raises
    [TypeError]; and one Point feature with a coordinate that [float] rejects
    makes the whole fetch raise, the conversion of coordinates (unlike that of
    the magnitude) being outside any [try]. *)
Theorem fetch_recent_earthquakes_failures :
  forall (E : Env) (mm : pyfloat) (w : string) (bbox : option (list pyfloat)),
  (forall e, http_get_json E (fst (_feed_for mm w)) [] = Raise e ->
     fetch_recent_earthquakes E mm w bbox = Raise e) /\
  (forall v, http_get_json E (fst (_feed_for mm w)) [] = Ok v -> is_dict v = false ->
     fetch_recent_earthquakes E mm w bbox =
       Raise (Exn AttributeError "object has no attribute 'get'")) /\
  (forall dd, http_get_json E (fst (_feed_for mm w)) [] = Ok (PDict dd) ->
     lookup "features" dd = Some PNone ->
     fetch_recent_earthquakes E mm w bbox = Raise (Exn TypeError "object is not iterable")) /\
  (forall dd fs f, http_get_json E (fst (_feed_for mm w)) [] = Ok (PDict dd) ->
     lookup "features" dd = Some (PList fs) ->
     In f fs -> bad_coordinate f ->
     exists e, fetch_recent_earthquakes E mm w bbox = Raise e).
Proof.
  intros E mm w bbox. unfold fetch_recent_earthquakes.
  destruct (_feed_for mm w) as [url label]. cbn [fst].
  split; [|split; [|split]].
  - intros e H. rewrite H. reflexivity.
  - intros v H Hv. rewrite H. cbn [bind]. destruct v; try reflexivity. discriminate Hv.
  - intros dd H Hl. rewrite H. cbn [bind]. unfold py_get_default. rewrite Hl. cbn [bind].
    destruct bbox as [b|]; [|reflexivity].
    destruct (negb (Nat.eqb (List.length b) 0) && Nat.eqb (List.length b) 4)%bool eqn:T4;
      [|reflexivity].
    unfold _filter_bbox.
    destruct b as [|b1 [|b2 [|b3 [|b4 [|b5 b]]]]]; try discriminate T4. reflexivity.
  - intros dd fs f H Hl Hin Hbad. rewrite H. cbn [bind]. unfold py_get_default. rewrite Hl.
    cbn [bind].
    destruct (bad_coordinate_raises f Hbad) as [e He].
    assert (Hbuf : buffer_of_feature f = Raise e).
    { unfold buffer_of_feature. rewrite He. reflexivity. }
    assert (Hunf : exists e',
              (fs0 <- py_iter (PList fs) ;;
               bs <- mapM buffer_of_feature fs0 ;;
               count <- py_len (PList fs) ;;
               capped <- py_take 200 (PList fs) ;;
               Ok {| eq_fetched_at := utcnow_iso E;
                     eq_source_title := label;
                     eq_source_url := url;
                     eq_query := [("min_magnitude", PFloat mm);
                                  ("window", PStr w);
                                  ("region_bbox", bbox_value bbox)];
                     eq_count := count;
                     eq_feature_union := eq_union_feature mm w bbox (somes bs);
                     eq_features := capped |}) = Raise e').
    { cbn [py_iter bind].
      destruct (mapM_raises _ _ buffer_of_feature fs f e Hin Hbuf) as [e' ->].
      cbn [bind]. eauto. }
    destruct bbox as [b|]; [|exact Hunf].
    destruct (negb (Nat.eqb (List.length b) 0) && Nat.eqb (List.length b) 4)%bool eqn:T4;
      [|exact Hunf].
    destruct b as [|b1 [|b2 [|b3 [|b4 [|b5 b]]]]]; try discriminate T4.
    unfold _filter_bbox. cbn [py_iter bind].
    assert (Hin_bbox : exists e', in_bbox b1 b2 b3 b4 f = Raise e').
    { destruct (in_bbox b1 b2 b3 b4 f) as [keep|e'] eqn:Bf; [|eauto].
      exfalso. destruct keep.
      - apply in_bbox_true_iff in Bf. destruct Bf as [lon [lat [Ep _]]]. congruence.
      - revert Bf. clear - Hbad.
        destruct Hbad as [d [gd [c0 [c1 [rest [-> [G [T [C B]]]]]]]]].
        unfold in_bbox, py_get, py_get_default. rewrite G. cbn [bind].
        assert (Tg : truthy (PDict gd) = true).
        { destruct gd; [discriminate T | reflexivity]. }
        rewrite Tg, T. cbn [negb bind py_eq_str]. rewrite String.eqb_refl. cbn [negb].
        rewrite C. cbn [bind]. unfold py_or.
        cbn [truthy py_len bind length Nat.ltb Nat.leb py_index nth_error].
        change (Nat.leb (List.length (c0 :: c1 :: rest)) 1) with false. cbv iota.
        destruct B as [[e B]|[e B]].
        + rewrite B. discriminate.
        + rewrite B. destruct (py_float c0); discriminate. }
    destruct Hin_bbox as [e' Hb'].
    destruct (filterM_raises _ (in_bbox b1 b2 b3 b4) fs f e' Hin Hb') as [e'' ->].
    cbn [bind]. eauto.
Qed.

End SeismicFetchEdges.

Lemma filter_bbox_keeps_the_points_in_the_box_witness :
  exists kept,
    PList [Examples.quake] = PList kept /\
    subseq kept Scenarios.feed_three /\
    (forall f, In f Scenarios.feed_three ->
       (In f kept <->
        exists lon lat, epicentre_of_feature f = Ok (Some (lon, lat)) /\
                        in_box (FNum (-123)) (FNum 37) (FNum (-121)) (FNum 39) lon lat)) /\
    _filter_bbox (PList [Examples.quake])
      [FNum (-123); FNum 37; FNum (-121); FNum 39] = Ok (PList [Examples.quake]).
Proof.
  apply (@filter_bbox_keeps_the_points_in_the_box Ref.python Scenarios.feed_three
           (FNum (-123)) (FNum 37) (FNum (-121)) (FNum 39) (PList [Examples.quake])).
  vm_compute. reflexivity.
Defined.

Lemma bbox_fetch_buffers_every_listed_feature_witness :
  exists (r : EqResult) (kept : list pyval) (buffers : list (@geom Ref.shapely)),
    fetch_recent_earthquakes (Scenarios.env_feed (PList Scenarios.feed_three)) (FNum 4.5) "day"
      (Some [FNum (-123); FNum 37; FNum (-121); FNum 39]) = Ok r /\
    eq_count r = 1%nat /\
    eq_count r = List.length kept /\
    List.length buffers = List.length kept /\
    eq_feature_union r =
      eq_union_feature (FNum 4.5) "day" (Some [FNum (-123); FNum 37; FNum (-121); FNum 39])
        buffers.
Proof.
  eexists.
  edestruct (@bbox_fetch_buffers_every_listed_feature Ref.python Ref.shapely
               (Scenarios.env_feed (PList Scenarios.feed_three)) (FNum 4.5) "day"%string
               (FNum (-123)) (FNum 37) (FNum (-121)) (FNum 39)
               [("features"%string, PList Scenarios.feed_three)] Scenarios.feed_three)
    as [kept [buffers [_ [_ [Hc [_ [Hu [Hl _]]]]]]]].
  - vm_compute. reflexivity.
  - reflexivity.
  - vm_compute. reflexivity.
  - exists kept, buffers. split; [reflexivity|]. split; [reflexivity|].
    split; [exact Hc|]. split; [exact Hl | exact Hu].
Defined.

Lemma unfiltered_fetch_counts_and_caps_witness :
  exists r,
    fetch_recent_earthquakes (Scenarios.env_feed (PList Scenarios.feed_three)) (FNum 4.5) "day"
      (Some [FNum (-123); FNum 37]) = Ok r /\
    eq_count r = 3%nat /\
    eq_features r = PList Scenarios.feed_three /\
    exists buffers,
      eq_feature_union r =
        eq_union_feature (FNum 4.5) "day" (Some [FNum (-123); FNum 37]) buffers /\
      (List.length buffers <= 3)%nat.
Proof.
  eexists. split; [vm_compute; reflexivity|].
  apply (@unfiltered_fetch_counts_and_caps Ref.python Ref.shapely
           (Scenarios.env_feed (PList Scenarios.feed_three)) (FNum 4.5) "day"%string
           (Some [FNum (-123); FNum 37])
           [("features"%string, PList Scenarios.feed_three)] Scenarios.feed_three).
  - simpl. discriminate.
  - vm_compute. reflexivity.
  - left. reflexivity.
  - vm_compute. reflexivity.
Defined.

Lemma fetch_recent_earthquakes_failures_witness :
  (exists e,
     fetch_recent_earthquakes
       (Scenarios.env_feed (PList [Examples.quake; Scenarios.garbled])) (FNum 4.5) "day" None
     = Raise e) /\
  fetch_recent_earthquakes (Scenarios.env_feed PNone) (FNum 4.5) "day" None
  = Raise (Exn TypeError "object is not iterable").
Proof.
  destruct (@fetch_recent_earthquakes_failures Ref.python Ref.shapely
              (Scenarios.env_feed (PList [Examples.quake; Scenarios.garbled]))
              (FNum 4.5) "day"%string None) as [_ [_ [_ Hbad]]].
  destruct (@fetch_recent_earthquakes_failures Ref.python Ref.shapely
              (Scenarios.env_feed PNone) (FNum 4.5) "day"%string None) as [_ [_ [Hnull _]]].
  split.
  - apply (Hbad [("features"%string, PList [Examples.quake; Scenarios.garbled])]
             [Examples.quake; Scenarios.garbled] Scenarios.garbled).
    + vm_compute. reflexivity.
    + reflexivity.
    + right. left. reflexivity.
    + do 5 eexists. split; [reflexivity|]. split; [reflexivity|]. split; [reflexivity|].
      split; [reflexivity|]. left. eexists. vm_compute. reflexivity.
  - apply (Hnull [("features"%string, PNone)]).
    + vm_compute. reflexivity.
    + reflexivity.
Defined.

(** ** [app/tools/alerts_tool.py]: request parameters, counting, property sets *)

Lemma upper_ascii_idem : forall c, upper_ascii (upper_ascii c) = upper_ascii c.
Proof. intros [[] [] [] [] [] [] [] []]; reflexivity. Qed.

Lemma upper_idem : forall s, upper (upper s) = upper s.
Proof.
  induction s as [|c s IH]; simpl; [reflexivity|].
  rewrite upper_ascii_idem, IH. reflexivity.
Qed.

Lemma upper_length : forall s, String.length (upper s) = String.length s.
Proof. induction s as [|c s IH]; simpl; congruence. Qed.

Section Alerts.
Context {PY : Python} {SH : Shapely}.

(** X6.  The parameters of an alerts request always carry [status=actual]
    and [limit=200]; an event filter is sent exactly when a non-empty event
    is given, an area filter exactly when the area has two characters, in
    upper case; no other key is ever sent, so the query [fetch_active_alerts]
    echoes in its result is the whole parameter set. *)
Theorem build_params_sends_status_limit_and_valid_filters :
  forall (event area : option string),
    lookup "status" (_build_params event area) = Some (PStr "actual") /\
    lookup "limit" (_build_params event area) = Some (PInt 200) /\
    lookup "event" (_build_params event area) =
      match event with
      | Some e => if String.eqb e "" then None else Some (PStr e)
      | None => None
      end /\
    lookup "area" (_build_params event area) =
      match area with
      | Some a => if Nat.eqb (String.length a) 2 then Some (PStr (upper a)) else None
      | None => None
      end /\
    (forall k, In k (map fst (_build_params event area)) ->
       In k ["status"; "limit"; "event"; "area"]%string) /\
    (forall E r, fetch_active_alerts E event area = Ok r ->
       al_query r = _build_params event area).
Proof.
  intros event area.
  assert (Ha : forall a : string,
            (negb (String.eqb a "") && Nat.eqb (String.length a) 2)%bool
            = Nat.eqb (String.length a) 2).
  { intros [|c a]; reflexivity. }
  assert (Hq : forall E r, fetch_active_alerts E event area = Ok r ->
            al_query r =
              filter (fun kv => existsb (String.eqb (fst kv))
                                  ["event"; "area"; "status"; "limit"]%string)
                     (_build_params event area)).
  { intros E r H. unfold fetch_active_alerts in H.
    destruct (http_get_json E NWS_ALERTS_URL (_build_params event area)); [|discriminate].
    cbn [bind] in H. destruct (py_get a "features"); [|discriminate]. cbn [bind] in H.
    match type of H with
    | bind ?m _ = _ => destruct m; [|discriminate]
    end.
    cbn [bind] in H. destruct (py_len _); [|discriminate]. cbn [bind] in H.
    destruct (py_take _ _); [|discriminate]. cbn [bind] in H.
    injection H as <-. reflexivity. }
  unfold _build_params in *.
  destruct event as [e|]; destruct area as [a|];
    try rewrite Ha; try rewrite Ha in Hq;
    try destruct (String.eqb e "") eqn:Te; try destruct (Nat.eqb (String.length a) 2) eqn:Ta;
    cbn [negb app lookup String.eqb Ascii.eqb Bool.eqb map fst] in *;
    (repeat split; try reflexivity;
     [ intros k Hk; simpl in Hk |- *; tauto
     | intros E r H; rewrite (Hq E r H); reflexivity ]).
Qed.

(** X7.  For a configured region written in ASCII, the area the cycle
    derives from it and the check [_build_params] makes of that area agree:
    when the region, stripped of blanks, has two characters, the cycle asks
    for its upper-case form and the request carries exactly that code; in
    every other case (the empty region included) the cycle asks for no area
    and the request carries none. *)
Theorem cycle_area_filter_reaches_the_request : forall S : Settings,
  ascii_text (monitor_region S) = true ->
  (String.length (strip (monitor_region S)) = 2%nat ->
     alerts_area S = Some (upper (strip (monitor_region S))) /\
     lookup "area" (_build_params None (alerts_area S))
       = Some (PStr (upper (strip (monitor_region S))))) /\
  (String.length (strip (monitor_region S)) <> 2%nat ->
     alerts_area S = None /\
     lookup "area" (_build_params None (alerts_area S)) = None).
Proof.
  intros S _. unfold alerts_area.
  assert (Hempty : String.eqb (monitor_region S) "" = true ->
                   String.length (strip (monitor_region S)) = 0%nat).
  { intro H. apply String.eqb_eq in H. rewrite H. reflexivity. }
  split; intro H.
  - destruct (String.eqb (monitor_region S) "") eqn:T.
    + rewrite (Hempty eq_refl) in H. discriminate H.
    + rewrite H. cbn [negb andb Nat.eqb]. split; [reflexivity|].
      unfold _build_params.
      assert (L : String.length (upper (strip (monitor_region S))) = 2%nat).
      { rewrite upper_length. exact H. }
      destruct (upper (strip (monitor_region S))) as [|c1 [|c2 [|c3 u]]] eqn:U;
        try discriminate L.
      cbn [String.eqb negb String.length Nat.eqb andb app lookup Ascii.eqb Bool.eqb].
      rewrite <- U, upper_idem. reflexivity.
  - apply Nat.eqb_neq in H. rewrite H, andb_false_r. split; reflexivity.
Qed.

Lemma fetch_active_alerts_inv : forall E event area r,
  fetch_active_alerts E event area = Ok r ->
  exists data f,
    http_get_json E NWS_ALERTS_URL (_build_params event area) = Ok data /\
    py_get data "features" = Ok f /\
    (if truthy (py_or f (PList [])) then _union_features (py_or f (PList [])) else Ok PNone)
      = Ok (al_feature_union r) /\
    py_len (py_or f (PList [])) = Ok (al_count r) /\
    py_take 50 (py_or f (PList [])) = Ok (al_features r).
Proof.
  intros E event area r H. unfold fetch_active_alerts in H.
  destruct (http_get_json E NWS_ALERTS_URL (_build_params event area)) as [data|] eqn:D;
    [|discriminate].
  cbn [bind] in H. destruct (py_get data "features") as [f|] eqn:F; [|discriminate].
  cbn [bind] in H.
  match type of H with
  | bind ?m _ = _ => destruct m as [u|] eqn:U; [|discriminate]
  end.
  cbn [bind] in H. destruct (py_len _) as [n|] eqn:N; [|discriminate]. cbn [bind] in H.
  destruct (py_take _ _) as [c|] eqn:T; [|discriminate]. cbn [bind] in H.
  injection H as <-. exists data, f. repeat split; assumption.
Qed.

(** X8.  On a JSON object from the alerts endpoint: when [features] is
    missing, null or otherwise falsy, [fetch_active_alerts] returns (it does
    not raise) with count 0, no footprint and no features; when [features] is
    a list and the fetch returns, [count] is the length of the whole list
    while [features] holds its first 50 entries, and the footprint is absent
    or built. *)
Theorem fetch_active_alerts_counts_and_caps :
  forall (E : Env) (event area : option string) (dd : pydict),
  http_get_json E NWS_ALERTS_URL (_build_params event area) = Ok (PDict dd) ->
  (truthy (field "features" dd) = false ->
     exists r, fetch_active_alerts E event area = Ok r /\
       al_count r = 0%nat /\ al_feature_union r = PNone /\ al_features r = PList []) /\
  (forall fs r, lookup "features" dd = Some (PList fs) ->
     fetch_active_alerts E event area = Ok r ->
     al_count r = List.length fs /\
     al_features r = PList (firstn 50 fs) /\
     (al_feature_union r = PNone \/ built_footprint "merged_count" (al_feature_union r))).
Proof.
  intros E event area dd Hd. split.
  - intro Hf. unfold fetch_active_alerts. rewrite Hd. cbn [bind].
    rewrite py_get_dict. cbn [bind]. unfold py_or. rewrite Hf.
    cbn [truthy bind py_len py_take List.length firstn].
    eexists. split; [reflexivity|]. repeat split.
  - intros fs r Hl H.
    destruct (fetch_active_alerts_inv _ _ _ _ H) as [data [f [D [F [U [N T]]]]]].
    rewrite Hd in D. injection D as <-.
    rewrite py_get_dict in F. injection F as <-.
    unfold field in *. rewrite Hl in *.
    destruct fs as [|f0 fs].
    + unfold py_or in *. cbn [truthy] in *.
      cbn [py_len py_take] in N, T. injection N as <-. injection T as <-. injection U as <-.
      repeat split. left. reflexivity.
    + unfold py_or in *. cbn [truthy] in *.
      cbn [py_len py_take] in N, T. injection N as <-. injection T as <-.
      repeat split. apply (union_features_result _ _ U).
Qed.

End Alerts.

(** ** Sets of property values *)

Lemma feq_sym : forall a b, feq a b = feq b a.
Proof.
  intros [x| | |] [y| | |]; simpl; try reflexivity.
  destruct (Qeq_bool x y) eqn:T.
  - apply Qeq_bool_iff in T. symmetry. apply Qeq_bool_iff. symmetry. exact T.
  - destruct (Qeq_bool y x) eqn:T'; [|reflexivity].
    apply Qeq_bool_iff in T'. symmetry in T'. apply Qeq_bool_iff in T'. congruence.
Qed.

Lemma py_eqb_sym : forall a b, py_eqb a b = py_eqb b a.
Proof.
  intros a b. unfold py_eqb.
  destruct a, b; cbn [numeric_value]; try reflexivity;
    try apply feq_sym; try apply String.eqb_sym.
Qed.

Lemma ForallOrdPairs_filter : forall (A : Type) (R : A -> A -> Prop) (p : A -> bool) (l : list A),
  ForallOrdPairs R l -> ForallOrdPairs R (filter p l).
Proof.
  intros A R p l H. induction H as [|a l Ha Hl IH]; simpl; [constructor|].
  destruct (p a); [|exact IH]. constructor; [|exact IH].
  rewrite Forall_forall in *. intros x Hx. apply filter_In in Hx. apply Ha. tauto.
Qed.

Lemma ForallOrdPairs_perm : forall (A : Type) (R : A -> A -> Prop) (l l' : list A),
  (forall a b, R a b -> R b a) ->
  Permutation l l' -> ForallOrdPairs R l -> ForallOrdPairs R l'.
Proof.
  intros A R l l' Hsym P. induction P as [|x l l' P IH|x y l|l l' l'' P1 IH1 P2 IH2]; intro H.
  - exact H.
  - inversion H as [|a l0 Hx Hl]; subst. constructor; [|apply IH; exact Hl].
    rewrite Forall_forall in *. intros z Hz. apply Hx.
    apply (Permutation_in _ (Permutation_sym P)). exact Hz.
  - inversion H as [|a l0 Hy Hl]; subst. inversion Hl as [|a l0 Hx Hl']; subst.
    inversion Hy as [|a l0 Hyx Hy']; subst.
    constructor; [|constructor; assumption].
    constructor; [apply Hsym; exact Hyx | exact Hx].
  - apply IH2, IH1, H.
Qed.

Lemma py_dedup_distinct : forall l, distinct_members (py_dedup l).
Proof.
  unfold distinct_members. induction l as [|x l IH]; simpl; constructor.
  - rewrite Forall_forall. intros y Hy. apply filter_In in Hy.
    destruct Hy as [_ Hy]. destruct (py_eqb x y); [discriminate Hy | reflexivity].
  - apply ForallOrdPairs_filter. exact IH.
Qed.

Lemma py_dedup_In : forall l v, In v (py_dedup l) -> In v l.
Proof.
  induction l as [|x l IH]; intros v H; simpl in *; [exact H|].
  destruct H as [->|H]; [left; reflexivity|].
  apply filter_In in H. right. apply IH. tauto.
Qed.

Lemma py_dedup_keeps_strings : forall l s, In (PStr s) l -> In (PStr s) (py_dedup l).
Proof.
  induction l as [|x l IH]; intros s H; simpl in *; [exact H|].
  destruct H as [->|H]; [left; reflexivity|].
  destruct (py_eqb x (PStr s)) eqn:T.
  - left. destruct x; simpl in T; try discriminate T.
    apply String.eqb_eq in T. congruence.
  - right. apply filter_In. split; [apply IH; exact H|]. rewrite T. reflexivity.
Qed.

Section AlertMembers.
Context {PY : Python} {SH : Shapely}.

Lemma collect_field_inv : forall k props vs,
  collect_field k props = Ok vs ->
  (forall v, In v vs -> truthy v = true /\ exists p, In p props /\ py_get p k = Ok v) /\
  (forall p v, In p props -> py_get p k = Ok v -> truthy v = true -> In v vs).
Proof.
  intros k. induction props as [|p ps IH]; intros vs H; simpl in H.
  - injection H as <-. split; [intros v []|intros p v []].
  - destruct (py_get p k) as [v0|] eqn:G; [|discriminate]. cbn [bind] in H.
    destruct (truthy v0) eqn:T.
    + destruct (hashable v0); [|discriminate].
      destruct (collect_field k ps) as [rest|] eqn:C; [|discriminate]. cbn [bind] in H.
      injection H as <-. destruct (IH rest eq_refl) as [I1 I2]. split.
      * intros v [<-|Hv].
        -- split; [exact T|]. exists p. split; [left; reflexivity | exact G].
        -- destruct (I1 v Hv) as [Tv [p' [Hp' Gp']]]. split; [exact Tv|].
           exists p'. split; [right; exact Hp' | exact Gp'].
      * intros p' v [<-|Hp'] Gv Tv.
        -- left. congruence.
        -- right. apply (I2 p' v Hp' Gv Tv).
    + destruct (IH vs H) as [I1 I2]. split.
      * intros v Hv. destruct (I1 v Hv) as [Tv [p' [Hp' Gp']]]. split; [exact Tv|].
        exists p'. split; [right; exact Hp' | exact Gp'].
      * intros p' v [<-|Hp'] Gv Tv.
        -- congruence.
        -- apply (I2 p' v Hp' Gv Tv).
Qed.

Lemma union_features_inv : forall fs u,
  _union_features (PList fs) = Ok u -> u <> PNone ->
  exists parsed events severities,
    mapM parse_feature fs = Ok parsed /\
    collect_field "event" (map snd (somes parsed)) = Ok events /\
    collect_field "severity" (map snd (somes parsed)) = Ok severities /\
    u = PDict [("type", PStr "Feature");
               ("geometry", mapping (unary_union (map fst (somes parsed))));
               ("properties",
                 PDict [("source", PStr "NWS Alerts");
                        ("merged_count",
                          PInt (Z.of_nat (List.length (map fst (somes parsed)))));
                        ("events", PList (list_of_set events));
                        ("severities", PList (list_of_set severities))])].
Proof.
  intros fs u H Hu. unfold _union_features in H. cbn [py_iter bind] in H.
  destruct (mapM parse_feature fs) as [parsed|] eqn:M; [|discriminate]. cbn [bind] in H.
  destruct (map fst (somes parsed)) as [|g gs] eqn:Gs.
  - injection H as <-. congruence.
  - destruct (collect_field "event" (map snd (somes parsed))) as [events|] eqn:Ev;
      [|discriminate].
    cbn [bind] in H.
    destruct (collect_field "severity" (map snd (somes parsed))) as [severities|] eqn:Sv;
      [|discriminate].
    cbn [bind] in H. injection H as <-.
    exists parsed, events, severities. rewrite Gs.
    repeat split; try assumption; reflexivity.
Qed.

Lemma list_of_set_lists_each_once : forall k fs parsed vs,
  set_order_permutes PY ->
  mapM parse_feature fs = Ok parsed ->
  collect_field k (map snd (somes parsed)) = Ok vs ->
  lists_each_once k fs (list_of_set vs).
Proof.
  intros k fs parsed vs Hperm M C.
  destruct (collect_field_inv _ _ _ C) as [I1 I2].
  unfold list_of_set. repeat split.
  - unfold distinct_members.
    apply (ForallOrdPairs_perm _ _ (py_dedup vs)).
    + intros a b Hab. rewrite py_eqb_sym. exact Hab.
    + apply Permutation_sym. apply Hperm.
    + apply py_dedup_distinct.
  - apply I1. apply py_dedup_In. apply (Permutation_in _ (Hperm _)). exact H.
  - apply (Permutation_in _ (Hperm _)) in H. apply py_dedup_In in H.
    destruct (I1 v H) as [_ [p [Hp G]]].
    apply in_map_iff in Hp. destruct Hp as [[g p'] [Heq Hgp]]. simpl in Heq. subst p'.
    destruct (somes_In_mapM _ _ _ _ _ _ M Hgp) as [f [Hf Pf]].
    exists f, g, p. repeat split; assumption.
  - intros f g p s Hf Pf G Hs.
    apply (Permutation_in _ (Permutation_sym (Hperm _))).
    apply py_dedup_keeps_strings.
    apply (I2 p).
    + destruct (mapM_ok_In _ _ _ _ _ _ M Hf) as [b [Hb Hin]].
      rewrite Pf in Hb. injection Hb as <-.
      apply in_map_iff. exists (g, p). split; [reflexivity|]. apply in_somes. exact Hin.
    + exact G.
    + simpl. destruct (String.eqb s "") eqn:T; [|reflexivity].
      apply String.eqb_eq in T. contradiction.
Qed.

(** X9.  In a footprint [_union_features] builds (sets iterating over their
    members in some order), [events] and [severities] list each value once:
    no two entries are equal, every entry is a truthy value found under
    [event] (resp. [severity]) in the properties of a feature whose geometry
    parsed, and every non-empty string found there is listed. *)
Theorem alert_events_are_listed_once : forall (fs : list pyval) (u : pyval),
  set_order_permutes PY ->
  _union_features (PList fs) = Ok u ->
  u <> PNone ->
  exists events severities,
    footprint_members "events" u events /\
    footprint_members "severities" u severities /\
    lists_each_once "event" fs events /\
    lists_each_once "severity" fs severities.
Proof.
  intros fs u Hperm H Hu.
  destruct (union_features_inv _ _ H Hu) as [parsed [events [severities [M [Ev [Sv ->]]]]]].
  exists (list_of_set events), (list_of_set severities).
  split; [do 2 eexists; repeat split; reflexivity|].
  split; [do 2 eexists; repeat split; reflexivity|].
  split; eapply list_of_set_lists_each_once; eassumption.
Qed.

End AlertMembers.

Lemma ref_python_set_order_permutes : set_order_permutes Ref.python.
Proof. intro l. apply Permutation_refl. Qed.

Lemma build_params_sends_status_limit_and_valid_filters_witness :
  lookup "area" (_build_params (Some "Flood Warning"%string) (Some "fl"%string))
    = Some (PStr "FL") /\
  lookup "area" (_build_params None (Some "Florida"%string)) = None /\
  lookup "limit" (_build_params None (Some "Florida"%string)) = Some (PInt 200).
Proof.
  destruct (build_params_sends_status_limit_and_valid_filters
              (Some "Flood Warning"%string) (Some "fl"%string)) as [_ [_ [_ [Ha _]]]].
  destruct (build_params_sends_status_limit_and_valid_filters
              None (Some "Florida"%string)) as [_ [Hl [_ [Hb _]]]].
  split; [exact Ha|]. split; [exact Hb | exact Hl].
Defined.

Lemma cycle_area_filter_reaches_the_request_witness :
  alerts_area AlertScenarios.settings_fl = Some "FL"%string /\
  lookup "area" (_build_params None (alerts_area AlertScenarios.settings_fl))
    = Some (PStr "FL").
Proof.
  apply (proj1 (cycle_area_filter_reaches_the_request AlertScenarios.settings_fl eq_refl)).
  reflexivity.
Defined.

Lemma fetch_active_alerts_counts_and_caps_witness :
  exists r,
    fetch_active_alerts Examples.env_quiet None None = Ok r /\
    al_count r = 1%nat /\
    (al_feature_union r = PNone \/ built_footprint "merged_count" (al_feature_union r)).
Proof.
  eexists. split; [vm_compute; reflexivity|].
  edestruct (@fetch_active_alerts_counts_and_caps Ref.python Ref.shapely
               Examples.env_quiet None None) as [_ H].
  - vm_compute. reflexivity.
  - edestruct H as [Hc [_ Hu]].
    + reflexivity.
    + vm_compute. reflexivity.
    + split; [exact Hc | exact Hu].
Defined.

Lemma alert_events_are_listed_once_witness :
  exists u events severities,
    _union_features (PList AlertScenarios.three_alerts) = Ok u /\
    footprint_members "events" u events /\
    footprint_members "severities" u severities /\
    lists_each_once "event" AlertScenarios.three_alerts events /\
    lists_each_once "severity" AlertScenarios.three_alerts severities.
Proof.
  eexists.
  edestruct (@alert_events_are_listed_once Ref.python Ref.shapely
               AlertScenarios.three_alerts) as [events [severities H]].
  - exact ref_python_set_order_permutes.
  - vm_compute. reflexivity.
  - discriminate.
  - exists events, severities. split; [reflexivity | exact H].
Defined.

(** ** [app/tools/portfolio_tool.py]: bounds, empty exposure, nested footprints *)

Lemma flt_fle : forall a b, flt a b = true -> fle a b = true.
Proof.
  intros [x| | |] [y| | |] H; simpl in *; try discriminate; try reflexivity.
  apply negb_true_iff in H. apply Qle_bool_false in H.
  apply Qle_bool_iff. apply Qlt_le_weak. exact H.
Qed.

Lemma flt_false_fle : forall a b,
  is_nan a = false -> is_nan b = false -> flt b a = false -> fle a b = true.
Proof.
  intros [x| | |] [y| | |] Ha Hb H; simpl in *; try discriminate; try reflexivity.
  apply negb_false_iff in H. exact H.
Qed.

Lemma fmin_spec : forall a b,
  is_nan a = false -> is_nan b = false ->
  (fmin a b = a \/ fmin a b = b) /\
  fle (fmin a b) a = true /\ fle (fmin a b) b = true.
Proof.
  intros a b Ha Hb. unfold fmin. destruct (flt b a) eqn:T.
  - split; [right; reflexivity|]. split; [apply flt_fle; exact T | apply fle_refl; exact Hb].
  - split; [left; reflexivity|].
    split; [apply fle_refl; exact Ha | apply flt_false_fle; assumption].
Qed.

Lemma fmax_spec : forall a b,
  is_nan a = false -> is_nan b = false ->
  (fmax a b = a \/ fmax a b = b) /\
  fle a (fmax a b) = true /\ fle b (fmax a b) = true.
Proof.
  intros a b Ha Hb. unfold fmax, fgt. destruct (flt a b) eqn:T.
  - split; [right; reflexivity|]. split; [apply flt_fle; exact T | apply fle_refl; exact Hb].
  - split; [left; reflexivity|].
    split; [apply fle_refl; exact Ha | apply flt_false_fle; assumption].
Qed.

Lemma py_min_spec : forall (l : list pyfloat) (x : pyfloat),
  is_nan x = false -> (forall y, In y l -> is_nan y = false) ->
  In (py_min x l) (x :: l) /\ forall y, In y (x :: l) -> fle (py_min x l) y = true.
Proof.
  unfold py_min. induction l as [|a l IH]; intros x Hx Hl; simpl.
  - split; [left; reflexivity|]. intros y [<-|[]]. apply fle_refl. exact Hx.
  - assert (Ha : is_nan a = false) by (apply Hl; left; reflexivity).
    destruct (fmin_spec x a Hx Ha) as [Hm [Hmx Hma]].
    assert (Hn : is_nan (fmin x a) = false) by (destruct Hm as [-> | ->]; assumption).
    destruct (IH (fmin x a) Hn (fun y Hy => Hl y (or_intror Hy))) as [I1 I2].
    split.
    + destruct I1 as [I1|I1]; [|right; right; exact I1].
      rewrite <- I1. destruct Hm as [-> | ->]; [left | right; left]; reflexivity.
    + intros y [<-|[<-|Hy]].
      * apply (fle_trans _ (fmin x a)); [apply I2; left; reflexivity | exact Hmx].
      * apply (fle_trans _ (fmin x a)); [apply I2; left; reflexivity | exact Hma].
      * apply I2. right. exact Hy.
Qed.

Lemma py_max_spec : forall (l : list pyfloat) (x : pyfloat),
  is_nan x = false -> (forall y, In y l -> is_nan y = false) ->
  In (py_max x l) (x :: l) /\ forall y, In y (x :: l) -> fle y (py_max x l) = true.
Proof.
  unfold py_max. induction l as [|a l IH]; intros x Hx Hl; simpl.
  - split; [left; reflexivity|]. intros y [<-|[]]. apply fle_refl. exact Hx.
  - assert (Ha : is_nan a = false) by (apply Hl; left; reflexivity).
    destruct (fmax_spec x a Hx Ha) as [Hm [Hmx Hma]].
    assert (Hn : is_nan (fmax x a) = false) by (destruct Hm as [-> | ->]; assumption).
    destruct (IH (fmax x a) Hn (fun y Hy => Hl y (or_intror Hy))) as [I1 I2].
    split.
    + destruct I1 as [I1|I1]; [|right; right; exact I1].
      rewrite <- I1. destruct Hm as [-> | ->]; [left | right; left]; reflexivity.
    + intros y [<-|[<-|Hy]].
      * apply (fle_trans _ (fmax x a)); [exact Hmx | apply I2; left; reflexivity].
      * apply (fle_trans _ (fmax x a)); [exact Hma | apply I2; left; reflexivity].
      * apply I2. right. exact Hy.
Qed.

Lemma filter_none : forall (A : Type) (p : A -> bool) (l : list A),
  (forall a, In a l -> p a = false) -> filter p l = [].
Proof.
  intros A p. induction l as [|a l IH]; intro H; simpl; [reflexivity|].
  rewrite (H a (or_introl eq_refl)). apply IH. intros b Hb. apply H. right. exact Hb.
Qed.

Lemma filter_nested : forall (A : Type) (p q : A -> bool) (l : list A),
  (forall a, p a = true -> q a = true) -> filter p l = filter p (filter q l).
Proof.
  intros A p q. induction l as [|a l IH]; intro H; simpl; [reflexivity|].
  destruct (p a) eqn:Pa.
  - rewrite (H a Pa). simpl. rewrite Pa. f_equal. apply IH. exact H.
  - destruct (q a); simpl; [rewrite Pa|]; apply IH; exact H.
Qed.

Lemma filter_length_le' : forall (A : Type) (p : A -> bool) (l : list A),
  (List.length (filter p l) <= List.length l)%nat.
Proof.
  intros A p. induction l as [|a l IH]; simpl; [lia|]. destruct (p a); simpl; lia.
Qed.

Section ExposureEdges.
Context {PY : Python} {SH : Shapely} {PD : Pandas}.

(** The summary the computation returns on a frame with a row to score,
    field by field. *)
Lemma compute_portfolio_exposure_summary : forall E p cone df poly,
  read_csv E p = Ok df ->
  missing_columns df = [] ->
  cone_geometry cone = Ok poly ->
  scored_assets df <> [] ->
  exists ratio,
    (if fgt (series_sum (map asset_tiv (scored_assets df))) (FNum 0)
     then fdiv64 (series_sum (map asset_tiv (filter (exposed poly) (scored_assets df))))
                 (series_sum (map asset_tiv (scored_assets df)))
     else Ok (FNum 0.0)) = Ok ratio /\
    compute_portfolio_exposure E p cone =
      Ok {| computed_at := (utcnow_naive_iso E ++ "Z")%string;
            exposure :=
              {| portfolio_path := p;
                 asset_count_total := List.length (scored_assets df);
                 asset_count_exposed :=
                   List.length (filter (exposed poly) (scored_assets df));
                 total_insured_value_total := series_sum (map asset_tiv (scored_assets df));
                 total_insured_value_exposed :=
                   series_sum (map asset_tiv (filter (exposed poly) (scored_assets df)));
                 exposure_ratio := ratio;
                 bounds :=
                   match filter (exposed poly) (scored_assets df) with
                   | [] => None
                   | _ :: _ =>
                       _compute_bounds
                         (map asset_lat (filter (exposed poly) (scored_assets df)))
                         (map asset_lon (filter (exposed poly) (scored_assets df)))
                   end;
                 top_exposed :=
                   firstn 10 (sort_values_desc asset_tiv
                                (filter (exposed poly) (scored_assets df))) |} |}.
Proof.
  intros E p cone df poly Hread Hcols Hcone Hrows.
  unfold compute_portfolio_exposure. rewrite Hread. cbn [bind].
  rewrite Hcols. rewrite Hcone. cbn [bind].
  destruct (scored_assets df) as [|a0 l0] eqn:S; [congruence|].
  destruct (ratio_defined
              (series_sum (map asset_tiv (filter (exposed poly) (a0 :: l0))))
              (series_sum (map asset_tiv (a0 :: l0)))) as [r Hr].
  exists r. split; [exact Hr|]. rewrite Hr. reflexivity.
Qed.

(** X10.  Whenever the exposure computation returns (it does on a frame with
    a row to score), [bounds] is absent exactly when no asset is exposed;
    otherwise it is the tight bounding box (min longitude, min latitude, max
    longitude, max latitude) of the exposed assets: every exposed asset lies
    in it, and each of its four sides passes through an exposed asset. *)
Theorem exposure_bounds_enclose_the_exposed_assets :
  forall (E : Env) (p : string) (cone : pyval) (df : DataFrame) (poly : geom),
  read_csv E p = Ok df ->
  missing_columns df = [] ->
  cone_geometry cone = Ok poly ->
  scored_assets df <> [] ->
  exists out,
    compute_portfolio_exposure E p cone = Ok out /\
    (bounds (exposure out) = None <-> asset_count_exposed (exposure out) = 0%nat) /\
    forall minx miny maxx maxy,
      bounds (exposure out) = Some (minx, miny, maxx, maxy) ->
      (forall a, In a (filter (exposed poly) (scored_assets df)) ->
         in_box minx miny maxx maxy (asset_lon a) (asset_lat a)) /\
      (exists a, In a (filter (exposed poly) (scored_assets df)) /\ asset_lon a = minx) /\
      (exists a, In a (filter (exposed poly) (scored_assets df)) /\ asset_lat a = miny) /\
      (exists a, In a (filter (exposed poly) (scored_assets df)) /\ asset_lon a = maxx) /\
      (exists a, In a (filter (exposed poly) (scored_assets df)) /\ asset_lat a = maxy).
Proof.
  intros E p cone df poly Hread Hcols Hcone Hrows.
  destruct (compute_portfolio_exposure_summary E p cone df poly Hread Hcols Hcone Hrows)
    as [ratio [_ Hout]].
  eexists. split; [exact Hout|]. cbn [exposure bounds asset_count_exposed].
  assert (Hnum : forall a, In a (filter (exposed poly) (scored_assets df)) ->
            is_nan (asset_lat a) = false /\ is_nan (asset_lon a) = false).
  { intros a Ha. apply filter_In in Ha. apply (scored_assets_numeric df). tauto. }
  destruct (filter (exposed poly) (scored_assets df)) as [|a0 l] eqn:Hf.
  - split; [split; reflexivity|]. intros minx miny maxx maxy H. discriminate H.
  - split; [split; intro H; discriminate H|].
    intros minx miny maxx maxy H. cbn [map _compute_bounds] in H.
    injection H as <- <- <- <-.
    assert (Hlat : forall y, In y (map asset_lat l) -> is_nan y = false).
    { intros y Hy. apply in_map_iff in Hy. destruct Hy as [a [<- Ha]].
      apply Hnum. right. exact Ha. }
    assert (Hlon : forall y, In y (map asset_lon l) -> is_nan y = false).
    { intros y Hy. apply in_map_iff in Hy. destruct Hy as [a [<- Ha]].
      apply Hnum. right. exact Ha. }
    destruct (Hnum a0 (or_introl eq_refl)) as [Hlat0 Hlon0].
    destruct (py_min_spec _ _ Hlon0 Hlon) as [MinLonIn MinLon].
    destruct (py_min_spec _ _ Hlat0 Hlat) as [MinLatIn MinLat].
    destruct (py_max_spec _ _ Hlon0 Hlon) as [MaxLonIn MaxLon].
    destruct (py_max_spec _ _ Hlat0 Hlat) as [MaxLatIn MaxLat].
    change (asset_lon a0 :: map asset_lon l) with (map asset_lon (a0 :: l)) in *.
    change (asset_lat a0 :: map asset_lat l) with (map asset_lat (a0 :: l)) in *.
    split; [|repeat split].
    + intros a Ha. unfold in_box. repeat split.
      * apply MinLon. apply in_map. exact Ha.
      * apply MaxLon. apply in_map. exact Ha.
      * apply MinLat. apply in_map. exact Ha.
      * apply MaxLat. apply in_map. exact Ha.
    + apply in_map_iff in MinLonIn. destruct MinLonIn as [a [Ea Ha]]. exists a. tauto.
    + apply in_map_iff in MinLatIn. destruct MinLatIn as [a [Ea Ha]]. exists a. tauto.
    + apply in_map_iff in MaxLonIn. destruct MaxLonIn as [a [Ea Ha]]. exists a. tauto.
    + apply in_map_iff in MaxLatIn. destruct MaxLatIn as [a [Ea Ha]]. exists a. tauto.
Qed.

(** X11.  On a frame with a row to score, a footprint that covers none of
    the scored assets makes the computation return, not raise: no exposed
    asset, the exposed value that of the empty column (0.0, as pandas sums
    it), ratio 0 whatever the total, no bounds and an empty top list
    ([sort_values] returning the rows it is given).  On a frame with no row
    to score the computation raises [KeyError] instead, whatever the
    footprint covers. *)
Theorem footprint_covering_no_asset_gives_the_zero_summary :
  forall (E : Env) (p : string) (cone : pyval) (df : DataFrame) (poly : geom),
  sort_contract PD ->
  series_sum [] = FNum 0 ->
  read_csv E p = Ok df ->
  missing_columns df = [] ->
  cone_geometry cone = Ok poly ->
  (forall a, In a (scored_assets df) -> exposed poly a = false) ->
  (scored_assets df <> [] ->
   exists out,
     compute_portfolio_exposure E p cone = Ok out /\
     asset_count_exposed (exposure out) = 0%nat /\
     total_insured_value_exposed (exposure out) = FNum 0 /\
     feq (exposure_ratio (exposure out)) (FNum 0) = true /\
     bounds (exposure out) = None /\
     top_exposed (exposure out) = []) /\
  (scored_assets df = [] ->
   compute_portfolio_exposure E p cone = Raise (Exn KeyError "TotalInsuredValue")).
Proof.
  intros E p cone df poly Hsort Hzero Hread Hcols Hcone Hnone.
  split; [|apply (compute_portfolio_exposure_no_row E p cone df poly Hread Hcols Hcone)].
  intro Hrows.
  destruct (compute_portfolio_exposure_summary E p cone df poly Hread Hcols Hcone Hrows)
    as [ratio [Hratio Hout]].
  eexists. split; [exact Hout|].
  cbn [exposure bounds asset_count_exposed total_insured_value_exposed exposure_ratio
       top_exposed].
  rewrite (filter_none _ _ _ Hnone) in *.
  assert (Hs : sort_values_desc asset_tiv (@nil asset) = []).
  { destruct (Hsort asset asset_tiv []) as [P _]; [intros a []|].
    apply Permutation_sym in P. apply Permutation_nil in P. exact P. }
  rewrite Hs. cbn [map] in *. rewrite Hzero in *. repeat split.
  destruct (fgt (series_sum (map asset_tiv (scored_assets df))) (FNum 0)) eqn:G.
  - unfold fdiv64 in Hratio.
    destruct (series_sum (map asset_tiv (scored_assets df))) as [t| | |];
      simpl in G; try discriminate G.
    + unfold fdiv in Hratio. destruct (Qeq_bool t 0); [discriminate Hratio|].
      cbn [bind] in Hratio. injection Hratio as <-. reflexivity.
    + simpl in Hratio. injection Hratio as <-. reflexivity.
  - injection Hratio as <-. reflexivity.
Qed.

(** X12.  Of two footprints on the same portfolio (with a row to score), the
    first covered by the second: both computations return, the totals are the
    same and the first exposes no more assets than the second; when moreover
    every scored asset has a finite, non-negative insured value and the two
    exposed sums come out without rounding error, the exposed value of the
    first is not the larger. *)
Theorem larger_footprint_exposes_no_less :
  forall (E : Env) (p : string) (cone1 cone2 : pyval) (df : DataFrame) (poly1 poly2 : geom),
  read_csv E p = Ok df ->
  missing_columns df = [] ->
  cone_geometry cone1 = Ok poly1 ->
  cone_geometry cone2 = Ok poly2 ->
  scored_assets df <> [] ->
  covered_by poly1 poly2 ->
  exists out1 out2,
    compute_portfolio_exposure E p cone1 = Ok out1 /\
    compute_portfolio_exposure E p cone2 = Ok out2 /\
    asset_count_total (exposure out1) = asset_count_total (exposure out2) /\
    total_insured_value_total (exposure out1) = total_insured_value_total (exposure out2) /\
    (asset_count_exposed (exposure out1) <= asset_count_exposed (exposure out2))%nat /\
    (Forall nonneg_value (scored_assets df) ->
     summed_exactly (filter (exposed poly1) (scored_assets df)) ->
     summed_exactly (filter (exposed poly2) (scored_assets df)) ->
       fle (total_insured_value_exposed (exposure out1))
           (total_insured_value_exposed (exposure out2)) = true).
Proof.
  intros E p cone1 cone2 df poly1 poly2 Hread Hcols Hc1 Hc2 Hrows Hcov.
  destruct (compute_portfolio_exposure_summary E p cone1 df poly1 Hread Hcols Hc1 Hrows)
    as [r1 [Hr1 Hout1]].
  destruct (compute_portfolio_exposure_summary E p cone2 df poly2 Hread Hcols Hc2 Hrows)
    as [r2 [Hr2 Hout2]].
  do 2 eexists. split; [exact Hout1|]. split; [exact Hout2|].
  cbn [exposure asset_count_total asset_count_exposed total_insured_value_total
       total_insured_value_exposed exposure_ratio].
  assert (Hnest : filter (exposed poly1) (scored_assets df)
                  = filter (exposed poly1) (filter (exposed poly2) (scored_assets df))).
  { apply filter_nested. intros a Ha. apply Hcov. exact Ha. }
  split; [reflexivity|]. split; [reflexivity|]. split.
  - rewrite Hnest. apply filter_length_le'.
  - intros Hnn [q1 [H1 Hq1]] [q2 [H2 Hq2]].
    assert (Hnn2 : Forall nonneg_value (filter (exposed poly2) (scored_assets df))).
    { rewrite Forall_forall in *. intros a Ha. apply Hnn. apply filter_In in Ha. tauto. }
    destruct (exact_total_filter_le (exposed poly1) _ Hnn2) as [_ Hle].
    rewrite <- Hnest in Hle. rewrite <- Hq1, <- Hq2 in Hle.
    rewrite H1, H2. simpl. apply Qle_bool_iff. exact Hle.
Qed.

(** X13.  With a portfolio that loads with its four columns: a footprint
    given as JSON text is decoded first and then treated as the decoded value
    (one that is not itself a string); text [json.loads] rejects raises the
    decoder's error; a feature object without the [geometry] key raises
    [KeyError('geometry')]; and a geometry [shape] rejects raises shapely's
    error. *)
Theorem footprint_text_is_decoded_first :
  forall (E : Env) (p : string) (df : DataFrame),
  read_csv E p = Ok df ->
  missing_columns df = [] ->
  (forall s v, json_loads s = Ok v -> (forall t, v <> PStr t) ->
     compute_portfolio_exposure E p (PStr s) = compute_portfolio_exposure E p v) /\
  (forall s e, json_loads s = Raise e ->
     compute_portfolio_exposure E p (PStr s) = Raise e) /\
  (forall d, lookup "geometry" d = None ->
     compute_portfolio_exposure E p (PDict d) = Raise (Exn KeyError "geometry")) /\
  (forall d g e, lookup "geometry" d = Some g -> shape g = Raise e ->
     compute_portfolio_exposure E p (PDict d) = Raise e).
Proof.
  intros E p df Hread Hcols. unfold compute_portfolio_exposure. rewrite Hread. cbn [bind].
  rewrite Hcols. split; [|split; [|split]].
  - intros s v Hs Hv.
    assert (Hg : cone_geometry (PStr s) = cone_geometry v).
    { unfold cone_geometry. rewrite Hs. destruct v; try reflexivity.
      exfalso. apply (Hv s0). reflexivity. }
    rewrite Hg. reflexivity.
  - intros s e Hs. unfold cone_geometry. rewrite Hs. reflexivity.
  - intros d Hd. unfold cone_geometry. cbn [bind py_getitem]. rewrite Hd. reflexivity.
  - intros d g e Hd Hs. unfold cone_geometry. cbn [bind py_getitem]. rewrite Hd. cbn [bind].
    rewrite Hs. reflexivity.
Qed.

End ExposureEdges.

Lemma exposure_bounds_enclose_the_exposed_assets_witness :
  exists out,
    compute_portfolio_exposure (Examples.env_with (Ok Examples.portfolio_scenario))
      "portfolio.csv" (Examples.rect_feature (-100) 20 (-70) 35) = Ok out /\
    (bounds (exposure out) = None <-> asset_count_exposed (exposure out) = 0%nat) /\
    bounds (exposure out) = Some (FNum (-90), FNum 25.5, FNum (-80.5), FNum 30).
Proof.
  edestruct (@exposure_bounds_enclose_the_exposed_assets Ref.python Ref.shapely Ref.pandas
               (Examples.env_with (Ok Examples.portfolio_scenario)) "portfolio.csv"%string
               (Examples.rect_feature (-100) 20 (-70) 35))
    as [out [Hout [Hiff _]]].
  - reflexivity.
  - reflexivity.
  - vm_compute. reflexivity.
  - vm_compute. discriminate.
  - exists out. split; [exact Hout|]. split; [exact Hiff|].
    vm_compute in Hout. injection Hout as <-. reflexivity.
Defined.

Lemma footprint_covering_no_asset_gives_the_zero_summary_witness :
  (exists out,
     compute_portfolio_exposure (Examples.env_with (Ok Examples.portfolio_scenario))
       "portfolio.csv" (Examples.rect_feature 0 0 1 1) = Ok out /\
     asset_count_total (exposure out) = 3%nat /\
     asset_count_exposed (exposure out) = 0%nat /\
     total_insured_value_exposed (exposure out) = FNum 0 /\
     bounds (exposure out) = None /\
     top_exposed (exposure out) = []) /\
  compute_portfolio_exposure (Examples.env_with (Ok (Examples.portfolio [])))
    "portfolio.csv" (Examples.rect_feature 0 0 1 1)
  = Raise (Exn KeyError "TotalInsuredValue").
Proof.
  split.
  - edestruct (@footprint_covering_no_asset_gives_the_zero_summary
                 Ref.python Ref.shapely Ref.pandas
                 (Examples.env_with (Ok Examples.portfolio_scenario)) "portfolio.csv"%string
                 (Examples.rect_feature 0 0 1 1))
      as [[out [Hout [Hc [Hv [_ [Hb Ht]]]]]] _].
    + exact ref_pandas_sort_contract.
    + reflexivity.
    + reflexivity.
    + reflexivity.
    + vm_compute. reflexivity.
    + intros a Ha. vm_compute in Ha.
      destruct Ha as [<-|[<-|[<-|[]]]]; vm_compute; reflexivity.
    + vm_compute. discriminate.
    + exists out. split; [exact Hout|]. split; [|tauto].
      vm_compute in Hout. injection Hout as <-. reflexivity.
  - edestruct (@footprint_covering_no_asset_gives_the_zero_summary
                 Ref.python Ref.shapely Ref.pandas
                 (Examples.env_with (Ok (Examples.portfolio []))) "portfolio.csv"%string
                 (Examples.rect_feature 0 0 1 1))
      as [_ Hraise].
    + exact ref_pandas_sort_contract.
    + reflexivity.
    + reflexivity.
    + reflexivity.
    + vm_compute. reflexivity.
    + intros a [].
    + apply Hraise. reflexivity.
Defined.

Lemma larger_footprint_exposes_no_less_witness :
  exists out1 out2,
    compute_portfolio_exposure (Examples.env_with (Ok Examples.portfolio_scenario))
      "portfolio.csv" (Examples.rect_feature (-81) 25 (-80) 26) = Ok out1 /\
    compute_portfolio_exposure (Examples.env_with (Ok Examples.portfolio_scenario))
      "portfolio.csv" (Examples.rect_feature (-100) 20 (-70) 35) = Ok out2 /\
    asset_count_exposed (exposure out1) = 1%nat /\
    asset_count_exposed (exposure out2) = 2%nat /\
    fle (total_insured_value_exposed (exposure out1))
        (total_insured_value_exposed (exposure out2)) = true.
Proof.
  edestruct (@larger_footprint_exposes_no_less Ref.python Ref.shapely Ref.pandas
               (Examples.env_with (Ok Examples.portfolio_scenario)) "portfolio.csv"%string
               (Examples.rect_feature (-81) 25 (-80) 26)
               (Examples.rect_feature (-100) 20 (-70) 35))
    as [out1 [out2 [H1 [H2 [_ [_ [_ Hv]]]]]]].
  - reflexivity.
  - reflexivity.
  - vm_compute. reflexivity.
  - vm_compute. reflexivity.
  - vm_compute. discriminate.
  - intros x y. destruct x as [x| | |]; destruct y as [y| | |]; try discriminate.
    simpl. rewrite !orb_false_r, !andb_true_iff, !Qle_bool_iff.
    intros [[[A B] C] D]. repeat split; lra.
  - exists out1, out2. split; [exact H1|]. split; [exact H2|].
    split; [vm_compute in H1; injection H1 as <-; reflexivity|].
    split; [vm_compute in H2; injection H2 as <-; reflexivity|].
    apply Hv.
    + repeat constructor; eexists; (split; [reflexivity | discriminate]).
    + eexists. split; vm_compute; reflexivity.
    + eexists. split; vm_compute; reflexivity.
Defined.

Lemma footprint_text_is_decoded_first_witness :
  compute_portfolio_exposure (Examples.env_with (Ok Examples.portfolio_scenario))
    "portfolio.csv" (PStr "{not json")
  = Raise (Exn (ExternalError "JSONDecodeError") "Expecting value") /\
  compute_portfolio_exposure (Examples.env_with (Ok Examples.portfolio_scenario))
    "portfolio.csv" (PDict [("type", PStr "Feature")])
  = Raise (Exn KeyError "geometry").
Proof.
  destruct (@footprint_text_is_decoded_first Ref.python Ref.shapely Ref.pandas
              (Examples.env_with (Ok Examples.portfolio_scenario)) "portfolio.csv"%string
              Examples.portfolio_scenario eq_refl eq_refl) as [_ [Hbad [Hkey _]]].
  split; [apply Hbad; reflexivity | apply Hkey; reflexivity].
Defined.

(** ** [app/tools/news_tool.py]: failures, the article list, the page summary *)



Lemma fetch_live_news_request : forall S E terms region page_size key,
  newsapi_key S = Some key -> key <> ""%string ->
  fetch_live_news S E terms region page_size =
    (data <- http_get_json E NEWSAPI_ENDPOINT
               (news_params (query_string terms region) page_size key) ;;
     st <- py_get data "status" ;;
     if negb (py_eq_str st "ok") then raise RuntimeError "NewsAPI error" else
     arts <- py_get_default data "articles" (PList []) ;;
     items <- py_iter arts ;;
     articles <- mapM (article_of E) items ;;
     Ok {| news_queried_at := utcnow_iso E;
           news_query := query_string terms region;
           news_count := List.length articles;
           news_articles := articles |}).
Proof.
  intros S E terms region page_size key Hk Hne. unfold fetch_live_news. rewrite Hk.
  apply String.eqb_neq in Hne. rewrite Hne.
  unfold query_string, news_params.
  destruct region as [r|]; [destruct (String.eqb r "")|]; reflexivity.
Qed.

(** X14.  What makes [fetch_live_news] raise: without a configured key
    (unset or empty) it raises [RuntimeError] whatever the environment
    answers; an HTTP error of the request is passed on as it is; and a
    payload whose [status] is not the string [ok] raises [RuntimeError]. *)
Theorem fetch_live_news_failures :
  forall (S : Settings) (E : Env) (terms : list string) (region : option string)
         (page_size : Z),
  (newsapi_key S = None \/ newsapi_key S = Some ""%string ->
     fetch_live_news S E terms region page_size =
       Raise (Exn RuntimeError "NEWSAPI_KEY not configured in environment")) /\
  (forall key e, newsapi_key S = Some key -> key <> ""%string ->
     http_get_json E NEWSAPI_ENDPOINT
       (news_params (query_string terms region) page_size key) = Raise e ->
     fetch_live_news S E terms region page_size = Raise e) /\
  (forall key dd, newsapi_key S = Some key -> key <> ""%string ->
     http_get_json E NEWSAPI_ENDPOINT
       (news_params (query_string terms region) page_size key) = Ok (PDict dd) ->
     field "status" dd <> PStr "ok" ->
     exists msg, fetch_live_news S E terms region page_size = Raise (Exn RuntimeError msg)).
Proof.
  intros S E terms region page_size. split; [|split].
  - intros [H|H]; unfold fetch_live_news; rewrite H; reflexivity.
  - intros key e Hk Hne Hd. rewrite (fetch_live_news_request _ _ _ _ _ _ Hk Hne).
    rewrite Hd. reflexivity.
  - intros key dd Hk Hne Hd Hst. rewrite (fetch_live_news_request _ _ _ _ _ _ Hk Hne).
    rewrite Hd. cbn [bind]. rewrite py_get_dict. cbn [bind].
    destruct (py_eq_str (field "status" dd) "ok") eqn:T.
    + exfalso. apply Hst. destruct (field "status" dd); simpl in T; try discriminate T.
      apply String.eqb_eq in T. congruence.
    + eexists. reflexivity.
Qed.

Lemma article_of_dict : forall E d,
  article_source_ok d ->
  exists a,
    article_of E (PDict d) = Ok a /\
    a_url a = field "url" d /\
    a_title a = field "title" d /\
    a_publishedAt a = field "publishedAt" d /\
    a_parsed a = (if truthy (field "url" d)
                  then _summarize_article_via_newspaper E (field "url" d) else []).
Proof.
  intros E d Hsrc. unfold article_of. rewrite !py_get_dict. cbn [bind].
  assert (Hn : exists name, py_get (py_or (field "source" d) (PDict [])) "name" = Ok name).
  { unfold py_or. destruct Hsrc as [Hs|Hs].
    - rewrite Hs. eexists. reflexivity.
    - destruct (field "source" d); try discriminate Hs.
      destruct (truthy (PDict d0)); eexists; reflexivity. }
  destruct Hn as [name ->]. cbn [bind]. eexists. split; [reflexivity|].
  repeat split.
Qed.

Lemma mapM_article_of : forall E ds,
  Forall article_source_ok ds ->
  exists articles,
    mapM (article_of E) (map PDict ds) = Ok articles /\
    List.length articles = List.length ds /\
    map a_url articles = map (field "url") ds /\
    map a_title articles = map (field "title") ds /\
    map a_publishedAt articles = map (field "publishedAt") ds /\
    (forall a, In a articles ->
       a_parsed a = (if truthy (a_url a)
                     then _summarize_article_via_newspaper E (a_url a) else [])).
Proof.
  intros E. induction ds as [|d ds IH]; intro H.
  - exists []. repeat split. intros a [].
  - inversion H as [|d' ds' Hd Hds]; subst.
    destruct (article_of_dict E d Hd) as [a [Ha [U [T [P Pa]]]]].
    destruct (IH Hds) as [rest [Hr [L [U' [T' [P' Pa']]]]]].
    exists (a :: rest). cbn [map mapM]. rewrite Ha. cbn [bind]. rewrite Hr. cbn [bind].
    split; [reflexivity|]. cbn [List.length map]. rewrite L, U, T, P, U', T', P'.
    repeat split.
    intros a' [<-|Ha']; [rewrite U; exact Pa | apply Pa'; exact Ha'].
Qed.

(** X15.  When NewsAPI answers [ok] with a list of article objects (each
    [source] an object or absent), [fetch_live_news] returns, whatever
    happens to the article pages: [count] is the number of entries received,
    the articles come in the order received with their [url], [title] and
    [publishedAt] unchanged, an entry without link carries the empty parse,
    and the query sent is the terms joined by blanks followed by the region
    hint. *)
Theorem fetch_live_news_keeps_every_article :
  forall (S : Settings) (E : Env) (terms : list string) (region : option string)
         (page_size : Z) (key : string) (dd : pydict) (ds : list pydict),
  newsapi_key S = Some key -> key <> ""%string ->
  http_get_json E NEWSAPI_ENDPOINT
    (news_params (query_string terms region) page_size key) = Ok (PDict dd) ->
  lookup "status" dd = Some (PStr "ok") ->
  lookup "articles" dd = Some (PList (map PDict ds)) ->
  Forall article_source_ok ds ->
  exists r,
    fetch_live_news S E terms region page_size = Ok r /\
    news_query r = query_string terms region /\
    news_count r = List.length ds /\
    List.length (news_articles r) = List.length ds /\
    map a_url (news_articles r) = map (field "url") ds /\
    map a_title (news_articles r) = map (field "title") ds /\
    map a_publishedAt (news_articles r) = map (field "publishedAt") ds /\
    (forall a, In a (news_articles r) ->
       a_parsed a = (if truthy (a_url a)
                     then _summarize_article_via_newspaper E (a_url a) else [])).
Proof.
  intros S E terms region page_size key dd ds Hk Hne Hd Hst Harts Hsrc.
  rewrite (fetch_live_news_request _ _ _ _ _ _ Hk Hne). rewrite Hd. cbn [bind].
  rewrite py_get_dict. unfold field at 1. rewrite Hst. cbn [bind py_eq_str].
  rewrite String.eqb_refl. cbn [negb]. unfold py_get_default. rewrite Harts.
  cbn [bind py_iter].
  destruct (mapM_article_of E ds Hsrc) as [articles [Hm [L [U [T [P Pa]]]]]].
  rewrite Hm. cbn [bind]. eexists. split; [reflexivity|].
  cbn [news_query news_count news_articles]. repeat split; assumption.
Qed.


Lemma fetch_live_news_failures_witness :
  fetch_live_news (Examples.example_settings None) NewsScenarios.env_news
    ["earthquake"]%string (Some "Florida"%string) 10
  = Raise (Exn RuntimeError "NEWSAPI_KEY not configured in environment") /\
  exists msg,
    fetch_live_news (Examples.example_settings (Some "k"%string))
      NewsScenarios.env_news_rejected ["earthquake"]%string (Some "Florida"%string) 10
    = Raise (Exn RuntimeError msg).
Proof.
  split.
  - apply fetch_live_news_failures. left. reflexivity.
  - destruct (fetch_live_news_failures
                (Examples.example_settings (Some "k"%string))
                NewsScenarios.env_news_rejected ["earthquake"]%string
                (Some "Florida"%string) 10%Z) as [_ [_ H]].
    eapply H.
    + reflexivity.
    + discriminate.
    + reflexivity.
    + discriminate.
Defined.

Lemma fetch_live_news_keeps_every_article_witness :
  exists r,
    fetch_live_news (Examples.example_settings (Some "k"%string)) NewsScenarios.env_news
      ["earthquake"; "aftershock"]%string (Some "Florida"%string) 10 = Ok r /\
    news_query r = "earthquake aftershock Florida"%string /\
    news_count r = 2%nat /\
    map a_url (news_articles r) = [PStr "https://example.com/a"; PNone] /\
    map a_parsed (news_articles r) = [empty_summary; []].
Proof.
  edestruct (fetch_live_news_keeps_every_article
               (Examples.example_settings (Some "k"%string)) NewsScenarios.env_news
               ["earthquake"; "aftershock"]%string (Some "Florida"%string) 10%Z
               "k"%string) as [r [Hr [Hq [Hc [_ [Hu _]]]]]].
  - reflexivity.
  - discriminate.
  - reflexivity.
  - reflexivity.
  - reflexivity.
  - constructor; [right; reflexivity|]. constructor; [left; reflexivity|]. constructor.
  - exists r. split; [exact Hr|]. split; [exact Hq|]. split; [exact Hc|].
    split; [exact Hu|]. vm_compute in Hr. injection Hr as <-. reflexivity.
Defined.


(** ** [app/agent.py]: the calls of a cycle, the agent's answer, persistence *)

Section CycleCalls.
Context {PY : Python} {SH : Shapely} {PD : Pandas}.

Lemma seismic_strategy_calls : forall W log,
  exists log_s r,
    seismic_strategy W log = (log ++ log_s, r) /\
    forall c, In c log_s -> fallback_call W c.
Proof.
  intros W log. unfold seismic_strategy, cbind, perform, lift, cret.
  destruct (fetch_recent_earthquakes _ _ _ _) as [eq|e] eqn:F.
  - destruct (truthy (eq_feature_union eq)) eqn:T.
    + assert (Hc : forall c,
                In c [CallFetchEarthquakes; CallComputeExposure FALLBACK_SEISMIC (eq_feature_union eq)] ->
                fallback_call W c).
      { intros c [<-|[<-|[]]]; [left; reflexivity|].
        right. right. right. exists FALLBACK_SEISMIC, (eq_feature_union eq).
        split; [reflexivity|]. split; [exact T|]. exists eq. split; [exact F | reflexivity]. }
      destruct (compute_portfolio_exposure _ _ _) as [out|e].
      * destruct (render_eq eq (exposure out) _) as [t|e];
          exists [CallFetchEarthquakes; CallComputeExposure FALLBACK_SEISMIC (eq_feature_union eq)]; eexists;
          rewrite <- app_assoc; (split; [reflexivity | exact Hc]).
      * exists [CallFetchEarthquakes; CallComputeExposure FALLBACK_SEISMIC (eq_feature_union eq)]. eexists.
        rewrite <- app_assoc. split; [reflexivity | exact Hc].
    + exists [CallFetchEarthquakes]. eexists. split; [reflexivity|].
      intros c [<-|[]]. left. reflexivity.
  - exists [CallFetchEarthquakes]. eexists. split; [reflexivity|].
    intros c [<-|[]]. left. reflexivity.
Qed.

Lemma alerts_strategy_calls : forall W log,
  exists log_a r,
    alerts_strategy W log = (log ++ log_a, r) /\
    forall c, In c log_a -> fallback_call W c.
Proof.
  intros W log. unfold alerts_strategy, cbind, perform, lift, cret.
  destruct (fetch_active_alerts _ _ _) as [al|e] eqn:F.
  - destruct (truthy (al_feature_union al)) eqn:T.
    + assert (Hc : forall c,
                In c [CallFetchAlerts; CallComputeExposure FALLBACK_ALERTS (al_feature_union al)] ->
                fallback_call W c).
      { intros c [<-|[<-|[]]]; [right; left; reflexivity|].
        right. right. right. exists FALLBACK_ALERTS, (al_feature_union al).
        split; [reflexivity|]. split; [exact T|]. exists al. split; [exact F | reflexivity]. }
      destruct (compute_portfolio_exposure _ _ _) as [out|e].
      * destruct (render_alerts al (exposure out) _ _) as [t|e];
          exists [CallFetchAlerts; CallComputeExposure FALLBACK_ALERTS (al_feature_union al)]; eexists;
          rewrite <- app_assoc; (split; [reflexivity | exact Hc]).
      * exists [CallFetchAlerts; CallComputeExposure FALLBACK_ALERTS (al_feature_union al)]. eexists.
        rewrite <- app_assoc. split; [reflexivity | exact Hc].
    + exists [CallFetchAlerts]. eexists. split; [reflexivity|].
      intros c [<-|[]]. right. left. reflexivity.
  - exists [CallFetchAlerts]. eexists. split; [reflexivity|].
    intros c [<-|[]]. right. left. reflexivity.
Qed.

Lemma fallback_chain_calls : forall W log log' r,
  fallback_chain W log = (log', r) ->
  exists log_f, log' = log ++ log_f /\ forall c, In c log_f -> fallback_call W c.
Proof.
  intros W log log' r H. unfold fallback_chain, ctry in H.
  destruct (seismic_strategy_calls W log) as [ls [rs [Hs Cs]]]. rewrite Hs in H.
  destruct rs as [a|e].
  - injection H as <- <-. exists ls. split; [reflexivity | exact Cs].
  - destruct (alerts_strategy_calls W (log ++ ls)) as [la [ra [Ha Ca]]]. rewrite Ha in H.
    destruct ra as [a|e'].
    + injection H as <- <-. exists (ls ++ la). rewrite app_assoc. split; [reflexivity|].
      intros c Hc. apply in_app_or in Hc. destruct Hc; auto.
    + rewrite news_strategy_log in H. injection H as <- <-.
      exists (ls ++ la ++ [CallFetchNews]). rewrite !app_assoc. split; [reflexivity|].
      intros c Hc. apply in_app_or in Hc. destruct Hc as [Hc|[<-|[]]].
      * apply in_app_or in Hc. destruct Hc; auto.
      * right. right. left. reflexivity.
Qed.

Lemma persist_no_state : forall W v st log log' r,
  persist W v st log = (log', r) ->
  exists log_p, log' = log ++ log_p /\ attempted_states log_p = [] /\
    forall s u, ~ In (CallComputeExposure s u) log_p.
Proof.
  intros W v st log log' r H.
  destruct (persist_cases W v st log) as [P1 P2].
  destruct (makedirs W (briefings_dir W)) as [[]|e] eqn:M.
  - destruct (P2 eq_refl) as [r' [Hp _]]. rewrite Hp in H. injection H as <- _.
    eexists. split; [reflexivity|]. split; [reflexivity|].
    intros s u [Hs|[Hs|[]]]; discriminate Hs.
  - rewrite (P1 e eq_refl) in H. injection H as <- _.
    eexists. split; [reflexivity|]. split; [reflexivity|].
    intros s u [Hs|[]]; discriminate Hs.
Qed.

(** A cycle whose agent was built: the agent's call, then either nothing or
    the fallback chain, then persistence. *)
Lemma run_cycle_shape : forall W,
  build_agent W = Ok tt ->
  exists log_mid v s,
    run_cycle W [] = persist W v (status_label s) ([CallBuildAgent; CallInvoke] ++ log_mid) /\
    attempted_states ([CallBuildAgent; CallInvoke] ++ log_mid) = states_up_to s /\
    (forall c, In c log_mid -> fallback_call W c) /\
    ((s = PRIMARY /\ log_mid = [] /\ answer (primary_strategy W) = Ok (v, "ok"%string)) \/
     (s <> PRIMARY /\ s <> DONE /\
      (exists e, answer (primary_strategy W) = Raise e) /\ exists t, v = PStr t)).
Proof.
  intros W Hb. unfold run_cycle, cbind at 1, perform at 1. rewrite Hb. cbn [app].
  unfold cbind, ctry. rewrite primary_strategy_log. cbn [app].
  destruct (answer (primary_strategy W)) as [[v st]|e] eqn:A.
  - assert (Hst := primary_answer_status W v st A). subst st.
    exists [], v, PRIMARY. split; [reflexivity|]. split; [reflexivity|].
    split; [intros c []|]. left. repeat split.
  - destruct (fallback_chain_outcome W [CallBuildAgent; CallInvoke])
      as [lf [t [s [Hf [_ [i [_ [_ Hs]]]]]]]].
    destruct (fallback_chain_calls W _ _ _ Hf) as [lf' [Hl Hc]].
    apply app_inv_head in Hl. subst lf'.
    rewrite Hf. unfold cret. exists lf, (PStr t), s. split; [reflexivity|].
    split.
    + change (PRIMARY :: attempted_states lf = states_up_to s).
      destruct Hs as [[-> ->]|[[-> ->]|[-> ->]]]; reflexivity.
    + split; [exact Hc|]. right.
      split; [destruct Hs as [[-> _]|[[-> _]|[-> _]]]; discriminate|].
      split; [destruct Hs as [[-> _]|[[-> _]|[-> _]]]; discriminate|].
      split; eexists; reflexivity.
Qed.

(** X17.  If the agent cannot be built, no state is attempted and the error
    escapes.  Otherwise, whatever fails afterwards (persistence included),
    the states attempted are an initial segment of the fixed order PRIMARY,
    FALLBACK_SEISMIC, FALLBACK_ALERTS, FALLBACK_NEWS, each attempted once;
    PRIMARY is the last one exactly when the agent's call returned; and when
    the cycle returns an outcome, its status is the tag of the last state
    attempted. *)
Theorem attempted_states_follow_the_fixed_order : forall (W : World),
  (forall e, build_agent W = Raise e ->
     attempted_states (calls (run_cycle W)) = [] /\ answer (run_cycle W) = Raise e) /\
  (build_agent W = Ok tt ->
     exists s,
       In s [PRIMARY; FALLBACK_SEISMIC; FALLBACK_ALERTS; FALLBACK_NEWS] /\
       attempted_states (calls (run_cycle W)) = states_up_to s /\
       (s = PRIMARY <-> exists a, answer (primary_strategy W) = Ok a) /\
       forall o, answer (run_cycle W) = Ok o -> status o = status_label s).
Proof.
  intro W. unfold calls, answer. split.
  - intros e H. rewrite (run_cycle_build_agent_raises W e H). split; reflexivity.
  - intro Hb. destruct (run_cycle_shape W Hb) as [lm [v [s [Hr [Ha [_ Hs]]]]]].
    exists s. split.
    { destruct s; simpl; try tauto.
      destruct Hs as [[Hs _]|[_ [Hs _]]]; [discriminate Hs | contradiction]. }
    destruct (run_cycle W []) as [log r] eqn:Hrun. cbn [fst snd].
    symmetry in Hr. destruct (persist_no_state _ _ _ _ _ _ Hr) as [lp [-> [Hp _]]].
    split; [rewrite attempted_states_app, Hp, app_nil_r; exact Ha|]. split.
    + split.
      * intros ->. destruct Hs as [[_ [_ Hs]]|[Hs _]]; [eexists; exact Hs | contradiction].
      * intros [a Hans]. destruct Hs as [[Hs _]|[_ [_ [[e He] _]]]]; [exact Hs|].
        unfold answer in *. congruence.
    + intros o ->. apply (persist_inv _ _ _ _ _ _ Hr).
Qed.

(** X18.  Every call of [compute_portfolio_exposure] a cycle makes is made
    in the earthquake or the alerts state, after the agent's call raised, and
    its footprint argument is the footprint that state has just fetched and
    found present: the argument is never [None], nor otherwise falsy. *)
Theorem exposure_is_computed_only_on_a_present_footprint :
  forall (W : World) (s : state) (u : pyval),
  In (CallComputeExposure s u) (calls (run_cycle W)) ->
  (exists e, answer (primary_strategy W) = Raise e) /\
  (s = FALLBACK_SEISMIC \/ s = FALLBACK_ALERTS) /\
  u <> PNone /\
  present_footprint W s u.
Proof.
  intros W s u Hin. unfold calls in Hin.
  destruct (build_agent W) as [[]|e] eqn:Hb.
  2:{ rewrite (run_cycle_build_agent_raises W e Hb) in Hin.
      destruct Hin as [Hin|[]]. discriminate Hin. }
  destruct (run_cycle_shape W Hb) as [lm [v [s0 [Hr [_ [Hc Hs]]]]]].
  destruct (run_cycle W []) as [log r] eqn:Hrun. cbn [fst] in Hin.
  symmetry in Hr. destruct (persist_no_state _ _ _ _ _ _ Hr) as [lp [-> [_ Hp]]].
  apply in_app_or in Hin. destruct Hin as [Hin|Hin]; [|exfalso; exact (Hp s u Hin)].
  destruct Hin as [Hin|[Hin|Hin]]; try discriminate Hin.
  destruct Hs as [[_ [-> _]]|[_ [_ [He _]]]]; [destruct Hin|].
  split; [exact He|].
  destruct (Hc _ Hin) as [H|[H|[H|[s' [u' [Heq Hu]]]]]]; try discriminate H.
  injection Heq as -> ->. split; [|split; [|exact Hu]].
  - destruct Hu as [_ Hu]. destruct s'; try contradiction; [left | right]; reflexivity.
  - destruct Hu as [Ht _]. intros ->. discriminate Ht.
Qed.

End CycleCalls.

Section CycleEdges.
Context {PY : Python} {SH : Shapely} {PD : Pandas}.

Lemma fallback_calls_write_nothing : forall W l,
  (forall c, In c l -> fallback_call W c) -> written l = [].
Proof.
  intros W. induction l as [|c l IH]; intro H; [reflexivity|].
  assert (Hl : written l = []) by (apply IH; intros c' Hc'; apply H; right; exact Hc').
  destruct (H c (or_introl eq_refl)) as [->|[->|[->|[s [u [-> _]]]]]]; exact Hl.
Qed.

Lemma primary_answer_of_object : forall W d,
  executor_invoke W (agent_input W) = Ok (PDict d) ->
  answer (primary_strategy W) = Ok (py_or (field "output" d) (PStr ""), "ok"%string).
Proof.
  intros W d H. unfold answer, primary_strategy, cbind, perform, lift, cret.
  fold (agent_input W). rewrite H. cbn [snd]. rewrite py_get_dict. reflexivity.
Qed.

Lemma primary_answer_of_non_object : forall W v,
  executor_invoke W (agent_input W) = Ok v -> is_dict v = false ->
  answer (primary_strategy W) = Raise (Exn AttributeError "object has no attribute 'get'").
Proof.
  intros W v H Hv. unfold answer, primary_strategy, cbind, perform, lift, cret.
  fold (agent_input W). rewrite H. cbn [snd].
  destruct v; try reflexivity. discriminate Hv.
Qed.

Lemma run_cycle_after_answer : forall W v,
  build_agent W = Ok tt ->
  answer (primary_strategy W) = Ok (v, "ok"%string) ->
  run_cycle W [] = persist W v "ok" [CallBuildAgent; CallInvoke].
Proof.
  intros W v Hb Ha. destruct (run_cycle_shape W Hb) as [lm [v' [s [Hr [_ [_ Hs]]]]]].
  destruct Hs as [[-> [-> Hv]]|[_ [_ [[e He] _]]]]; [|congruence].
  rewrite Hr. rewrite Ha in Hv. injection Hv as <-. reflexivity.
Qed.

(** X19.  With the agent built and the briefing writable: an answer object
    whose [output] is missing, null or empty is not a failure (the cycle
    returns an empty briefing tagged [ok], no fallback being attempted); an
    answer object whose [output] is truthy but not text makes the final write
    raise [TypeError], leaving an empty file; and an answer that is not an
    object at all counts as a failure of the agent: the fallback chain runs
    and the outcome carries a fallback tag. *)
Theorem agent_answer_edge_cases : forall (W : World),
  build_agent W = Ok tt ->
  persistence_ok W ->
  (forall d, executor_invoke W (agent_input W) = Ok (PDict d) ->
     truthy (field "output" d) = false ->
     exists log,
       run_cycle W [] =
         (log, Ok {| output_path := briefing_path W "ok"; text := ""; status := "ok" |}) /\
       attempted_states log = [PRIMARY] /\
       written log = [(briefing_path W "ok", ""%string)]) /\
  (forall d, executor_invoke W (agent_input W) = Ok (PDict d) ->
     truthy (field "output" d) = true ->
     (forall t, field "output" d <> PStr t) ->
     exists log,
       run_cycle W [] = (log, Raise (Exn TypeError "write() argument must be str")) /\
       attempted_states log = [PRIMARY] /\
       written log = [(briefing_path W "ok", ""%string)]) /\
  (forall v, executor_invoke W (agent_input W) = Ok v -> is_dict v = false ->
     exists log o,
       run_cycle W [] = (log, Ok o) /\
       status o <> "ok"%string /\
       In FALLBACK_SEISMIC (attempted_states log)).
Proof.
  intros W Hb [Hmk Hwr]. split; [|split].
  - intros d Hd Ht. rewrite (run_cycle_after_answer W _ Hb (primary_answer_of_object W d Hd)).
    unfold py_or. rewrite Ht.
    destruct (persist_cases W (PStr "") "ok" [CallBuildAgent; CallInvoke]) as [_ P].
    destruct (P (Hmk _)) as [r [Hp [_ Hr]]]. rewrite Hp, (Hr (Hwr _ _)).
    eexists. split; [reflexivity|]. split; reflexivity.
  - intros d Hd Ht Hns.
    rewrite (run_cycle_after_answer W _ Hb (primary_answer_of_object W d Hd)).
    unfold py_or. rewrite Ht.
    destruct (persist_cases W (field "output" d) "ok" [CallBuildAgent; CallInvoke])
      as [_ P].
    destruct (P (Hmk _)) as [r [Hp [_ Hr]]]. rewrite Hp, (Hr (Hwr _ _)).
    destruct (field "output" d) as [| | | |t| |] eqn:F;
      try (eexists; split; [reflexivity|]; split; reflexivity).
    exfalso. apply (Hns t). reflexivity.
  - intros v Hv Hnd.
    destruct (run_cycle_after_primary_failure W _ Hb (conj Hmk Hwr)
                (primary_answer_of_non_object W v Hv Hnd))
      as [lf [t [s [i [dir [path [Hr [_ [_ [_ Hs]]]]]]]]]].
    rewrite Hr. do 2 eexists. split; [reflexivity|]. cbn [status]. split.
    + destruct Hs as [[-> _]|[[-> _]|[-> _]]]; discriminate.
    + rewrite !attempted_states_app.
      destruct Hs as [[_ ->]|[[_ ->]|[_ ->]]]; right; left; reflexivity.
Qed.

(** X20.  Persistence is outside every [try].  When the briefings directory
    cannot be made the cycle raises that error, after all the fetching, and
    writes nothing; when the file cannot be written the cycle raises that
    error; and every outcome the cycle does return names the file
    [briefing_<status>_<stamp>.md] under [<output_dir>/briefings], which is
    the one file written, with the returned text, after the directory was
    made. *)
Theorem persistence_is_outside_the_fallbacks : forall (W : World),
  build_agent W = Ok tt ->
  (forall e, makedirs W (briefings_dir W) = Raise e ->
     answer (run_cycle W) = Raise e /\ written (calls (run_cycle W)) = []) /\
  (forall e, makedirs W (briefings_dir W) = Ok tt ->
     (forall p t, write_text W p t = Raise e) ->
     answer (run_cycle W) = Raise e) /\
  (forall o, answer (run_cycle W) = Ok o ->
     output_path o = briefing_path W (status o) /\
     written (calls (run_cycle W)) = [(output_path o, text o)] /\
     In (CallMakedirs (briefings_dir W)) (calls (run_cycle W))).
Proof.
  intros W Hb. unfold answer, calls.
  destruct (run_cycle_shape W Hb) as [lm [v [s [Hr [_ [Hc _]]]]]].
  assert (Hw := fallback_calls_write_nothing W lm Hc).
  destruct (persist_cases W v (status_label s) ([CallBuildAgent; CallInvoke] ++ lm))
    as [P1 P2].
  rewrite Hr. split; [|split].
  - intros e He. rewrite (P1 e He). cbn [fst snd]. split; [reflexivity|].
    rewrite written_app. cbn [app]. change (written (CallBuildAgent :: CallInvoke :: lm))
      with (written lm). rewrite Hw. reflexivity.
  - intros e Hm Hwr. destruct (P2 Hm) as [r [Hp [Hraise _]]]. rewrite Hp. cbn [snd].
    apply Hraise. apply Hwr.
  - intros o Ho.
    destruct (makedirs W (briefings_dir W)) as [[]|e] eqn:Hm.
    2:{ rewrite (P1 e eq_refl) in Ho. discriminate Ho. }
    destruct (P2 eq_refl) as [r [Hp [Hraise Hok]]]. rewrite Hp in *. cbn [fst snd] in *.
    subst r.
    destruct (write_text W (briefing_path W (status_label s))
                match v with PStr s0 => s0 | _ => ""%string end) as [[]|e] eqn:Hwt.
    2:{ discriminate (Hraise e eq_refl). }
    specialize (Hok eq_refl).
    destruct v; try discriminate Hok. injection Hok as ->. cbn [output_path status text].
    split; [reflexivity|]. split.
    + rewrite written_app. cbn [app]. change (written (CallBuildAgent :: CallInvoke :: lm))
        with (written lm). rewrite Hw. reflexivity.
    + apply in_or_app. right. left. reflexivity.
Qed.

End CycleEdges.

Lemma attempted_states_follow_the_fixed_order_witness :
  attempted_states (calls (run_cycle Examples.world_quiet))
    = [PRIMARY; FALLBACK_SEISMIC; FALLBACK_ALERTS] /\
  exists s,
    attempted_states (calls (run_cycle Examples.world_quiet)) = states_up_to s /\
    forall o, answer (run_cycle Examples.world_quiet) = Ok o -> status o = status_label s.
Proof.
  split; [vm_compute; reflexivity|].
  destruct (proj2 (@attempted_states_follow_the_fixed_order Ref.python Ref.shapely Ref.pandas
                     Examples.world_quiet) eq_refl) as [s [_ [Hs [_ Ho]]]].
  exists s. split; [exact Hs | exact Ho].
Defined.

Lemma exposure_is_computed_only_on_a_present_footprint_witness :
  exists u,
    In (CallComputeExposure FALLBACK_SEISMIC u)
       (calls (run_cycle CycleScenarios.world_one_quake)) /\
    u <> PNone /\
    present_footprint CycleScenarios.world_one_quake FALLBACK_SEISMIC u.
Proof.
  assert (H : exists u, In (CallComputeExposure FALLBACK_SEISMIC u)
                           (calls (run_cycle CycleScenarios.world_one_quake))).
  { eexists. vm_compute. right. right. right. left. reflexivity. }
  destruct H as [u Hin]. exists u. split; [exact Hin|].
  apply (@exposure_is_computed_only_on_a_present_footprint Ref.python Ref.shapely Ref.pandas
           CycleScenarios.world_one_quake FALLBACK_SEISMIC u Hin).
Defined.

Lemma agent_answer_edge_cases_witness :
  (exists log,
     run_cycle CycleScenarios.world_mute_agent [] =
       (log, Ok {| output_path := "output/briefings/briefing_ok_20240501T120000Z.md";
                   text := ""; status := "ok" |})) /\
  (exists log,
     run_cycle CycleScenarios.world_list_agent [] =
       (log, Raise (Exn TypeError "write() argument must be str"))) /\
  (exists log o,
     run_cycle CycleScenarios.world_text_agent [] = (log, Ok o) /\
     status o <> "ok"%string).
Proof.
  destruct (@agent_answer_edge_cases Ref.python Ref.shapely Ref.pandas
              CycleScenarios.world_mute_agent eq_refl (examples_persistence_ok _ _))
    as [Hmute _].
  destruct (@agent_answer_edge_cases Ref.python Ref.shapely Ref.pandas
              CycleScenarios.world_list_agent eq_refl (examples_persistence_ok _ _))
    as [_ [Hlist _]].
  destruct (@agent_answer_edge_cases Ref.python Ref.shapely Ref.pandas
              CycleScenarios.world_text_agent eq_refl (examples_persistence_ok _ _))
    as [_ [_ Htext]].
  split; [|split].
  - destruct (Hmute [("log"%string, PStr "done")] eq_refl eq_refl) as [log [Hr _]].
    exists log. exact Hr.
  - destruct (Hlist [("output"%string, PList [PStr "# Briefing"])] eq_refl eq_refl)
      as [log [Hr _]]; [intros t H; discriminate H|].
    exists log. exact Hr.
  - destruct (Htext (PStr "# Briefing") eq_refl eq_refl) as [log [o [Hr [Hs _]]]].
    exists log, o. split; [exact Hr | exact Hs].
Defined.

Lemma persistence_is_outside_the_fallbacks_witness :
  answer (run_cycle CycleScenarios.world_read_only)
    = Raise (Exn (ExternalError "PermissionError") "Permission denied") /\
  written (calls (run_cycle CycleScenarios.world_read_only)) = [] /\
  attempted_states (calls (run_cycle CycleScenarios.world_read_only))
    = [PRIMARY; FALLBACK_SEISMIC].
Proof.
  destruct (@persistence_is_outside_the_fallbacks Ref.python Ref.shapely Ref.pandas
              CycleScenarios.world_read_only eq_refl) as [H _].
  destruct (H (Exn (ExternalError "PermissionError") "Permission denied") eq_refl)
    as [Ha Hw].
  split; [exact Ha|]. split; [exact Hw|]. vm_compute. reflexivity.
Defined.

(** ** [app/utils/http.py]: masking, status handling, what is logged *)

Lemma lookup_map_values : forall (f : string -> pyval -> pyval) (d : pydict) (k : string),
  lookup k (map (fun kv : string * pyval => (fst kv, f (fst kv) (snd kv))) d) =
  match lookup k d with
  | Some v => Some (f k v)
  | None => None
  end.
Proof.
  intros f. induction d as [|[k' v] d IH]; intro k; simpl; [reflexivity|].
  destruct (String.eqb k k') eqn:T; [|apply IH].
  apply String.eqb_eq in T. subst k'. reflexivity.
Qed.

Lemma mask_as_map : forall d : pydict,
  _mask_params (Some d) =
  map (fun kv : string * pyval =>
         (fst kv, (fun k v => if sensitive k then PStr "***" else v) (fst kv) (snd kv))) d.
Proof.
  intro d. unfold _mask_params. destruct d as [|kv d]; [reflexivity|].
  cbn [truthy negb]. apply map_ext. intros [k v]. cbn [fst snd].
  destruct (sensitive k); reflexivity.
Qed.

(** X21.  [_mask_params] gives the empty dict for no parameters; otherwise
    it keeps every key, in order, replaces by ["***"] the value of exactly
    the keys whose lower-case form is [apikey], [api_key], [key] or [token]
    (a key that merely contains one of these words is left as it is), leaves
    every other value unchanged, and masking twice is masking once. *)
Theorem mask_params_hides_exactly_the_sensitive_keys : forall d : pydict,
  _mask_params None = [] /\
  map fst (_mask_params (Some d)) = map fst d /\
  (forall k, lookup k (_mask_params (Some d)) =
     match lookup k d with
     | Some v => Some (if sensitive k then PStr "***" else v)
     | None => None
     end) /\
  _mask_params (Some (_mask_params (Some d))) = _mask_params (Some d).
Proof.
  intro d. split; [reflexivity|]. split; [|split].
  - rewrite mask_as_map, map_map. apply map_ext. intros [k v]. reflexivity.
  - intro k. rewrite mask_as_map.
    apply (lookup_map_values (fun k0 v => if sensitive k0 then PStr "***" else v)).
  - rewrite (mask_as_map (_mask_params (Some d))), (mask_as_map d), map_map.
    apply map_ext. intros [k v]. cbn [fst snd].
    destruct (sensitive k); reflexivity.
Qed.


Lemma raise_for_status_error : forall resp,
  (400 <= status_code resp < 600)%Z ->
  raise_for_status resp = raise (ExternalError "HTTPError") "Client or Server Error".
Proof.
  intros resp Hs. unfold raise_for_status.
  destruct (400 <=? status_code resp)%Z eqn:A; [|lia].
  destruct (status_code resp <? 600)%Z eqn:B; [|lia]. reflexivity.
Qed.

Lemma raise_for_status_passes : forall resp,
  (status_code resp < 400 \/ 600 <= status_code resp)%Z ->
  raise_for_status resp = Ok tt.
Proof.
  intros resp Hs. unfold raise_for_status.
  destruct (400 <=? status_code resp)%Z eqn:A;
    destruct (status_code resp <? 600)%Z eqn:B; try reflexivity. lia.
Qed.

(** X22.  [get_json] passes a transport error on, logging nothing; once the
    server has answered it raises [HTTPError] exactly for the statuses 400 to
    599, whatever the body, and otherwise returns (or raises) what decoding
    the body gives.  [get_text] raises in the same cases, never otherwise
    once the server has answered, and then returns the body text. *)
Theorem get_json_answers_by_status :
  forall (c : HttpClient) (url : string) (params headers : option pydict),
  (forall e, session_get c url params headers (client_timeout c) = Raise e ->
     get_json c url params headers = ([], Raise e)) /\
  (forall resp, session_get c url params headers (client_timeout c) = Ok resp ->
     (400 <= status_code resp < 600)%Z ->
     raises_http_error (snd (get_json c url params headers))) /\
  (forall resp, session_get c url params headers (client_timeout c) = Ok resp ->
     (status_code resp < 400 \/ 600 <= status_code resp)%Z ->
     snd (get_json c url params headers) = resp_json resp) /\
  (forall resp, session_get c url params headers (client_timeout c) = Ok resp ->
     ((400 <= status_code resp < 600)%Z ->
      raises_http_error (snd (get_text c url params headers))) /\
     (forall e, snd (get_text c url params headers) = Raise e ->
        (400 <= status_code resp < 600)%Z /\ exn_type e = ExternalError "HTTPError") /\
     ((status_code resp < 400 \/ 600 <= status_code resp)%Z ->
      snd (get_text c url params headers) = Ok (resp_text resp))).
Proof.
  intros c url params headers. unfold get_json, get_text.
  split; [|split; [|split]].
  - intros e H. rewrite H. reflexivity.
  - intros resp H Hs. rewrite H. cbn [snd].
    rewrite (raise_for_status_error resp Hs). eexists. reflexivity.
  - intros resp H Hs. rewrite H. cbn [snd].
    rewrite (raise_for_status_passes resp Hs). reflexivity.
  - intros resp H. rewrite H. cbn [snd]. split; [|split].
    + intro Hs. rewrite (raise_for_status_error resp Hs). eexists. reflexivity.
    + intros e He.
      destruct (Z_lt_ge_dec (status_code resp) 400) as [Lo|Lo];
        [rewrite (raise_for_status_passes resp (or_introl Lo)) in He; discriminate He|].
      destruct (Z_lt_ge_dec (status_code resp) 600) as [Hi|Hi].
      * assert (Hs : (400 <= status_code resp < 600)%Z) by lia.
        rewrite (raise_for_status_error resp Hs) in He.
        injection He as <-. split; [exact Hs | reflexivity].
      * assert (Hs : (status_code resp < 400 \/ 600 <= status_code resp)%Z) by lia.
        rewrite (raise_for_status_passes resp Hs) in He. discriminate He.
    + intro Hs. rewrite (raise_for_status_passes resp Hs). reflexivity.
Qed.


Lemma mask_params_hides_exactly_the_sensitive_keys_witness :
  _mask_params (Some (news_params "earthquake Florida" 10 "0123456789abcdef"))
  = news_params "earthquake Florida" 10 "***" /\
  lookup "access_token" (_mask_params (Some [("access_token", PStr "s3cret");
                                              ("Token", PStr "s3cret")]))
  = Some (PStr "s3cret") /\
  lookup "Token" (_mask_params (Some [("access_token", PStr "s3cret");
                                       ("Token", PStr "s3cret")]))
  = Some (PStr "***").
Proof.
  destruct (mask_params_hides_exactly_the_sensitive_keys
              [("access_token"%string, PStr "s3cret"); ("Token"%string, PStr "s3cret")])
    as [_ [_ [Hl _]]].
  split; [reflexivity|]. split; [rewrite Hl; reflexivity | rewrite Hl; reflexivity].
Defined.

Lemma get_json_answers_by_status_witness :
  raises_http_error (snd (get_json HttpScenarios.client_503 NWS_ALERTS_URL None None)) /\
  snd (get_json HttpScenarios.client_200 NWS_ALERTS_URL None None) = Ok (PDict []) /\
  get_json HttpScenarios.client_down NWS_ALERTS_URL None None
    = ([], Raise (Exn (ExternalError "ConnectionError") "network is unreachable")).
Proof.
  destruct (get_json_answers_by_status HttpScenarios.client_503 NWS_ALERTS_URL None None)
    as [_ [H5 _]].
  destruct (get_json_answers_by_status HttpScenarios.client_200 NWS_ALERTS_URL None None)
    as [_ [_ [H2 _]]].
  destruct (get_json_answers_by_status HttpScenarios.client_down NWS_ALERTS_URL None None)
    as [Hd _].
  split; [|split].
  - eapply H5; [reflexivity|]. simpl. lia.
  - rewrite (H2 _ eq_refl); [reflexivity|]. left. simpl. lia.
  - apply Hd. reflexivity.
Defined.


(** ** [app/tools/weather_tool.py]: candidates, the choice, the loaders *)

Lemma contains_tail : forall (c : ascii) (sub s : string),
  contains (String c sub) s = true -> contains sub s = true.
Proof.
  intros c sub. induction s as [|c' s IH]; intro H.
  - simpl in H. discriminate H.
  - cbn [contains] in H. apply orb_true_iff in H. destruct H as [H|H].
    + cbn [String.prefix] in H. destruct (ascii_dec c c'); [|discriminate H].
      cbn [contains]. apply orb_true_iff. right.
      destruct s as [|c'' s']; cbn [contains]; rewrite H; reflexivity.
    + cbn [contains]. apply orb_true_iff. right. apply IH. exact H.
Qed.

Lemma contains_substring : forall (sub s : string) (n : nat),
  String.substring n (String.length sub) s = sub -> contains sub s = true.
Proof.
  intros sub s. induction s as [|c s IH]; intros n H.
  - destruct n; simpl in H.
    + destruct (String.length sub); subst sub; reflexivity.
    + subst sub. reflexivity.
  - destruct n as [|n].
    + cbn [contains]. apply orb_true_iff. left. apply prefix_correct. exact H.
    + cbn [contains]. apply orb_true_iff. right. apply (IH n). exact H.
Qed.

Lemma endswith_contains : forall suffix s : string,
  endswith suffix s = true -> contains suffix s = true.
Proof.
  intros suffix s H. unfold endswith in H. apply andb_true_iff in H. destruct H as [_ H].
  apply String.eqb_eq in H. apply (contains_substring _ _ _ H).
Qed.

Lemma mapM_In_inv : forall (A B : Type) (f : A -> result B) (l : list A) (bs : list B) (b : B),
  mapM f l = Ok bs -> In b bs -> exists a, In a l /\ f a = Ok b.
Proof.
  intros A B f. induction l as [|a l IH]; intros bs b H Hb; simpl in H.
  - injection H as <-. destruct Hb.
  - destruct (f a) as [b0|] eqn:Fa; [|discriminate]. simpl in H.
    destruct (mapM f l) as [bs'|]; [|discriminate]. simpl in H. injection H as <-.
    destruct Hb as [<-|Hb].
    + exists a. split; [left; reflexivity | exact Fa].
    + destruct (IH bs' b eq_refl Hb) as [a' [Ha' Fa']]. exists a'. split; [right|]; assumption.
Qed.

Lemma in_somes_inv : forall (A : Type) (l : list (option A)) (a : A),
  In a (somes l) -> In (Some a) l.
Proof.
  intros A. induction l as [|[x|] l IH]; intros a H; simpl in H.
  - destruct H.
  - destruct H as [<-|H]; [left; reflexivity | right; apply IH; exact H].
  - right. apply IH. exact H.
Qed.

Section ConeCandidates.
Context {PY : Python} {SH : Shapely} {NH : Nhc}.

Lemma link_item_product : forall title l it,
  link_item title l = Some it ->
  item_title it = title /\
  ((item_type it = "geojson"%string /\ contains "geojson" (lower (item_url it)) = true) \/
   (item_type it = "shpzip"%string /\
    contains "geojson" (lower (item_url it)) = false /\
    endswith ".zip" (lower (item_url it)) = true /\
    (contains "cone" (lower (item_url it)) || contains "5day" (lower (item_url it)))%bool
      = true)).
Proof.
  intros title l it H. unfold link_item in H.
  set (href := match l with PDict d => field "href" d | _ => PNone end) in *.
  destruct (truthy href); cbn [negb] in H; [|discriminate H].
  set (low := lower (py_str href)) in *.
  destruct (endswith ".geojson" low) eqn:E.
  - cbn [orb] in H. injection H as <-. cbn [item_title item_type item_url].
    split; [reflexivity|]. left. split; [reflexivity|].
    fold low. apply (contains_tail "."%char). apply endswith_contains. exact E.
  - cbn [orb] in H. destruct (contains "geojson" low) eqn:G.
    + injection H as <-. cbn [item_title item_type item_url].
      split; [reflexivity|]. left. split; [reflexivity | exact G].
    + destruct (endswith ".zip" low) eqn:Z; cbn [andb] in H; [|discriminate H].
      destruct (contains "cone" low || contains "5day" low)%bool eqn:C; [|discriminate H].
      injection H as <-. cbn [item_title item_type item_url].
      split; [reflexivity|]. right. fold low. repeat split; assumption.
Qed.

Lemma entry_items_products : forall entry items it,
  entry_items entry = Ok items -> In it items -> cone_product it.
Proof.
  intros entry items it H Hin. unfold entry_items in H.
  destruct (py_get_default entry "title" (PStr "")) as [t|]; [|discriminate]. cbn [bind] in H.
  destruct (contains "cone" (lower (py_str t))) eqn:C; cbn [negb] in H.
  2:{ injection H as <-. destruct Hin. }
  destruct (py_get entry "links") as [ls|]; [|discriminate]. cbn [bind] in H.
  destruct (py_iter (py_or ls (PList []))) as [links|]; [|discriminate]. cbn [bind] in H.
  injection H as <-. apply in_somes_inv in Hin. apply in_map_iff in Hin.
  destruct Hin as [l [Hl _]]. destruct (link_item_product _ _ _ Hl) as [Ht Hp].
  split; [rewrite Ht; exact C | exact Hp].
Qed.

Lemma feed_items_products : forall c feed_url items it,
  feed_items c feed_url = Ok items -> In it items -> cone_product it.
Proof.
  intros c feed_url items it H Hin. unfold feed_items in H.
  destruct (snd (get_feed feedparser_parse c feed_url)) as [entries|e].
  - destruct (mapM entry_items entries) as [per_entry|] eqn:M; [|discriminate].
    cbn [bind] in H. injection H as <-. apply in_concat in Hin.
    destruct Hin as [l [Hl Hit]].
    destruct (mapM_In_inv _ _ _ _ _ _ M Hl) as [entry [_ He]].
    exact (entry_items_products _ _ _ He Hit).
  - injection H as <-. destruct Hin.
Qed.

Lemma parse_gis_feed_products : forall c target items it,
  _parse_gis_feed_for_cone_links c target = Ok items -> In it items -> cone_product it.
Proof.
  intros c target items it H Hin. unfold _parse_gis_feed_for_cone_links in H.
  destruct (mapM (feed_items c) NHC_GIS_FEEDS) as [per_feed|] eqn:M; [|discriminate].
  cbn [bind] in H. injection H as <-. apply in_concat in Hin.
  destruct Hin as [l [Hl Hit]].
  destruct (mapM_In_inv _ _ _ _ _ _ M Hl) as [u [_ Hu]].
  exact (feed_items_products _ _ _ _ Hu Hit).
Qed.

Lemma feed_items_unreachable : forall c feed_url e,
  snd (get_feed feedparser_parse c feed_url) = Raise e -> feed_items c feed_url = Ok [].
Proof. intros c feed_url e H. unfold feed_items. rewrite H. reflexivity. Qed.

(** X24.  Every candidate [_parse_gis_feed_for_cone_links] returns is a cone
    product: its entry's title mentions a cone, and its link is typed
    [geojson] exactly when it mentions geojson, [shpzip] otherwise (then a zip
    archive that mentions a cone or 5day).  The target name plays no part.  A
    feed that cannot be fetched is skipped without an error: the candidates
    are then those of the other feed. *)
Theorem cone_candidates_are_cone_products :
  forall (c : HttpClient) (target : option string),
  (forall items, _parse_gis_feed_for_cone_links c target = Ok items ->
     Forall cone_product items) /\
  (forall target', _parse_gis_feed_for_cone_links c target'
                   = _parse_gis_feed_for_cone_links c target) /\
  (forall e1 items2,
     snd (get_feed feedparser_parse c "https://www.nhc.noaa.gov/gis-at.xml") = Raise e1 ->
     feed_items c "https://www.nhc.noaa.gov/gis-ep.xml" = Ok items2 ->
     _parse_gis_feed_for_cone_links c target = Ok items2) /\
  (forall items1 e2,
     feed_items c "https://www.nhc.noaa.gov/gis-at.xml" = Ok items1 ->
     snd (get_feed feedparser_parse c "https://www.nhc.noaa.gov/gis-ep.xml") = Raise e2 ->
     _parse_gis_feed_for_cone_links c target = Ok items1).
Proof.
  intros c target. split; [|split; [|split]].
  - intros items H. apply Forall_forall. intros it Hin.
    exact (parse_gis_feed_products _ _ _ _ H Hin).
  - intro target'. reflexivity.
  - intros e1 items2 H1 H2. unfold _parse_gis_feed_for_cone_links, NHC_GIS_FEEDS.
    cbn [mapM]. rewrite (feed_items_unreachable _ _ _ H1), H2. cbn [bind List.concat app].
    rewrite app_nil_r. reflexivity.
  - intros items1 e2 H1 H2. unfold _parse_gis_feed_for_cone_links, NHC_GIS_FEEDS.
    cbn [mapM]. rewrite (feed_items_unreachable _ _ _ H2), H1. cbn [bind List.concat app].
    rewrite app_nil_r. reflexivity.
Qed.

End ConeCandidates.

Lemma find_first_such : forall (A : Type) (p : A -> bool) (l : list A) (a : A),
  find p l = Some a -> first_such p l a.
Proof.
  intros A p. induction l as [|x l IH]; intros a H; simpl in H; [discriminate H|].
  destruct (p x) eqn:Px.
  - injection H as <-. exists [], l. split; [reflexivity|]. split; [exact Px|]. intros y [].
  - destruct (IH a H) as [l1 [l2 [-> [Pa Hl1]]]].
    exists (x :: l1), l2. split; [reflexivity|]. split; [exact Pa|].
    intros y [<-|Hy]; [exact Px | apply Hl1; exact Hy].
Qed.

Lemma find_some_of_member : forall (A : Type) (p : A -> bool) (l : list A) (a : A),
  In a l -> p a = true -> exists b, find p l = Some b.
Proof.
  intros A p. induction l as [|x l IH]; intros a Hin Pa; [destruct Hin|].
  simpl. destruct (p x) eqn:Px; [eexists; reflexivity|].
  destruct Hin as [->|Hin]; [congruence|]. exact (IH a Hin Pa).
Qed.

Lemma filter_head_first_such : forall (A : Type) (p : A -> bool) (l : list A) (a : A) (rest : list A),
  filter p l = a :: rest -> first_such p l a.
Proof.
  intros A p. induction l as [|x l IH]; intros a rest H; simpl in H; [discriminate H|].
  destruct (p x) eqn:Px.
  - injection H as <- _. exists [], l. split; [reflexivity|]. split; [exact Px|]. intros y [].
  - destruct (IH a rest H) as [l1 [l2 [-> [Pa Hl1]]]].
    exists (x :: l1), l2. split; [reflexivity|]. split; [exact Pa|].
    intros y [<-|Hy]; [exact Px | apply Hl1; exact Hy].
Qed.

Lemma filter_nil_none : forall (A : Type) (p : A -> bool) (l : list A),
  filter p l = [] -> forall x, In x l -> p x = false.
Proof.
  intros A p. induction l as [|x l IH]; intros H y Hy; [destruct Hy|].
  simpl in H. destruct (p x) eqn:Px; [discriminate H|].
  destruct Hy as [<-|Hy]; [exact Px | exact (IH H y Hy)].
Qed.

Lemma first_such_In : forall (A : Type) (p : A -> bool) (l : list A) (a : A),
  first_such p l a -> In a l.
Proof. intros A p l a [l1 [l2 [-> _]]]. apply in_or_app. right. left. reflexivity. Qed.

Lemma choose_cone_member : forall target first others it,
  choose_cone target first others = Ok it -> In it (first :: others).
Proof.
  intros target first others it H. unfold choose_cone in H.
  assert (Hdefault_in :
    match filter (fun x => String.eqb (item_type x) "geojson") (first :: others) with
    | g :: _ => Ok g
    | [] => Ok first
    end = Ok it -> In it (first :: others)).
  { destruct (filter (fun x => String.eqb (item_type x) "geojson") (first :: others))
      as [|g rest] eqn:F; intro H'; injection H' as <-.
    - left. reflexivity.
    - apply (first_such_In _ _ _ _ (filter_head_first_such _ _ _ _ _ F)). }
  destruct target as [t|]; [|cbn [bind] in H; apply Hdefault_in; exact H].
  destruct (String.eqb t ""); [cbn [bind] in H; apply Hdefault_in; exact H|].
  destruct (first_word (lower t)) as [w|]; [|discriminate H]. cbn [bind] in H.
  destruct (find _ (first :: others)) as [it'|] eqn:Ff.
  - injection H as <-. apply (first_such_In _ _ _ _ (find_first_such _ _ _ _ Ff)).
  - apply Hdefault_in. exact H.
Qed.

(** X25.  The product chosen among the candidates is one of them.  Without
    a target name (none or empty) it is the first GeoJSON candidate, or the
    first candidate when none is GeoJSON.  With a target name it is the first
    candidate whose title contains the first word of the name, letter case
    ignored, whatever its type; when no title contains it the choice is the
    one made without a name; and a name made of blanks only raises
    [IndexError]. *)
Theorem cone_choice_prefers_the_named_storm_then_geojson :
  forall (target : option string) (first : ConeItem) (others : list ConeItem),
  (forall it, choose_cone target first others = Ok it -> In it (first :: others)) /\
  (target = None \/ target = Some ""%string ->
     exists it,
       choose_cone target first others = Ok it /\
       (first_such (fun x => String.eqb (item_type x) "geojson") (first :: others) it \/
        (it = first /\
         forall x, In x (first :: others) -> String.eqb (item_type x) "geojson" = false))) /\
  (forall t, target = Some t -> t <> ""%string -> lstrip (lower t) = ""%string ->
     choose_cone target first others = Raise (Exn IndexError "list index out of range")) /\
  (forall t w x, target = Some t -> t <> ""%string -> first_word (lower t) = Ok w ->
     In x (first :: others) -> contains w (lower (item_title x)) = true ->
     exists it,
       choose_cone target first others = Ok it /\
       first_such (fun y => contains w (lower (item_title y))) (first :: others) it) /\
  (forall t w, target = Some t -> t <> ""%string -> first_word (lower t) = Ok w ->
     (forall x, In x (first :: others) -> contains w (lower (item_title x)) = false) ->
     choose_cone target first others = choose_cone None first others).
Proof.
  intros target first others.
  assert (Hdefault :
    exists it,
      match filter (fun x => String.eqb (item_type x) "geojson") (first :: others) with
      | g :: _ => Ok g
      | [] => Ok first
      end = Ok it /\
      (first_such (fun x => String.eqb (item_type x) "geojson") (first :: others) it \/
       (it = first /\
        forall x, In x (first :: others) -> String.eqb (item_type x) "geojson" = false))).
  { destruct (filter (fun x => String.eqb (item_type x) "geojson") (first :: others))
      as [|g rest] eqn:F.
    - exists first. split; [reflexivity|]. right. split; [reflexivity|].
      apply filter_nil_none. exact F.
    - exists g. split; [reflexivity|]. left. apply (filter_head_first_such _ _ _ _ _ F). }
  split; [|split; [|split; [|split]]].
  - intros it H. exact (choose_cone_member _ _ _ _ H).
  - intros [->| ->]; unfold choose_cone; cbn [String.eqb bind]; exact Hdefault.
  - intros t -> Hne Hsp. unfold choose_cone. apply String.eqb_neq in Hne. rewrite Hne.
    unfold first_word. rewrite Hsp. reflexivity.
  - intros t w x -> Hne Hw Hin Hx. unfold choose_cone. apply String.eqb_neq in Hne.
    rewrite Hne, Hw. cbn [bind].
    destruct (find_some_of_member _ (fun y => contains w (lower (item_title y)))
                (first :: others) x Hin Hx) as [it Hf].
    rewrite Hf. exists it. split; [reflexivity|]. apply find_first_such. exact Hf.
  - intros t w -> Hne Hw Hnone. unfold choose_cone. apply String.eqb_neq in Hne.
    rewrite Hne, Hw. cbn [bind].
    destruct (find (fun y => contains w (lower (item_title y))) (first :: others))
      as [it|] eqn:Hf; [|reflexivity].
    destruct (find_first_such _ _ _ _ Hf) as [l1 [l2 [Heq [Hp _]]]].
    rewrite (Hnone it) in Hp; [discriminate Hp|].
    rewrite Heq. apply in_or_app. right. left. reflexivity.
Qed.

Section ConeFetch.
Context {PY : Python} {SH : Shapely} {NH : Nhc}.

(** X26.  When neither feed can be fetched [fetch_current_cone] raises
    [RuntimeError] (no candidate), not the transport error.  When it returns,
    the source title, the source URL and the properties of the feature are
    those of one candidate, a cone product, and the geometry of the feature
    is what the loader of that candidate's type returned for its URL. *)
Theorem fetch_current_cone_reports_the_chosen_product :
  forall (c : HttpClient) (target : option string),
  ((forall u, In u NHC_GIS_FEEDS ->
      exists e, snd (get_feed feedparser_parse c u) = Raise e) ->
   fetch_current_cone c target
     = Raise (Exn RuntimeError "No cone products found in NHC GIS feeds")) /\
  (forall r, fetch_current_cone c target = Ok r ->
     exists items it geometry,
       _parse_gis_feed_for_cone_links c target = Ok items /\
       In it items /\ cone_product it /\
       cone_source_title r = item_title it /\
       cone_source_url r = item_url it /\
       (if String.eqb (item_type it) "geojson"
        then _load_cone_geojson c (item_url it)
        else _load_cone_shapefile_zip c (item_url it)) = Ok geometry /\
       cone_feature r =
         PDict [("type", PStr "Feature");
                ("properties", PDict [("source", PStr (item_url it));
                                      ("title", PStr (item_title it))]);
                ("geometry", geometry)]).
Proof.
  intros c target. split.
  - intro Hdown. unfold fetch_current_cone, _parse_gis_feed_for_cone_links, NHC_GIS_FEEDS.
    destruct (Hdown "https://www.nhc.noaa.gov/gis-at.xml"%string) as [e1 H1];
      [left; reflexivity|].
    destruct (Hdown "https://www.nhc.noaa.gov/gis-ep.xml"%string) as [e2 H2];
      [right; left; reflexivity|].
    cbn [mapM]. rewrite (feed_items_unreachable _ _ _ H1), (feed_items_unreachable _ _ _ H2).
    reflexivity.
  - intros r H. unfold fetch_current_cone in H.
    destruct (_parse_gis_feed_for_cone_links c target) as [items|] eqn:P; [|discriminate H].
    cbn [bind] in H. destruct items as [|first others]; [discriminate H|].
    destruct (choose_cone target first others) as [it|] eqn:Ch; [|discriminate H].
    cbn [bind] in H.
    match type of H with
    | bind ?m _ = _ => destruct m as [geometry|] eqn:L; [|discriminate H]
    end.
    cbn [bind] in H. injection H as <-.
    assert (Hin : In it (first :: others)).
    { exact (choose_cone_member _ _ _ _ Ch). }
    exists (first :: others), it, geometry. split; [reflexivity|]. split; [exact Hin|].
    split; [exact (parse_gis_feed_products _ _ _ _ P Hin)|].
    repeat split. exact L.
Qed.

End ConeFetch.

(** *** The rings of a shape *)

Lemma firstn_firstn_skipn : forall (A : Type) (n m : nat) (l : list A),
  firstn n l ++ firstn m (skipn n l) = firstn (n + m) l.
Proof.
  intros A. induction n as [|n IH]; intros m l; [reflexivity|].
  destruct l as [|x l]; simpl.
  - rewrite firstn_nil. reflexivity.
  - rewrite IH. reflexivity.
Qed.

Lemma skipn_skipn' : forall (A : Type) (a b : nat) (l : list A),
  (a <= b)%nat -> skipn b l = skipn (b - a) (skipn a l).
Proof.
  intros A. induction a as [|a IH]; intros b l H.
  - rewrite Nat.sub_0_r. reflexivity.
  - destruct b as [|b]; [lia|]. destruct l as [|x l]; simpl.
    + rewrite skipn_nil. reflexivity.
    + apply IH. lia.
Qed.

Lemma slice_app : forall (A : Type) (a b c : nat) (l : list A),
  (a <= b)%nat -> (b <= c)%nat -> slice a b l ++ slice b c l = slice a c l.
Proof.
  intros A a b c l Hab Hbc. unfold slice.
  rewrite (skipn_skipn' _ a b l Hab), firstn_firstn_skipn. f_equal. lia.
Qed.

Lemma last_cons_default : forall (A : Type) (l : list A) (x d : A),
  last (x :: l) d = last l x.
Proof.
  intros A. induction l as [|y l IH]; intros x d; [reflexivity|].
  change (last (x :: y :: l) d) with (last (y :: l) d).
  rewrite (IH y d), (IH y x). reflexivity.
Qed.

Lemma bounds_last_ge : forall (n : nat) (offsets : list nat) (a : nat),
  bounds_within n (a :: offsets) -> (a <= last offsets a)%nat.
Proof.
  intros n. induction offsets as [|x offsets IH]; intros a H.
  - simpl. lia.
  - destruct H as [_ [Hax Hr]]. rewrite last_cons_default.
    specialize (IH x Hr). lia.
Qed.

Lemma slices_concat : forall (A : Type) (pts : list A) (offsets : list nat) (a : nat),
  bounds_within (List.length pts) (a :: offsets) ->
  List.concat (slices_between pts (a :: offsets)) = slice a (last offsets a) pts.
Proof.
  intros A pts. induction offsets as [|b offsets IH]; intros a H.
  - simpl. unfold slice. rewrite Nat.sub_diag. reflexivity.
  - change (slices_between pts (a :: b :: offsets))
      with (slice a b pts :: slices_between pts (b :: offsets)).
    change (List.concat (slice a b pts :: slices_between pts (b :: offsets)))
      with (slice a b pts ++ List.concat (slices_between pts (b :: offsets))).
    destruct H as [Ha [Hab Hrest]].
    rewrite (IH b Hrest).
    rewrite (slice_app _ a b (last offsets b) pts Hab (bounds_last_ge _ _ _ Hrest)).
    rewrite last_cons_default. reflexivity.
Qed.

Lemma slice_all : forall (A : Type) (l : list A), slice 0 (List.length l) l = l.
Proof. intros A l. unfold slice. rewrite Nat.sub_0_r. simpl. apply firstn_all. Qed.

Lemma filter_subseq : forall (A : Type) (p : A -> bool) (l : list A), subseq (filter p l) l.
Proof.
  intros A p. induction l as [|a l IH]; [constructor|].
  cbn [filter]. destruct (p a); [apply subseq_keep | apply subseq_skip]; exact IH.
Qed.

Section ConeLoaders.
Context {PY : Python} {SH : Shapely} {NH : Nhc}.

(** X27.  The rings the shapefile loader keeps of a shape all have three
    points or more and are, in order, parts of the shape; when the part
    offsets start at 0, do not decrease and stay within the points, the parts
    cut the points into consecutive runs that put together give the points
    back.  A shape that is not a polygon, or that has no ring of three
    points, contributes nothing; otherwise the first ring kept is the
    exterior and the others are the holes. *)
Theorem shape_rings_partition_the_points : forall (s : ShpShape),
  Forall (fun ring => (3 <= List.length ring)%nat) (shape_rings s) /\
  subseq (shape_rings s)
         (slices_between (points s) (parts s ++ [List.length (points s)])) /\
  (forall rest, parts s = 0%nat :: rest ->
     bounds_within (List.length (points s)) (parts s) ->
     List.concat (slices_between (points s) (parts s ++ [List.length (points s)]))
       = points s) /\
  (is_polygon_type (shapeType s) = false -> shape_polygon s = Ok None) /\
  (shape_rings s = [] -> shape_polygon s = Ok None) /\
  (forall exterior interiors,
     is_polygon_type (shapeType s) = true ->
     shape_rings s = exterior :: interiors ->
     shape_polygon s =
       (poly <- polygon exterior interiors ;; Ok (if is_empty poly then None else Some poly))).
Proof.
  intro s. split; [|split; [|split; [|split; [|split]]]].
  - unfold shape_rings. apply Forall_forall. intros ring H. apply filter_In in H.
    destruct H as [_ H]. apply Nat.leb_le in H. exact H.
  - unfold shape_rings. apply filter_subseq.
  - intros rest Hp Hb. rewrite Hp in *. cbn [app].
    assert (Hw : bounds_within (List.length (points s))
                   (0%nat :: rest ++ [List.length (points s)])).
    { clear Hp. revert Hb. generalize 0%nat as a. induction rest as [|b rest IH]; intros a H.
      - destruct H as [Ha _]. simpl. repeat split; lia.
      - destruct H as [Ha [Hab Hr]]. cbn [app]. split; [exact Ha|]. split; [exact Hab|].
        apply IH. exact Hr. }
    rewrite (slices_concat _ _ _ _ Hw). rewrite last_last. apply slice_all.
  - intro H. unfold shape_polygon. rewrite H. reflexivity.
  - intro H. unfold shape_polygon. rewrite H. destruct (negb _); reflexivity.
  - intros exterior interiors Ht Hr. unfold shape_polygon. rewrite Ht, Hr. reflexivity.
Qed.

Lemma mapM_cone_geom_none : forall fs,
  (forall f, In f fs -> geometry_missing f) ->
  exists gs, mapM cone_geom fs = Ok gs /\ somes gs = [].
Proof.
  intros fs H. apply mapM_all_none. intros f Hf.
  destruct (H f Hf) as [d [-> Hg]]. unfold cone_geom. rewrite py_get_dict. cbn [bind].
  rewrite Hg. reflexivity.
Qed.

(** X28.  [_load_cone_geojson] passes on the error of its request; raises
    [ValueError] when no feature has a geometry; raises, too, as soon as one
    feature has a geometry [shape] rejects, where [_union_features] would
    skip that feature; and whatever it returns is the mapping of the union of
    a non-empty list of geometries. *)
Theorem load_cone_geojson_needs_every_geometry_to_parse :
  forall (c : HttpClient) (url : string),
  (forall e, snd (get_json c url None None) = Raise e ->
     _load_cone_geojson c url = Raise e) /\
  (forall dd fs, snd (get_json c url None None) = Ok (PDict dd) ->
     lookup "features" dd = Some (PList fs) \/ (lookup "features" dd = None /\ fs = []) ->
     (forall f, In f fs -> geometry_missing f) ->
     _load_cone_geojson c url = Raise (Exn ValueError "No geometries found in cone GeoJSON")) /\
  (forall dd fs d e, snd (get_json c url None None) = Ok (PDict dd) ->
     lookup "features" dd = Some (PList fs) ->
     In (PDict d) fs -> truthy (field "geometry" d) = true ->
     shape (field "geometry" d) = Raise e ->
     (exists e', _load_cone_geojson c url = Raise e') /\
     parse_feature (PDict d) = Ok None) /\
  (forall u, _load_cone_geojson c url = Ok u ->
     exists g gs, u = mapping (unary_union (g :: gs))).
Proof.
  intros c url. unfold _load_cone_geojson. split; [|split; [|split]].
  - intros e H. rewrite H. reflexivity.
  - intros dd fs H Hl Hmiss. rewrite H. cbn [bind]. unfold py_get_default.
    assert (Hf : match lookup "features" dd with Some x => x | None => PList [] end = PList fs).
    { destruct Hl as [Hl|[Hl ->]]; rewrite Hl; reflexivity. }
    rewrite Hf. cbn [bind py_iter].
    destruct (mapM_cone_geom_none fs Hmiss) as [gs [Hm Hs]].
    rewrite Hm. cbn [bind]. rewrite Hs. reflexivity.
  - intros dd fs d e H Hl Hin Ht Hs. split.
    + rewrite H. cbn [bind]. unfold py_get_default. rewrite Hl. cbn [bind py_iter].
      assert (Hc : cone_geom (PDict d) = Raise e).
      { unfold cone_geom. rewrite py_get_dict. cbn [bind]. rewrite Ht, Hs. reflexivity. }
      destruct (mapM_raises _ _ cone_geom fs (PDict d) e Hin Hc) as [e' ->].
      cbn [bind]. eauto.
    + unfold parse_feature. rewrite py_get_dict. cbn [bind]. rewrite Ht. cbn [negb].
      rewrite Hs. reflexivity.
  - intros u H. destruct (snd (get_json c url None None)) as [data|]; [|discriminate H].
    cbn [bind] in H. destruct (py_get_default data "features" (PList [])); [|discriminate H].
    cbn [bind] in H. destruct (py_iter a); [|discriminate H]. cbn [bind] in H.
    destruct (mapM cone_geom a0) as [gs|]; [|discriminate H]. cbn [bind] in H.
    destruct (somes gs) as [|g gs']; [discriminate H|]. injection H as <-.
    exists g, gs'. reflexivity.
Qed.

(** X29.  [_load_cone_shapefile_zip] passes on a transport error; raises
    [HTTPError] for the statuses 400 to 599 before the archive is touched;
    raises [ValueError] when no extracted name ends in [.shp] (letter case
    ignored) and when the shapefile yields no polygon; and whatever it
    returns is the mapping of the union of a non-empty list of polygons read
    from the first such file. *)
Theorem load_cone_shapefile_zip_failures_and_result :
  forall (c : HttpClient) (url : string),
  (forall e, session_get c url None None 60 = Raise e ->
     _load_cone_shapefile_zip c url = Raise e) /\
  (forall resp, session_get c url None None 60 = Ok resp ->
     (400 <= status_code resp < 600)%Z ->
     raises_http_error (_load_cone_shapefile_zip c url)) /\
  (forall resp names, session_get c url None None 60 = Ok resp ->
     raise_for_status resp = Ok tt ->
     extracted_names resp = Ok names ->
     (forall p, In p names -> endswith ".shp" (lower p) = false) ->
     _load_cone_shapefile_zip c url = Raise (Exn ValueError "No .shp file found in ZIP")) /\
  (forall resp names shp shapes, session_get c url None None 60 = Ok resp ->
     raise_for_status resp = Ok tt ->
     extracted_names resp = Ok names ->
     first_such (fun p => endswith ".shp" (lower p)) names shp ->
     reader_shapes resp shp = Ok shapes ->
     (forall s, In s shapes -> shape_polygon s = Ok None) ->
     _load_cone_shapefile_zip c url
       = Raise (Exn ValueError "No polygon geometries in shapefile")) /\
  (forall u, _load_cone_shapefile_zip c url = Ok u ->
     exists resp names shp shapes polys g gs,
       session_get c url None None 60 = Ok resp /\
       extracted_names resp = Ok names /\
       first_such (fun p => endswith ".shp" (lower p)) names shp /\
       reader_shapes resp shp = Ok shapes /\
       mapM shape_polygon shapes = Ok polys /\
       somes polys = g :: gs /\
       u = mapping (unary_union (g :: gs))).
Proof.
  intros c url. unfold _load_cone_shapefile_zip. split; [|split; [|split; [|split]]].
  - intros e H. rewrite H. reflexivity.
  - intros resp H Hs. rewrite H. cbn [bind].
    rewrite (raise_for_status_error resp Hs). eexists. reflexivity.
  - intros resp names H Hok Hn Hnone. rewrite H. cbn [bind]. rewrite Hok. cbn [bind].
    rewrite Hn. cbn [bind]. rewrite (filter_none _ _ _ Hnone). reflexivity.
  - intros resp names shp shapes H Hok Hn [l1 [l2 [-> [Hp Hl1]]]] Hr Hnone.
    rewrite H. cbn [bind]. rewrite Hok. cbn [bind]. rewrite Hn. cbn [bind].
    rewrite filter_app, (filter_none _ _ _ Hl1). cbn [filter app]. rewrite Hp.
    rewrite Hr. cbn [bind].
    destruct (mapM_all_none _ _ shape_polygon shapes Hnone) as [polys [Hm Hs]].
    rewrite Hm. cbn [bind]. rewrite Hs. reflexivity.
  - intros u H.
    destruct (session_get c url None None 60) as [resp|] eqn:G; [|discriminate H].
    cbn [bind] in H. destruct (raise_for_status resp) as [[]|]; [|discriminate H].
    cbn [bind] in H. destruct (extracted_names resp) as [names|] eqn:N; [|discriminate H].
    cbn [bind] in H.
    destruct (filter (fun p => endswith ".shp" (lower p)) names) as [|shp rest] eqn:F;
      [discriminate H|].
    destruct (reader_shapes resp shp) as [shapes|] eqn:R; [|discriminate H].
    cbn [bind] in H.
    destruct (mapM shape_polygon shapes) as [polys|] eqn:M; [|discriminate H].
    cbn [bind] in H.
    destruct (somes polys) as [|g gs] eqn:S; [discriminate H|]. injection H as <-.
    exists resp, names, shp, shapes, polys, g, gs.
    split; [reflexivity|]. split; [exact N|].
    split; [apply (filter_head_first_such _ _ _ _ _ F)|].
    split; [exact R|]. split; [exact M|]. split; [exact S | reflexivity].
Qed.

End ConeLoaders.

Lemma cone_candidates_are_cone_products_witness :
  _parse_gis_feed_for_cone_links ConeScenarios.nhc_client None
    = Ok [ConeScenarios.zip_item; ConeScenarios.geo_item] /\
  Forall cone_product [ConeScenarios.zip_item; ConeScenarios.geo_item].
Proof.
  destruct (@cone_candidates_are_cone_products Ref.python Ref.shapely ConeScenarios.nhc
              ConeScenarios.nhc_client None) as [Hall [_ [_ Hone]]].
  assert (H : _parse_gis_feed_for_cone_links ConeScenarios.nhc_client None
              = Ok [ConeScenarios.zip_item; ConeScenarios.geo_item]).
  { apply (Hone _ (Exn (ExternalError "HTTPError") "Client or Server Error"));
      vm_compute; reflexivity. }
  split; [exact H | exact (Hall _ H)].
Defined.

Lemma cone_choice_prefers_the_named_storm_then_geojson_witness :
  choose_cone None ConeScenarios.zip_item [ConeScenarios.geo_item]
    = Ok ConeScenarios.geo_item /\
  choose_cone (Some "   "%string) ConeScenarios.zip_item [ConeScenarios.geo_item]
    = Raise (Exn IndexError "list index out of range") /\
  exists it,
    choose_cone (Some "Alex 2024"%string) ConeScenarios.zip_item [ConeScenarios.geo_item]
      = Ok it /\
    first_such (fun y => contains "alex" (lower (item_title y)))
      [ConeScenarios.zip_item; ConeScenarios.geo_item] it.
Proof.
  split; [vm_compute; reflexivity|].
  split.
  - apply (proj1 (proj2 (proj2 (cone_choice_prefers_the_named_storm_then_geojson
                                  (Some "   "%string) ConeScenarios.zip_item
                                  [ConeScenarios.geo_item]))) "   "%string eq_refl).
    + discriminate.
    + reflexivity.
  - apply (proj1 (proj2 (proj2 (proj2 (cone_choice_prefers_the_named_storm_then_geojson
                                         (Some "Alex 2024"%string) ConeScenarios.zip_item
                                         [ConeScenarios.geo_item]))))
             "Alex 2024"%string "alex"%string ConeScenarios.geo_item eq_refl).
    + discriminate.
    + reflexivity.
    + right. left. reflexivity.
    + vm_compute. reflexivity.
Defined.

Lemma fetch_current_cone_reports_the_chosen_product_witness :
  exists r it,
    fetch_current_cone ConeScenarios.nhc_client None = Ok r /\
    cone_product it /\
    cone_source_url r = item_url it /\
    cone_source_url r = "https://www.nhc.noaa.gov/gis/forecast/AL01_CONE.GeoJSON"%string /\
    fetch_current_cone HttpScenarios.client_503 None
      = Raise (Exn RuntimeError "No cone products found in NHC GIS feeds").
Proof.
  destruct (@fetch_current_cone_reports_the_chosen_product Ref.python Ref.shapely
              ConeScenarios.nhc ConeScenarios.nhc_client None) as [_ Hr].
  destruct (@fetch_current_cone_reports_the_chosen_product Ref.python Ref.shapely
              ConeScenarios.nhc HttpScenarios.client_503 None) as [Hdown _].
  assert (H : exists r, fetch_current_cone ConeScenarios.nhc_client None = Ok r /\
                cone_source_url r
                = "https://www.nhc.noaa.gov/gis/forecast/AL01_CONE.GeoJSON"%string).
  { eexists. split; vm_compute; reflexivity. }
  destruct H as [r [H Hu]].
  destruct (Hr r H) as [items [it [geometry [_ [_ [Hp [_ [Hs _]]]]]]]].
  exists r, it. split; [exact H|]. split; [exact Hp|]. split; [exact Hs|].
  split; [exact Hu|].
  apply Hdown. intros u [<-|[<-|[]]]; eexists; vm_compute; reflexivity.
Defined.

Lemma shape_rings_partition_the_points_witness :
  List.length (shape_rings ConeScenarios.two_ring_shape) = 2%nat /\
  Forall (fun ring => (3 <= List.length ring)%nat) (shape_rings ConeScenarios.two_ring_shape) /\
  List.concat (slices_between (points ConeScenarios.two_ring_shape)
                 (parts ConeScenarios.two_ring_shape
                  ++ [List.length (points ConeScenarios.two_ring_shape)]))
    = points ConeScenarios.two_ring_shape.
Proof.
  destruct (@shape_rings_partition_the_points Ref.shapely ConeScenarios.nhc
              ConeScenarios.two_ring_shape) as [Hall [_ [Hcat _]]].
  split; [reflexivity|]. split; [exact Hall|].
  apply (Hcat [4; 6]%nat eq_refl). simpl. repeat split; lia.
Defined.

Lemma load_cone_geojson_needs_every_geometry_to_parse_witness :
  exists g gs,
    _load_cone_geojson ConeScenarios.nhc_client
      "https://www.nhc.noaa.gov/gis/forecast/AL01_CONE.GeoJSON"
    = Ok (mapping (unary_union (g :: gs))) /\
    _load_cone_geojson ConeScenarios.nhc_client "https://www.nhc.noaa.gov/gis-at.xml"
    = Raise (Exn (ExternalError "JSONDecodeError") "Expecting value").
Proof.
  destruct (@load_cone_geojson_needs_every_geometry_to_parse Ref.shapely
              ConeScenarios.nhc_client
              "https://www.nhc.noaa.gov/gis/forecast/AL01_CONE.GeoJSON"%string)
    as [_ [_ [_ Hu]]].
  destruct (@load_cone_geojson_needs_every_geometry_to_parse Ref.shapely
              ConeScenarios.nhc_client "https://www.nhc.noaa.gov/gis-at.xml"%string)
    as [He _].
  edestruct Hu as [g [gs Hg]]; [vm_compute; reflexivity|].
  exists g, gs. split.
  - rewrite <- Hg. vm_compute. reflexivity.
  - apply He. vm_compute. reflexivity.
Defined.

Lemma load_cone_shapefile_zip_failures_and_result_witness :
  raises_http_error
    (_load_cone_shapefile_zip ConeScenarios.nhc_client
       "https://www.nhc.noaa.gov/gis/forecast/al012024_5day_latest.zip") /\
  exists u shp,
    _load_cone_shapefile_zip ConeScenarios.archive_client
      "https://www.nhc.noaa.gov/gis/forecast/al012024_5day_latest.zip" = Ok u /\
    first_such (fun p => endswith ".shp" (lower p))
      ["cone.zip"; "readme.txt"; "AL01_5day_pgn.SHP"; "b.shp"]%string shp /\
    shp = "AL01_5day_pgn.SHP"%string.
Proof.
  destruct (@load_cone_shapefile_zip_failures_and_result Ref.shapely ConeScenarios.nhc
              ConeScenarios.nhc_client
              "https://www.nhc.noaa.gov/gis/forecast/al012024_5day_latest.zip"%string)
    as [_ [H4 _]].
  destruct (@load_cone_shapefile_zip_failures_and_result Ref.shapely ConeScenarios.nhc
              ConeScenarios.archive_client
              "https://www.nhc.noaa.gov/gis/forecast/al012024_5day_latest.zip"%string)
    as [_ [_ [_ [_ Hu]]]].
  split.
  - eapply H4; [vm_compute; reflexivity|]. simpl. lia.
  - edestruct Hu as [resp [names [shp [shapes [polys [g [gs [_ [Hn [Hf [Hr _]]]]]]]]]]];
      [vm_compute; reflexivity|].
    injection Hn as <-. eexists. exists shp. split; [vm_compute; reflexivity|].
    split; [exact Hf|].
    destruct Hf as [l1 [l2 [Heq [Hp Hl1]]]].
    destruct l1 as [|a [|b [|x [|y l1]]]]; injection Heq; intros; subst; try reflexivity;
      try discriminate Hp.
    + discriminate (Hl1 _ (or_intror (or_intror (or_introl eq_refl)))).
    + destruct l1; discriminate.
Defined.
